(** * NKO query layer: a shallow embedding of the MCP / OpenRouter integration

    The development follows three source files of the repository:

    - [src/mcp_server/server.py]: the HTTP binding ([Module Server]);
    - [src/mcp_server/main.py]: the standalone runner ([Module Main]);
    - [src/mcp_server/mcp.py]: the tool-invocation binding ([Module Mcp]).

    Python values are modelled by the inductive type [pyval], Python [str]
    by lists of Unicode code points, and the two external collaborators
    (the completion provider and the backend HTTP API) by oracles that see
    the history of the calls made so far.  Every external call is recorded
    in that history, so statements about "which calls were issued, in which
    order" are statements about the final history. *)

From Stdlib Require Import List ZArith NArith Bool String Ascii Lia.
Import ListNotations.

(* ===================================================================== *)
(** ** Python strings *)
(* ===================================================================== *)

Module PyStr.

Local Open Scope N_scope.

(** A Python [str] is a sequence of code points. *)
Definition pystr := list N.

Definition eqb (a b : pystr) : bool :=
  if list_eq_dec N.eq_dec a b then true else false.

(** Literals are written as Rocq strings holding UTF-8 and decoded here. *)
Fixpoint utf8_decode (bs : list N) : pystr :=
  match bs with
  | [] => []
  | b :: r =>
      if b <? 128 then b :: utf8_decode r
      else if b <? 224 then
        match r with
        | b2 :: r2 =>
            N.lor (N.shiftl (N.land b 31) 6) (N.land b2 63) :: utf8_decode r2
        | _ => [b]
        end
      else if b <? 240 then
        match r with
        | b2 :: b3 :: r3 =>
            N.lor (N.shiftl (N.land b 15) 12)
              (N.lor (N.shiftl (N.land b2 63) 6) (N.land b3 63))
              :: utf8_decode r3
        | _ => [b]
        end
      else
        match r with
        | b2 :: b3 :: b4 :: r4 =>
            N.lor (N.shiftl (N.land b 7) 18)
              (N.lor (N.shiftl (N.land b2 63) 12)
                 (N.lor (N.shiftl (N.land b3 63) 6) (N.land b4 63)))
              :: utf8_decode r4
        | _ => [b]
        end
  end.

Definition py (s : string) : pystr :=
  utf8_decode (map N_of_ascii (list_ascii_of_string s)).

(** [str.isspace] on one code point (CPython's [_PyUnicode_IsWhitespace]). *)
Definition isspace (c : N) : bool :=
  ((9 <=? c) && (c <=? 13)) || ((28 <=? c) && (c <=? 32))
  || (c =? 133) || (c =? 160) || (c =? 5760)
  || ((8192 <=? c) && (c <=? 8202))
  || (c =? 8232) || (c =? 8233) || (c =? 8239) || (c =? 8287) || (c =? 12288).

Fixpoint lstrip (s : pystr) : pystr :=
  match s with
  | c :: r => if isspace c then lstrip r else s
  | [] => []
  end.

Definition rstrip (s : pystr) : pystr := rev (lstrip (rev s)).

(** [s.strip()] *)
Definition strip (s : pystr) : pystr := rstrip (lstrip s).

(** [s.split(sep)] for a one-character separator: the pieces between the
    separators, empty pieces included; the empty string gives one empty
    piece. *)
Fixpoint split (sep : N) (s : pystr) : list pystr :=
  match s with
  | [] => [[]]
  | c :: r =>
      if c =? sep then [] :: split sep r
      else match split sep r with
           | p :: ps => (c :: p) :: ps
           | [] => [[c]]
           end
  end.

(** [sep.join(pieces)] for a one-character separator. *)
Fixpoint join (sep : N) (pieces : list pystr) : pystr :=
  match pieces with
  | [] => []
  | [p] => p
  | p :: ps => p ++ sep :: join sep ps
  end.

(** [s.lower()].  Only the ASCII letters are mapped: the one use in the
    sources compares the result with ["null"], and no code point outside
    [A-Z] lower-cases to one of the letters n, u, l. *)
Definition lower_char (c : N) : N :=
  if (65 <=? c) && (c <=? 90) then c + 32 else c.

Definition lower (s : pystr) : pystr := map lower_char s.

(** Truth value of a [str]: non-empty. *)
Definition nonempty (s : pystr) : bool :=
  match s with [] => false | _ => true end.

End PyStr.

Import PyStr.


(* ===================================================================== *)
(** ** Python values *)
(* ===================================================================== *)

(** A Python [float] obtained from a decimal literal, kept as the decimal
    it was read from: [Fdec neg m e] is the binary64 nearest to
    [(-1)^neg * m * 10^e]. *)
Inductive pyfloat :=
| Fnan
| Finf (neg : bool)
| Fdec (neg : bool) (m : N) (e : Z).

(** The values [json.loads] and [response.json()] can produce, which are
    also the values the sources store in their dictionaries. *)
#[warnings="-register-all"]
Inductive pyval :=
| PyNone
| PyBool (b : bool)
| PyInt (z : Z)
| PyFloat (f : pyfloat)
| PyStr (s : pystr)
| PyList (l : list pyval)
| PyDict (d : list (pystr * pyval)).

(** A [dict] keeps its keys in insertion order. *)
Definition dict := list (pystr * pyval).

Fixpoint dict_get (d : dict) (k : pystr) : option pyval :=
  match d with
  | [] => None
  | (k', v) :: r => if PyStr.eqb k' k then Some v else dict_get r k
  end.

(** [d[k] = v]: an existing key keeps its position. *)
Fixpoint dict_set (d : dict) (k : pystr) (v : pyval) : dict :=
  match d with
  | [] => [(k, v)]
  | (k', v') :: r =>
      if PyStr.eqb k' k then (k', v) :: r else (k', v') :: dict_set r k v
  end.

(** A decimal rounds to the float zero exactly when it is at most half the
    smallest subnormal, [2^-1075]. *)
Definition float_is_zero (f : pyfloat) : bool :=
  match f with
  | Fnan | Finf _ => false
  | Fdec _ m e =>
      (Z.of_N m =? 0)%Z
      || ((e <? 0)%Z && (Z.of_N m * 2 ^ 1075 <=? 10 ^ (- e))%Z)
  end.

(** Truth-value testing ([if v:], [not v]). *)
Definition truthy (v : pyval) : bool :=
  match v with
  | PyNone => false
  | PyBool b => b
  | PyInt z => negb (z =? 0)%Z
  | PyFloat f => negb (float_is_zero f)
  | PyStr s => nonempty s
  | PyList l => match l with [] => false | _ => true end
  | PyDict d => match d with [] => false | _ => true end
  end.

(* ===================================================================== *)
(** ** [json.loads] *)
(* ===================================================================== *)

(** The decoder of Python's standard library (the C scanner of CPython),
    for a [str] argument and default options.  [None] stands for
    [json.JSONDecodeError].  Interpreter resource limits (recursion depth,
    the digit limit of [int]) are outside this module; [Limited] below
    adds them. *)
Module Json.

Local Open Scope N_scope.

Definition is_ws (c : N) : bool :=
  (c =? 32) || (c =? 9) || (c =? 10) || (c =? 13).

Fixpoint skip_ws (s : pystr) : pystr :=
  match s with
  | c :: r => if is_ws c then skip_ws r else s
  | [] => []
  end.

Definition is_digit (c : N) : bool := (48 <=? c) && (c <=? 57).

Fixpoint take_digits (s : pystr) : pystr * pystr :=
  match s with
  | c :: r =>
      if is_digit c then let (ds, rest) := take_digits r in (c :: ds, rest)
      else ([], s)
  | [] => ([], [])
  end.

Definition digits_value (ds : pystr) : N :=
  fold_left (fun acc c => 10 * acc + (c - 48)) ds 0.

Definition hex_value (c : N) : option N :=
  if is_digit c then Some (c - 48)
  else if (97 <=? c) && (c <=? 102) then Some (c - 87)
  else if (65 <=? c) && (c <=? 70) then Some (c - 55)
  else None.

Definition hex4 (a b c d : N) : option N :=
  match hex_value a, hex_value b, hex_value c, hex_value d with
  | Some x, Some y, Some z, Some t => Some (((x * 16 + y) * 16 + z) * 16 + t)
  | _, _, _, _ => None
  end.

Definition is_high_surrogate (c : N) : bool := (55296 <=? c) && (c <=? 56319).
Definition is_low_surrogate (c : N) : bool := (56320 <=? c) && (c <=? 57343).
Definition join_surrogates (hi lo : N) : N :=
  65536 + (hi - 55296) * 1024 + (lo - 56320).

(** One-character escapes after a backslash. *)
Definition simple_escape (c : N) : option N :=
  if c =? 34 then Some 34          (* quote *)
  else if c =? 92 then Some 92     (* backslash *)
  else if c =? 47 then Some 47     (* slash *)
  else if c =? 98 then Some 8      (* b *)
  else if c =? 102 then Some 12    (* f *)
  else if c =? 110 then Some 10    (* n *)
  else if c =? 114 then Some 13    (* r *)
  else if c =? 116 then Some 9     (* t *)
  else None.

(** [scanstring], entered after the opening quote, in strict mode: the
    decoded string (accumulated in reverse) and the text after the closing
    quote. *)
Fixpoint scanstring (s : pystr) (acc : pystr) : option (pystr * pystr) :=
  match s with
  | [] => None                                   (* unterminated *)
  | c :: r =>
      if c =? 34 then Some (rev acc, r)
      else if c =? 92 then
        match r with
        | [] => None
        | e :: r1 =>
            if e =? 117 then                     (* \uXXXX *)
              match r1 with
              | h1 :: h2 :: h3 :: h4 :: r2 =>
                  match hex4 h1 h2 h3 h4 with
                  | None => None
                  | Some u =>
                      match r2 with
                      | b :: u' :: g1 :: g2 :: g3 :: g4 :: r3 =>
                          if is_high_surrogate u && (b =? 92) && (u' =? 117)
                          then
                            match hex4 g1 g2 g3 g4 with
                            | None => None
                            | Some u2 =>
                                if is_low_surrogate u2
                                then scanstring r3 (join_surrogates u u2 :: acc)
                                else scanstring r2 (u :: acc)
                            end
                          else scanstring r2 (u :: acc)
                      | _ => scanstring r2 (u :: acc)
                      end
                  end
              | _ => None
              end
            else
              match simple_escape e with
              | Some x => scanstring r1 (x :: acc)
              | None => None
              end
        end
      else if c <=? 31 then None                 (* control character *)
      else scanstring r (c :: acc)
  end.

Definition starts_with (p s : pystr) : option pystr :=
  if PyStr.eqb (firstn (List.length p) s) p
  then Some (skipn (List.length p) s) else None.

(** The number grammar of the scanner, longest match: an optional minus
    sign; a single zero, or a non-zero digit followed by digits; an optional
    fraction (a dot and at least one digit); an optional exponent (e or E,
    an optional sign, at least one digit). *)
Definition scan_sign (s : pystr) : bool * pystr :=
  match s with
  | c :: r => if c =? 45 then (true, r) else (false, s)
  | [] => (false, s)
  end.

Definition scan_int (s : pystr) : option (pystr * pystr) :=
  match s with
  | c :: r =>
      if (49 <=? c) && (c <=? 57)
      then let (ds, rest) := take_digits r in Some (c :: ds, rest)
      else if c =? 48 then Some ([c], r)
      else None
  | [] => None
  end.

(** The digits of the fraction, if a dot and a digit follow. *)
Definition scan_frac (s : pystr) : pystr * pystr :=
  match s with
  | dot :: d :: _ =>
      if (dot =? 46) && is_digit d then take_digits (tl s) else ([], s)
  | _ => ([], s)
  end.

(** The exponent, if the letter, an optional sign and a digit follow;
    otherwise nothing is consumed. *)
Definition scan_exp (s : pystr) : option Z * pystr :=
  match s with
  | e :: r =>
      if (e =? 101) || (e =? 69) then
        let (eneg, r') :=
          match r with
          | sg :: t =>
              if sg =? 45 then (true, t)
              else if sg =? 43 then (false, t)
              else (false, r)
          | [] => (false, r)
          end in
        let (eds, rest) := take_digits r' in
        match eds with
        | [] => (None, s)
        | _ :: _ =>
            (Some (if eneg then (- Z.of_N (digits_value eds))%Z
                   else Z.of_N (digits_value eds)), rest)
        end
      else (None, s)
  | [] => (None, s)
  end.

(** An integer literal gives an [int], a literal with a fraction or an
    exponent a [float]. *)
Definition match_number (s : pystr) : option (pyval * pystr) :=
  let (neg, s1) := scan_sign s in
  match scan_int s1 with
  | None => None
  | Some (ids, s2) =>
      let (frac, s3) := scan_frac s2 in
      let (ex, s4) := scan_exp s3 in
      match frac, ex with
      | [], None =>
          Some (PyInt (if neg then (- Z.of_N (digits_value ids))%Z
                       else Z.of_N (digits_value ids)), s4)
      | _, _ =>
          Some (PyFloat (Fdec neg (digits_value (ids ++ frac))
                           (match ex with Some x => x | None => 0%Z end
                            - Z.of_nat (List.length frac))%Z), s4)
      end
  end.

Section Containers.

(** The scanner for one value, at a smaller nesting budget. *)
Variable scan : pystr -> option (pyval * pystr).

(** The elements of an array after the first one has been read: [s] is the
    text after that element. *)
Fixpoint array_tail (n : nat) (s : pystr) (acc : list pyval)
  : option (pyval * pystr) :=
  match n with
  | O => None
  | S n' =>
      match skip_ws s with
      | c :: r =>
          if c =? 93 then Some (PyList (rev acc), r)
          else if c =? 44 then
            match scan (skip_ws r) with
            | Some (v, rest) => array_tail n' rest (v :: acc)
            | None => None
            end
          else None
      | [] => None
      end
  end.

(** [parse_array], entered after the opening bracket. *)
Definition parse_array (s : pystr) : option (pyval * pystr) :=
  match skip_ws s with
  | c :: r =>
      if c =? 93 then Some (PyList [], r)
      else match scan (skip_ws s) with
           | Some (v, rest) => array_tail (List.length rest) rest [v]
           | None => None
           end
  | [] => None
  end.

(** One [key : value] pair; [s] starts at the key's opening quote. *)
Definition parse_pair (s : pystr) : option (pystr * pyval * pystr) :=
  match s with
  | q :: r =>
      if q =? 34 then
        match scanstring r [] with
        | Some (k, r1) =>
            match skip_ws r1 with
            | colon :: r2 =>
                if colon =? 58 then
                  match scan (skip_ws r2) with
                  | Some (v, rest) => Some (k, v, rest)
                  | None => None
                  end
                else None
            | [] => None
            end
        | None => None
        end
      else None
  | [] => None
  end.

Fixpoint object_tail (n : nat) (s : pystr) (acc : dict)
  : option (pyval * pystr) :=
  match n with
  | O => None
  | S n' =>
      match skip_ws s with
      | c :: r =>
          if c =? 125 then Some (PyDict acc, r)
          else if c =? 44 then
            match parse_pair (skip_ws r) with
            | Some (k, v, rest) => object_tail n' rest (dict_set acc k v)
            | None => None
            end
          else None
      | [] => None
      end
  end.

(** [parse_object], entered after the opening brace. *)
Definition parse_object (s : pystr) : option (pyval * pystr) :=
  match skip_ws s with
  | c :: r =>
      if c =? 125 then Some (PyDict [], r)
      else match parse_pair (skip_ws s) with
           | Some (k, v, rest) => object_tail (List.length rest) rest [(k, v)]
           | None => None
           end
  | [] => None
  end.

End Containers.

(** The values that are not containers or strings: the three names, a
    number, and the three non-finite floats. *)
Definition scan_literal (s : pystr) : option (pyval * pystr) :=
  match starts_with (py "null") s with
  | Some rest => Some (PyNone, rest)
  | None =>
  match starts_with (py "true") s with
  | Some rest => Some (PyBool true, rest)
  | None =>
  match starts_with (py "false") s with
  | Some rest => Some (PyBool false, rest)
  | None =>
  match match_number s with
  | Some res => Some res
  | None =>
  match starts_with (py "NaN") s with
  | Some rest => Some (PyFloat Fnan, rest)
  | None =>
  match starts_with (py "Infinity") s with
  | Some rest => Some (PyFloat (Finf false), rest)
  | None =>
  match starts_with (py "-Infinity") s with
  | Some rest => Some (PyFloat (Finf true), rest)
  | None => None
  end end end end end end end.

(** [scan_once]: one value at the head of [s]; [depth] bounds the nesting
    of arrays and objects. *)
Fixpoint scan_once (depth : nat) (s : pystr) : option (pyval * pystr) :=
  match s with
  | [] => None
  | c :: r =>
      if c =? 34 then
        match scanstring r [] with
        | Some (x, rest) => Some (PyStr x, rest)
        | None => None
        end
      else if c =? 123 then
        match depth with
        | O => None
        | S d => parse_object (scan_once d) r
        end
      else if c =? 91 then
        match depth with
        | O => None
        | S d => parse_array (scan_once d) r
        end
      else scan_literal s
  end.

(** [json.loads(s)]: a leading byte-order mark is refused, white space
    around the value is skipped, anything after it is an error.  A text of
    [n] characters nests at most [n] containers, so the budget never runs
    out. *)
Definition loads (s : pystr) : option pyval :=
  match s with
  | 65279 :: _ => None
  | _ =>
      match scan_once (List.length s) (skip_ws s) with
      | Some (v, rest) =>
          match skip_ws rest with
          | [] => Some v
          | _ => None
          end
      | None => None
      end
  end.

End Json.


(* ===================================================================== *)
(** ** Exceptions, formatted texts, external calls *)
(* ===================================================================== *)

(** Optional strings seen as Python values ([None] or a [str]). *)
Definition of_opt (o : option pystr) : pyval :=
  match o with Some s => PyStr s | None => PyNone end.

(** The exceptions (subclasses of [Exception]) that occur in the three
    source files. *)
Inductive exn :=
| ProviderError (msg : pystr)
    (* raised by [client.chat.completions.create] or while reading
       [response.choices[0].message.content] *)
| NoneHasNoStrip
    (* [AttributeError]: [.strip()] on a [None] content *)
| RequestError (msg : pystr)
    (* raised by the HTTP client's [get] or by [response.json()] *)
| HTTPStatusError (status_code : Z) (body : pystr)
    (* raised by [response.raise_for_status()] *)
| NoLen (v : pyval)
    (* [TypeError]: [len(v)] on a value without length *)
| NotSliceable (v : pyval)
    (* [v[:5]] on a value that cannot be sliced *)
| HTTPException (status_code : Z) (detail : pystr).
    (* FastAPI's HTTP error *)

(** Texts built by f-strings.  [StrExn e] is [str(e)], [StrVal v] is
    [str(v)] and [JsonDumps v] is
    [json.dumps(v, ensure_ascii=False, indent=2)]; their characters are
    fixed by the libraries and not needed here. *)
Inductive frag :=
| Lit (s : pystr)
| StrExn (e : exn)
| StrVal (v : pyval)
| JsonDumps (v : pyval).

Definition fstring := list frag.

(** The context dictionary that [process_user_query] embeds in the system
    prompt of the recommendation call. *)
Record Context := {
  user_query : pystr;
  extracted_city : option pystr;
  extracted_categories : pyval;
  nko_count : nat;
  nko_data : pyval
}.

(** The three completion requests of the sources; the model name and the
    fixed prompt texts are constants of each request. *)
Inductive chat_request :=
| AskCity (query : pystr)
| AskCategories (query : pystr)
| AskRecommendation (context : Context) (query : pystr).

(** Backend URLs: [f"{BACKEND_URL}/nko"] and [f"{BACKEND_URL}/nko/{nko_id}"]. *)
Inductive url :=
| UrlNko
| UrlNkoById (nko_id : pyval).

(** One external call. *)
Inductive event :=
| Chat (request : chat_request)
| HttpGet (u : url) (params : dict).

Definition history := list event.

(** What the completion provider answers: an exception, or a response
    whose first choice has the given message content (possibly [None]). *)
Inductive chat_outcome :=
| ChatRaises (msg : pystr)
| ChatContent (content : option pystr).

(** What a backend request yields: an exception of the client (connection
    failure, body that is not JSON), an error status, or the decoded JSON
    body. *)
Inductive http_outcome :=
| HttpRaises (msg : pystr)
| HttpStatus (status_code : Z) (body : pystr)
| HttpJson (v : pyval).

(** The outside world: both collaborators may answer differently on every
    call, so they see the history of the calls made before. *)
Record World := {
  completion : history -> chat_request -> chat_outcome;
  backend : history -> url -> dict -> http_outcome
}.

(** *** The effect monad: a history of calls and exceptions *)

Inductive result (A : Type) :=
| Ok (a : A)
| Raise (e : exn).

Arguments Ok {A} a.
Arguments Raise {A} e.

Definition M (A : Type) := history -> result A * history.

Definition ret {A} (a : A) : M A := fun h => (Ok a, h).

Definition raise {A} (e : exn) : M A := fun h => (Raise e, h).

Definition bind {A B} (c : M A) (k : A -> M B) : M B :=
  fun h =>
    match c h with
    | (Ok a, h') => k a h'
    | (Raise e, h') => (Raise e, h')
    end.

(** [try: c except Exception as e: handler e] *)
Definition try_except {A} (c : M A) (handler : exn -> M A) : M A :=
  fun h =>
    match c h with
    | (Ok a, h') => (Ok a, h')
    | (Raise e, h') => handler e h'
    end.

Declare Scope py_scope.
Delimit Scope py_scope with py.
Notation "x <- c ;; k" := (bind c (fun x => k))
  (at level 61, c at next level, right associativity) : py_scope.
Local Open Scope py_scope.

(** [client.chat.completions.create(...)] followed by the read of
    [response.choices[0].message.content]. *)
Definition create_completion (w : World) (req : chat_request)
  : M (option pystr) :=
  fun h =>
    (match completion w h req with
     | ChatRaises msg => Raise (ProviderError msg)
     | ChatContent c => Ok c
     end, h ++ [Chat req]).

(** [http_client.get(url, params=params)], [raise_for_status()] and
    [response.json()]. *)
Definition http_get_json (w : World) (u : url) (params : dict) : M pyval :=
  fun h =>
    (match backend w h u params with
     | HttpRaises msg => Raise (RequestError msg)
     | HttpStatus code body => Raise (HTTPStatusError code body)
     | HttpJson v => Ok v
     end, h ++ [HttpGet u params]).

(** [content.strip()] *)
Definition content_strip (content : option pystr) : M pystr :=
  match content with
  | Some s => ret (strip s)
  | None => raise NoneHasNoStrip
  end.

(** [len(v)] *)
Definition py_len (v : pyval) : M nat :=
  match v with
  | PyStr s => ret (List.length s)
  | PyList l => ret (List.length l)
  | PyDict d => ret (List.length d)
  | _ => raise (NoLen v)
  end.

(** [v[:n]] *)
Definition py_slice_to (n : nat) (v : pyval) : M pyval :=
  match v with
  | PyStr s => ret (PyStr (firstn n s))
  | PyList l => ret (PyList (firstn n l))
  | _ => raise (NotSliceable v)
  end.

(** [[cat.strip() for cat in s.split(",") if cat.strip()]] *)
Definition comma_separated (s : pystr) : list pystr :=
  map strip (filter (fun cat => nonempty (strip cat)) (split 44 s)).

(** The apology of both [process_user_query] functions:
    [f"Извините, произошла ошибка при обработке вашего запроса: {str(e)}"] *)
Definition apology (e : exn) : fstring :=
  [Lit (py "Извините, произошла ошибка при обработке вашего запроса: ");
   StrExn e].

(* ===================================================================== *)
(** ** [src/mcp_server/server.py] *)
(* ===================================================================== *)

Module Server.

(** The dictionary returned by [process_user_query]. *)
Record Response := {
  response : option fstring;
  city : option pystr;
  categories : pyval
}.

Record QueryRequest := {
  query : pystr;
  jwt_token : option pystr
}.

Section WithWorld.

Variable w : World.

Definition get_nko_list (params : dict) : M pyval :=
  try_except
    (http_get_json w UrlNko params)
    (fun _ => ret (PyList [])).

Definition extract_city_from_query (query : pystr) : M (option pystr) :=
  try_except
    (content <- create_completion w (AskCity query) ;;
     city <- content_strip content ;;
     ret (if negb (PyStr.eqb (lower city) (py "null")) then Some city
          else None))
    (fun _ => ret None).

Definition extract_categories_from_query (query : pystr) : M pyval :=
  try_except
    (content <- create_completion w (AskCategories query) ;;
     categories_str <- content_strip content ;;
     match Json.loads categories_str with
     | Some v => ret v
     | None => ret (PyList (map PyStr (comma_separated categories_str)))
     end)
    (fun _ => ret (PyList [])).

(** Lines 134-151 of [process_user_query]: the fallback cascade. *)
Definition resolve (jwt_token city : option pystr) (categories : pyval)
  : M pyval :=
  let nko_params : dict := [] in
  let nko_params :=
    if truthy (of_opt jwt_token)
    then dict_set nko_params (py "jwt_token") (of_opt jwt_token)
    else nko_params in
  let nko_params :=
    if truthy (of_opt city)
    then dict_set nko_params (py "city") (of_opt city)
    else nko_params in
  let nko_params :=
    if truthy categories
    then dict_set nko_params (py "category") categories
    else nko_params in
  nko_list <- get_nko_list nko_params ;;
  nko_list <- (if negb (truthy nko_list) && truthy (of_opt city)
               then get_nko_list [(py "city", of_opt city)]
               else ret nko_list) ;;
  nko_list <- (if negb (truthy nko_list)
               then get_nko_list []
               else ret nko_list) ;;
  ret nko_list.

(** Lines 153-160: the context handed to the completion model. *)
Definition make_context (query : pystr) (city : option pystr)
    (categories nko_list : pyval) : M Context :=
  n <- py_len nko_list ;;
  first5 <- py_slice_to 5 nko_list ;;
  ret {| user_query := query;
         extracted_city := city;
         extracted_categories := categories;
         nko_count := n;
         nko_data := first5 |}.

(** Lines 130-197: the [try] block of [process_user_query]. *)
Definition process_user_query_try (query : pystr)
    (jwt_token : option pystr) : M Response :=
  city <- extract_city_from_query query ;;
  categories <- extract_categories_from_query query ;;
  nko_list <- resolve jwt_token city categories ;;
  context <- make_context query city categories nko_list ;;
  content <- create_completion w (AskRecommendation context query) ;;
  ret {| response := option_map (fun s => [Lit s]) content;
         city := city;
         categories := categories |}.

(** Lines 127-205: the block under its [except Exception] handler. *)
Definition process_user_query (query : pystr) (jwt_token : option pystr)
  : M Response :=
  try_except
    (process_user_query_try query jwt_token)
    (fun e =>
       ret {| response := Some (apology e);
              city := None;
              categories := PyList [] |}).

(** [POST /query].  The construction of the [QueryResponse] model from
    the returned dictionary is the validation of the pydantic library,
    taken as a parameter. *)
Section Endpoint.

Variable QueryResponse : Type.
Variable QueryResponse_init : Response -> result QueryResponse.

Definition query_nko (OPENROUTER_API_KEY : option pystr)
    (request : QueryRequest) : M QueryResponse :=
  if negb (truthy (of_opt OPENROUTER_API_KEY))
  then raise (HTTPException 500 (py "OpenRouter API key not configured"))
  else
    result <- process_user_query (query request) (jwt_token request) ;;
    (fun h => (QueryResponse_init result, h)).

End Endpoint.

End WithWorld.

End Server.

(* ===================================================================== *)
(** ** [src/mcp_server/main.py] *)
(* ===================================================================== *)

Module Main.

Section WithWorld.

Variable w : World.

Definition get_nko_list (params : dict) : M pyval :=
  try_except
    (http_get_json w UrlNko params)
    (fun _ => ret (PyList [])).

Definition extract_city_from_query (query : pystr) : M (option pystr) :=
  try_except
    (content <- create_completion w (AskCity query) ;;
     city <- content_strip content ;;
     ret (if negb (PyStr.eqb (lower city) (py "null")) then Some city
          else None))
    (fun _ => ret None).

Definition extract_categories_from_query (query : pystr) : M pyval :=
  try_except
    (content <- create_completion w (AskCategories query) ;;
     categories_str <- content_strip content ;;
     match Json.loads categories_str with
     | Some v => ret v
     | None => ret (PyList (map PyStr (comma_separated categories_str)))
     end)
    (fun _ => ret (PyList [])).

(** Lines 122-188.  The runner has no token and returns the text alone. *)
Definition process_user_query (query : pystr) : M (option fstring) :=
  try_except
    (city <- extract_city_from_query query ;;
     categories <- extract_categories_from_query query ;;
     let nko_params : dict := [] in
     let nko_params :=
       if truthy (of_opt city)
       then dict_set nko_params (py "city") (of_opt city)
       else nko_params in
     let nko_params :=
       if truthy categories
       then dict_set nko_params (py "category") categories
       else nko_params in
     nko_list <- get_nko_list nko_params ;;
     nko_list <- (if negb (truthy nko_list) && truthy (of_opt city)
                  then get_nko_list [(py "city", of_opt city)]
                  else ret nko_list) ;;
     nko_list <- (if negb (truthy nko_list)
                  then get_nko_list []
                  else ret nko_list) ;;
     n <- py_len nko_list ;;
     first5 <- py_slice_to 5 nko_list ;;
     let context :=
       {| user_query := query;
          extracted_city := city;
          extracted_categories := categories;
          nko_count := n;
          nko_data := first5 |} in
     content <- create_completion w (AskRecommendation context query) ;;
     ret (option_map (fun s => [Lit s]) content))
    (fun e => ret (Some (apology e))).

End WithWorld.

End Main.

(* ===================================================================== *)
(** ** [src/mcp_server/mcp.py] *)
(* ===================================================================== *)

Module Mcp.

(** [TextContent(type="text", text=...)] *)
Record TextContent := {
  type : pystr;
  text : fstring
}.

Definition text_content (t : fstring) : TextContent :=
  {| type := py "text"; text := t |}.

Section WithWorld.

Variable w : World.

(** [args.get("nko_id")]: the value, or [None] for an absent key. *)
Definition args_get (args : dict) (k : pystr) : pyval :=
  match dict_get args k with
  | Some v => v
  | None => PyNone
  end.

Definition get_nko_by_id (args : dict) : M (list TextContent) :=
  let nko_id := args_get args (py "nko_id") in
  if negb (truthy nko_id)
  then ret [text_content [Lit (py "Error: nko_id is required")]]
  else
    try_except
      (nko_data <- http_get_json w (UrlNkoById nko_id) [] ;;
       ret [text_content [JsonDumps nko_data]])
      (fun e =>
         match e with
         | HTTPStatusError status_code body =>
             let error_text :=
               if (status_code =? 404)%Z
               then [Lit (py "NKO with ID "); StrVal nko_id;
                     Lit (py " not found")]
               else [Lit (py "HTTP error "); StrVal (PyInt status_code);
                     Lit (py ": "); Lit body] in
             ret [text_content error_text]
         | _ =>
             ret [text_content [Lit (py "Error fetching NKO: "); StrExn e]]
         end).

End WithWorld.

End Mcp.

(* ===================================================================== *)
(** ** The specification's fallback cascade *)
(* ===================================================================== *)

Module Spec.

(** "A call that raises any error is treated as zero results": what one
    candidate yields when it is tried at history [h]. *)
Definition answer (w : World) (h : history) (filter_set : dict) : pyval :=
  match backend w h UrlNko filter_set with
  | HttpJson v => v
  | HttpRaises _ | HttpStatus _ _ => PyList []
  end.

(** Candidate 1: city and categories, plus the token if present. *)
Definition full_filter_set (jwt_token city : option pystr)
    (categories : pyval) : dict :=
  (if truthy (of_opt jwt_token) then [(py "jwt_token", of_opt jwt_token)]
   else [])
  ++ (if truthy (of_opt city) then [(py "city", of_opt city)] else [])
  ++ (if truthy categories then [(py "category", categories)] else []).

(** Candidate 2: the city alone. *)
Definition city_only_filter_set (city : option pystr) : dict :=
  [(py "city", of_opt city)].

(** Candidate 3: no filter. *)
Definition empty_filter_set : dict := [].

(** The ordered candidates: the second one exists only when a city was
    extracted. *)
Definition candidates (jwt_token city : option pystr) (categories : pyval)
  : list dict :=
  full_filter_set jwt_token city categories
  :: (if truthy (of_opt city) then [city_only_filter_set city] else [])
  ++ [empty_filter_set].

(** "Ordered candidate FilterSets, first non-empty result wins": a run of
    the cascade from history [h] over the candidates, ending with a record
    set and a history.  Every rule issues exactly one backend call for the
    candidate it tries. *)
Inductive cascade (w : World)
  : history -> list dict -> pyval -> history -> Prop :=
| cascade_wins h c cs :
    truthy (answer w h c) = true ->
    cascade w h (c :: cs) (answer w h c) (h ++ [HttpGet UrlNko c])
| cascade_terminal h c :
    truthy (answer w h c) = false ->
    cascade w h [c] (answer w h c) (h ++ [HttpGet UrlNko c])
| cascade_falls_back h c c' cs r h' :
    truthy (answer w h c) = false ->
    cascade w (h ++ [HttpGet UrlNko c]) (c' :: cs) r h' ->
    cascade w h (c :: c' :: cs) r h'.

(** The history of the calls issued for the first [k] candidates. *)
Definition calls (h : history) (cs : list dict) (k : nat) : history :=
  h ++ map (HttpGet UrlNko) (firstn k cs).

(** A failed completion: the call raised, or the response carries no
    text content. *)
Definition completion_failed (o : chat_outcome) : bool :=
  match o with
  | ChatRaises _ | ChatContent None => true
  | ChatContent (Some _) => false
  end.

End Spec.

(* ===================================================================== *)
(** ** The stages of a cycle in closed form *)
(* ===================================================================== *)

(** What each stage of the sources returns, as a function of what the
    collaborators answered.  The run lemmas below prove each of them equal
    to the source function it summarises. *)
Module Outcome.

(** The city extracted from the provider's answer to the city request:
    the trimmed content, unless the completion failed or the content is
    the null marker. *)
Definition city_of (o : chat_outcome) : option pystr :=
  match o with
  | ChatContent (Some s) =>
      if PyStr.eqb (lower (strip s)) (py "null") then None
      else Some (strip s)
  | ChatContent None | ChatRaises _ => None
  end.

(** The categories extracted from the provider's answer to the category
    request: the JSON value of the trimmed content, else its
    comma-separated pieces; the empty list when the completion failed. *)
Definition categories_of (o : chat_outcome) : pyval :=
  match o with
  | ChatContent (Some s) =>
      match Json.loads (strip s) with
      | Some v => v
      | None => PyList (map PyStr (comma_separated (strip s)))
      end
  | ChatContent None | ChatRaises _ => PyList []
  end.

(** The recommendation context for a record set: the total count and at
    most the first five records.  A value without length, or one that
    cannot be sliced, raises. *)
Definition context_of (query : pystr) (city : option pystr)
    (categories nko_list : pyval) : result Context :=
  match nko_list with
  | PyStr s =>
      Ok {| user_query := query; extracted_city := city;
            extracted_categories := categories;
            nko_count := List.length s; nko_data := PyStr (firstn 5 s) |}
  | PyList l =>
      Ok {| user_query := query; extracted_city := city;
            extracted_categories := categories;
            nko_count := List.length l; nko_data := PyList (firstn 5 l) |}
  | PyDict _ => Raise (NotSliceable nko_list)
  | _ => Raise (NoLen nko_list)
  end.

End Outcome.

(* ===================================================================== *)
(** ** Concrete worlds *)
(* ===================================================================== *)

Module Scenario.

(** [s] between double quotes. *)
Definition quoted (s : pystr) : pystr := (34 :: s ++ [34])%N.

Definition record (id : nat) : pyval :=
  PyDict [(py "id", PyInt (Z.of_nat id)); (py "city", PyStr (py "Казань"))].

(** The twelve organizations of Kazan. *)
Definition kazan_listing : list pyval := map record (seq 1 12).

Definition full_listing : list pyval := map record (seq 1 20).

Definition kazan_query : pystr := py "волонтёрство для животных в Казани".

(** The scenario of the specification: the provider extracts the city
    Kazan and the category "животные"; the backend has no record for this
    category, twelve records for Kazan, twenty in all. *)
Definition kazan : World := {|
  completion := fun _ req =>
    match req with
    | AskCity _ => ChatContent (Some (py " Казань "))
    | AskCategories _ =>
        ChatContent (Some (py "[" ++ quoted (py "животные") ++ py "]"))
    | AskRecommendation _ _ => ChatContent (Some (py "Рекомендации"))
    end;
  backend := fun _ _ params =>
    match dict_get params (py "category"), dict_get params (py "city") with
    | Some _, _ => HttpJson (PyList [])
    | None, Some _ => HttpJson (PyList kazan_listing)
    | None, None => HttpJson (PyList full_listing)
    end
|}.

(** Both collaborators are unreachable. *)
Definition unreachable : World := {|
  completion := fun _ _ => ChatRaises (py "Connection error.");
  backend := fun _ _ _ => HttpRaises (py "All connection attempts failed")
|}.

(** The provider is unreachable, the backend answers as in [kazan]. *)
Definition provider_down : World := {|
  completion := fun _ _ => ChatRaises (py "Connection error.");
  backend := backend kazan
|}.

(** Extraction and backend work as in [kazan]; the recommendation request
    fails. *)
Definition composer_down : World := {|
  completion := fun h req =>
    match req with
    | AskRecommendation _ _ => ChatRaises (py "Request timed out.")
    | _ => completion kazan h req
    end;
  backend := backend kazan
|}.

(** The provider answers the category request with the JSON text
    [null]. *)
Definition null_categories : World := {|
  completion := fun _ req =>
    match req with
    | AskCity _ => ChatContent (Some (py "Казань"))
    | AskCategories _ => ChatContent (Some (py "null"))
    | AskRecommendation _ _ => ChatContent (Some (py "Рекомендации"))
    end;
  backend := backend kazan
|}.

(** The provider answers the category request with bare words. *)
Definition bare_categories : World := {|
  completion := fun _ req =>
    match req with
    | AskCity _ => ChatContent (Some (py "null"))
    | AskCategories _ => ChatContent (Some (py "едa, помощь животным"))
    | AskRecommendation _ _ => ChatContent (Some (py "Рекомендации"))
    end;
  backend := backend kazan
|}.

End Scenario.

(* ===================================================================== *)
(** ** The backend API as the tools see it *)
(* ===================================================================== *)

(** The tool binding and the helpers of the runner reach three paths of
    the backend and make no completion request.  Their calls are logged on
    their own, and the one exception besides those of [exn] is the
    [TypeError] of a [for] loop over a value that cannot be iterated. *)
Module Api.

(** [f"{BACKEND_URL}/nko"], [f"{BACKEND_URL}/nko/{nko_id}"] and
    [f"{BACKEND_URL}/city"]. *)
Inductive path :=
| PathNko
| PathNkoById (nko_id : pyval)
| PathCity.

(** One [client.get(url, params=params)]. *)
Inductive call :=
| Get (p : path) (params : dict).

Definition log := list call.

(** The backend: it may answer differently on every call. *)
Record Service := {
  respond : log -> path -> dict -> http_outcome
}.

Inductive failure :=
| Lib (e : exn)
| NotIterable (v : pyval).

(** [type(v).__name__] *)
Definition type_name (v : pyval) : pystr :=
  match v with
  | PyNone => py "NoneType"
  | PyBool _ => py "bool"
  | PyInt _ => py "int"
  | PyFloat _ => py "float"
  | PyStr _ => py "str"
  | PyList _ => py "list"
  | PyDict _ => py "dict"
  end.

(** [str(e)] inside an f-string. *)
Definition str_failure (e : failure) : frag :=
  match e with
  | Lib e => StrExn e
  | NotIterable v => Lit (py "'" ++ type_name v ++ py "' object is not iterable")
  end.

Inductive outcome (A : Type) :=
| Done (a : A)
| Failed (e : failure).

Arguments Done {A} a.
Arguments Failed {A} e.

Definition T (A : Type) := log -> outcome A * log.

Definition done {A} (a : A) : T A := fun l => (Done a, l).

Definition fail {A} (e : failure) : T A := fun l => (Failed e, l).

Definition and_then {A B} (c : T A) (k : A -> T B) : T B :=
  fun l =>
    match c l with
    | (Done a, l') => k a l'
    | (Failed e, l') => (Failed e, l')
    end.

(** [try: c except ... as e: handler e] *)
Definition attempt {A} (c : T A) (handler : failure -> T A) : T A :=
  fun l =>
    match c l with
    | (Done a, l') => (Done a, l')
    | (Failed e, l') => handler e l'
    end.

(** [client.get(url, params=params)], [raise_for_status()] and
    [response.json()]. *)
Definition get_json (s : Service) (p : path) (params : dict) : T pyval :=
  fun l =>
    (match respond s l p params with
     | HttpRaises msg => Failed (Lib (RequestError msg))
     | HttpStatus code body => Failed (Lib (HTTPStatusError code body))
     | HttpJson v => Done v
     end, l ++ [Get p params]).

(** The values a [for] loop can go through. *)
Definition iterable (v : pyval) : bool :=
  match v with
  | PyList _ | PyStr _ | PyDict _ => true
  | _ => false
  end.

(** The elements a [for] loop goes through. *)
Definition py_iter (v : pyval) : T (list pyval) :=
  match v with
  | PyList l => done l
  | PyStr s => done (map (fun c => PyStr [c]) s)
  | PyDict d => done (map (fun kv => PyStr (fst kv)) d)
  | _ => fail (NotIterable v)
  end.

(** [args.get(k, default)] *)
Definition get_or (args : dict) (k : pystr) (default : pyval) : pyval :=
  match dict_get args k with
  | Some v => v
  | None => default
  end.

(** [v is not None] *)
Definition is_not_none (v : pyval) : bool :=
  match v with
  | PyNone => false
  | _ => true
  end.

End Api.

Notation "x <~ c ;; k" := (Api.and_then c (fun x => k))
  (at level 61, c at next level, right associativity) : py_scope.

(* ===================================================================== *)
(** ** [src/mcp_server/mcp.py]: the three tools and their dispatch *)
(* ===================================================================== *)

Module McpTools.

Import Api.

(** [Tool(name=..., description=..., inputSchema=...)] *)
Record Tool := {
  name : pystr;
  description : pystr;
  inputSchema : pyval
}.

(** [{"type": t, "description": d}] *)
Definition property (t d : string) : pyval :=
  PyDict [(py "type", PyStr (py t)); (py "description", PyStr (py d))].

Definition handle_list_tools : list Tool :=
  [ {| name := py "get_nko_list";
       description :=
         py "Get a list of NKO (Non-Profit Organizations) with optional filtering";
       inputSchema :=
         PyDict
           [(py "type", PyStr (py "object"));
            (py "properties",
             PyDict
               [(py "jwt_token",
                 property "string"
                   "JWT token for user authentication (required only for favorite filter)");
                (py "city",
                 property "string" "Filter by city name (optional)");
                (py "favorite",
                 property "boolean"
                   "Filter by favorite status (optional, requires jwt_token)");
                (py "category",
                 PyDict
                   [(py "type", PyStr (py "array"));
                    (py "items", PyDict [(py "type", PyStr (py "string"))]);
                    (py "description",
                     PyStr (py "Filter by categories (optional, can provide multiple)"))]);
                (py "regex",
                 property "string"
                   "Regular expression to search in name and description (optional)")])]
    |};
    {| name := py "get_nko_by_id";
       description := py "Get a specific NKO by its ID";
       inputSchema :=
         PyDict
           [(py "type", PyStr (py "object"));
            (py "properties",
             PyDict
               [(py "nko_id",
                 property "integer" "The ID of the NKO to retrieve")]);
            (py "required", PyList [PyStr (py "nko_id")])]
    |};
    {| name := py "get_cities";
       description := py "Get all available cities with optional regex filter";
       inputSchema :=
         PyDict
           [(py "type", PyStr (py "object"));
            (py "properties",
             PyDict
               [(py "regex",
                 property "string"
                   "Regular expression to filter city names (optional)")])]
    |} ].

Section WithService.

Variable service : Service.

(** [str(v).lower()], the text of a value in lower case: Python's own
    formatting, taken as a parameter. *)
Variable str_lower : pyval -> pystr.

(** [f"HTTP error {e.response.status_code}: {e.response.text}"] *)
Definition http_error_text (status_code : Z) (body : pystr) : fstring :=
  [Lit (py "HTTP error "); StrVal (PyInt status_code); Lit (py ": ");
   Lit body].

Definition get_nko_list (args : dict) : T (list Mcp.TextContent) :=
  let jwt_token := get_or args (py "jwt_token") (PyStr []) in
  let city := get_or args (py "city") PyNone in
  let favorite := get_or args (py "favorite") PyNone in
  let categories := get_or args (py "category") (PyList []) in
  let regex := get_or args (py "regex") PyNone in
  attempt
    (let params : dict := [] in
     let params :=
       if truthy jwt_token then dict_set params (py "jwt_token") jwt_token
       else params in
     let params :=
       if truthy city then dict_set params (py "city") city else params in
     let params :=
       if is_not_none favorite
       then dict_set params (py "favorite") (PyStr (str_lower favorite))
       else params in
     let params :=
       if truthy regex then dict_set params (py "regex") regex else params in
     params <~ (if truthy categories
                then
                  items <~ py_iter categories ;;
                  done (fold_left
                          (fun params category =>
                             dict_set params (py "category") categories)
                          items params)
                else done params) ;;
     nko_list <~ get_json service PathNko params ;;
     done [Mcp.text_content [JsonDumps nko_list]])
    (fun e =>
       match e with
       | Lib (HTTPStatusError status_code body) =>
           done [Mcp.text_content (http_error_text status_code body)]
       | _ =>
           done [Mcp.text_content
                   [Lit (py "Error fetching NKO list: "); str_failure e]]
       end).

Definition get_nko_by_id (args : dict) : T (list Mcp.TextContent) :=
  let nko_id := get_or args (py "nko_id") PyNone in
  if negb (truthy nko_id)
  then done [Mcp.text_content [Lit (py "Error: nko_id is required")]]
  else
    attempt
      (nko_data <~ get_json service (PathNkoById nko_id) [] ;;
       done [Mcp.text_content [JsonDumps nko_data]])
      (fun e =>
         match e with
         | Lib (HTTPStatusError status_code body) =>
             let error_text :=
               if (status_code =? 404)%Z
               then [Lit (py "NKO with ID "); StrVal nko_id;
                     Lit (py " not found")]
               else http_error_text status_code body in
             done [Mcp.text_content error_text]
         | _ =>
             done [Mcp.text_content
                     [Lit (py "Error fetching NKO: "); str_failure e]]
         end).

Definition get_cities (args : dict) : T (list Mcp.TextContent) :=
  let regex := get_or args (py "regex") PyNone in
  attempt
    (let params : dict := [] in
     let params :=
       if truthy regex then dict_set params (py "regex") regex else params in
     cities <~ get_json service PathCity params ;;
     done [Mcp.text_content [JsonDumps cities]])
    (fun e =>
       match e with
       | Lib (HTTPStatusError status_code body) =>
           done [Mcp.text_content (http_error_text status_code body)]
       | _ =>
           done [Mcp.text_content
                   [Lit (py "Error fetching cities: "); str_failure e]]
       end).

Definition handle_call_tool (name : pystr) (arguments : dict)
  : T (list Mcp.TextContent) :=
  attempt
    (if PyStr.eqb name (py "get_nko_list") then get_nko_list arguments
     else if PyStr.eqb name (py "get_nko_by_id") then get_nko_by_id arguments
     else if PyStr.eqb name (py "get_cities") then get_cities arguments
     else done [Mcp.text_content [Lit (py "Unknown tool: "); Lit name]])
    (fun e => done [Mcp.text_content [Lit (py "Error: "); str_failure e]]).

End WithService.

End McpTools.

(* ===================================================================== *)
(** ** [src/mcp_server/main.py]: the backend helpers *)
(* ===================================================================== *)

Module MainApi.

Import Api.

Section WithService.

Variable service : Service.

(** The identifier is an [int]; the result is the decoded body, or [None]
    after any failure. *)
Definition get_nko_by_id (nko_id : Z) : T pyval :=
  attempt
    (get_json service (PathNkoById (PyInt nko_id)) [])
    (fun _ => done PyNone).

Definition get_cities (regex : option pystr) : T pyval :=
  attempt
    (let params : dict := [] in
     let params :=
       if truthy (of_opt regex)
       then dict_set params (py "regex") (of_opt regex)
       else params in
     get_json service PathCity params)
    (fun _ => done (PyList [])).

End WithService.

End MainApi.

(* ===================================================================== *)
(** ** The two views of the backend side by side *)
(* ===================================================================== *)

(** [get_nko_by_id] of mcp.py is modelled twice, in [Mcp] on a [World] and
    in [McpTools] on a [Service].  A service, at a given log, is seen as a
    world whose history starts empty. *)
Module Bridge.

Definition widen_url (u : url) : Api.path :=
  match u with
  | UrlNko => Api.PathNko
  | UrlNkoById nko_id => Api.PathNkoById nko_id
  end.

(** The backend calls of a history. *)
Definition widen (h : history) : Api.log :=
  flat_map (fun e =>
              match e with
              | HttpGet u params => [Api.Get (widen_url u) params]
              | Chat _ => []
              end) h.

Definition narrow (s : Api.Service) (l : Api.log) : World := {|
  completion := fun _ _ => ChatRaises [];
  backend := fun h u params => Api.respond s (l ++ widen h) (widen_url u) params
|}.

Definition inject {A} (r : result A) : Api.outcome A :=
  match r with
  | Ok a => Api.Done a
  | Raise e => Api.Failed (Api.Lib e)
  end.

End Bridge.

(* ===================================================================== *)
(** ** More concrete worlds and services *)
(* ===================================================================== *)

Module Cases.

(** A world given by its two extraction answers and its backend. *)
Definition answers (city categories : chat_outcome)
    (b : history -> url -> dict -> http_outcome) : World := {|
  completion := fun _ req =>
    match req with
    | AskCity _ => city
    | AskCategories _ => categories
    | AskRecommendation _ _ => ChatContent (Some (py "Рекомендации"))
    end;
  backend := b
|}.

(** The null marker in capitals, between white space. *)
Definition shouted_null : World :=
  answers (ChatContent (Some (py "  NuLL ")))
    (ChatContent (Some (py "[]"))) (backend Scenario.kazan).

(** A blank answer to the city request. *)
Definition blank_city : World :=
  answers (ChatContent (Some (py "   ")))
    (ChatContent (Some (py "[]"))) (backend Scenario.kazan).

(** The backend answers every search with an error envelope under a
    success status. *)
Definition envelope : World :=
  answers (ChatContent (Some (py "Казань")))
    (ChatContent (Some (py "[]")))
    (fun _ _ _ =>
       HttpJson (PyDict [(py "detail", PyStr (py "maintenance"))])).

(** A backend that knows the organizations 1 to 12 and the two cities. *)
Definition directory : Api.Service := {|
  Api.respond := fun _ p _ =>
    match p with
    | Api.PathNko => HttpJson (PyList Scenario.kazan_listing)
    | Api.PathNkoById (PyInt id) =>
        if ((1 <=? id) && (id <=? 12))%Z
        then HttpJson (Scenario.record (Z.to_nat id))
        else HttpStatus 404 (py "Not Found")
    | Api.PathNkoById _ => HttpStatus 422 (py "Unprocessable Entity")
    | Api.PathCity =>
        HttpJson (PyList [PyStr (py "Казань"); PyStr (py "Москва")])
    end
|}.

(** A backend that cannot be reached. *)
Definition offline : Api.Service := {|
  Api.respond := fun _ _ _ => HttpRaises (py "All connection attempts failed")
|}.

(** [str(v).lower()] on the values whose text is a fixed word; the
    examples use no other value. *)
Definition word_lower (v : pyval) : pystr :=
  match v with
  | PyNone => py "none"
  | PyBool true => py "true"
  | PyBool false => py "false"
  | _ => []
  end.

End Cases.

(* ===================================================================== *)
(** ** Shapes of provider answers *)
(* ===================================================================== *)

Module Shape.

Local Open Scope N_scope.

(** All characters are white space. *)
Definition blank (s : pystr) : bool := forallb isspace s.

(** Neither the first nor the last character is white space. *)
Definition trimmed (s : pystr) : bool :=
  match s with
  | [] => true
  | c :: _ => negb (isspace c) && negb (isspace (last s 0))
  end.

(** A character that stands for itself inside a JSON string: no quote, no
    backslash, no control character. *)
Definition plain_char (c : N) : bool :=
  negb (c =? 34) && negb (c =? 92) && negb (c <=? 31).

Definition plain (s : pystr) : bool := forallb plain_char s.

(** The text [json.dumps(names, ensure_ascii=False)] writes for a list of
    plain strings: the quoted names between brackets, separated by a comma
    and a space. *)
Definition array_text (names : list pystr) : pystr :=
  match names with
  | [] => py "[]"
  | first :: others =>
      91 :: Scenario.quoted first
      ++ List.concat (map (fun s => py ", " ++ Scenario.quoted s) others)
      ++ [93]
  end.

(** The characters a JSON value can begin with: a quote, a brace, a
    bracket, a minus sign, a digit, and the first letters of [null],
    [true], [false], [NaN] and [Infinity]. *)
Definition can_start_value (c : N) : bool :=
  (c =? 34) || (c =? 123) || (c =? 91) || (c =? 45) || Json.is_digit c
  || (c =? 110) || (c =? 116) || (c =? 102) || (c =? 78) || (c =? 73).

End Shape.

(* ===================================================================== *)
(** ** [json.loads] under the limits of the interpreter *)
(* ===================================================================== *)

(** The decoder once more, with the two limits of CPython under which
    [json.loads] raises an exception that is not a
    [json.JSONDecodeError]: the scanner enters every array and every object
    through the recursion check of the interpreter ([RecursionError]), and
    an integer literal is converted by [int], which refuses more digits
    than [sys.get_int_max_str_digits()] allows ([ValueError]).  The handler
    around [json.loads] in [extract_categories_from_query] catches
    [json.JSONDecodeError] only, so both reach the outer handler. *)
Module Limited.

Local Open Scope N_scope.

Record limits := {
  (* the number of nested containers the decoder can enter before the
     recursion limit of the interpreter is reached *)
  max_depth : nat;
  (* [sys.get_int_max_str_digits()]; zero switches the limit off *)
  max_str_digits : nat
}.

Inductive decoder_error :=
| RecursionError
| ValueError.

(** What a scanner does: it returns, it raises [json.JSONDecodeError]
    ([Invalid]), or it raises one of the two other exceptions. *)
Inductive scan (A : Type) :=
| Found (a : A)
| Invalid
| Exceeded (e : decoder_error).

Arguments Found {A} a.
Arguments Invalid {A}.
Arguments Exceeded {A} e.

(** The check of [int] on a decimal text of [digits] digits: texts of at
    most 640 digits are never refused. *)
Definition too_many_digits (lim : limits) (digits : nat) : bool :=
  ((640 <? digits) && (0 <? max_str_digits lim)
   && (max_str_digits lim <? digits))%nat.

(** The number grammar as in [Json.match_number]; an integer literal goes
    through the check of [int], a float literal does not. *)
Definition match_number (lim : limits) (s : pystr) : scan (pyval * pystr) :=
  let (neg, s1) := Json.scan_sign s in
  match Json.scan_int s1 with
  | None => Invalid
  | Some (ids, s2) =>
      let (frac, s3) := Json.scan_frac s2 in
      let (ex, s4) := Json.scan_exp s3 in
      match frac, ex with
      | [], None =>
          if too_many_digits lim (List.length ids)
          then Exceeded ValueError
          else
            Found (PyInt (if neg then (- Z.of_N (Json.digits_value ids))%Z
                          else Z.of_N (Json.digits_value ids)), s4)
      | _, _ =>
          Found (PyFloat (Fdec neg (Json.digits_value (ids ++ frac))
                            (match ex with Some x => x | None => 0%Z end
                             - Z.of_nat (List.length frac))%Z), s4)
      end
  end.

Section Containers.

(** The scanner for one value, one level further down. *)
Variable scan_value : pystr -> scan (pyval * pystr).

Fixpoint array_tail (n : nat) (s : pystr) (acc : list pyval)
  : scan (pyval * pystr) :=
  match n with
  | O => Invalid
  | S n' =>
      match Json.skip_ws s with
      | c :: r =>
          if c =? 93 then Found (PyList (rev acc), r)
          else if c =? 44 then
            match scan_value (Json.skip_ws r) with
            | Found (v, rest) => array_tail n' rest (v :: acc)
            | Invalid => Invalid
            | Exceeded e => Exceeded e
            end
          else Invalid
      | [] => Invalid
      end
  end.

Definition parse_array (s : pystr) : scan (pyval * pystr) :=
  match Json.skip_ws s with
  | c :: r =>
      if c =? 93 then Found (PyList [], r)
      else match scan_value (Json.skip_ws s) with
           | Found (v, rest) => array_tail (List.length rest) rest [v]
           | Invalid => Invalid
           | Exceeded e => Exceeded e
           end
  | [] => Invalid
  end.

Definition parse_pair (s : pystr) : scan (pystr * pyval * pystr) :=
  match s with
  | q :: r =>
      if q =? 34 then
        match Json.scanstring r [] with
        | Some (k, r1) =>
            match Json.skip_ws r1 with
            | colon :: r2 =>
                if colon =? 58 then
                  match scan_value (Json.skip_ws r2) with
                  | Found (v, rest) => Found (k, v, rest)
                  | Invalid => Invalid
                  | Exceeded e => Exceeded e
                  end
                else Invalid
            | [] => Invalid
            end
        | None => Invalid
        end
      else Invalid
  | [] => Invalid
  end.

Fixpoint object_tail (n : nat) (s : pystr) (acc : dict)
  : scan (pyval * pystr) :=
  match n with
  | O => Invalid
  | S n' =>
      match Json.skip_ws s with
      | c :: r =>
          if c =? 125 then Found (PyDict acc, r)
          else if c =? 44 then
            match parse_pair (Json.skip_ws r) with
            | Found (k, v, rest) => object_tail n' rest (dict_set acc k v)
            | Invalid => Invalid
            | Exceeded e => Exceeded e
            end
          else Invalid
      | [] => Invalid
      end
  end.

Definition parse_object (s : pystr) : scan (pyval * pystr) :=
  match Json.skip_ws s with
  | c :: r =>
      if c =? 125 then Found (PyDict [], r)
      else match parse_pair (Json.skip_ws s) with
           | Found (k, v, rest) => object_tail (List.length rest) rest [(k, v)]
           | Invalid => Invalid
           | Exceeded e => Exceeded e
           end
  | [] => Invalid
  end.

End Containers.

Definition scan_literal (lim : limits) (s : pystr) : scan (pyval * pystr) :=
  match Json.starts_with (py "null") s with
  | Some rest => Found (PyNone, rest)
  | None =>
  match Json.starts_with (py "true") s with
  | Some rest => Found (PyBool true, rest)
  | None =>
  match Json.starts_with (py "false") s with
  | Some rest => Found (PyBool false, rest)
  | None =>
  match match_number lim s with
  | Found res => Found res
  | Exceeded e => Exceeded e
  | Invalid =>
  match Json.starts_with (py "NaN") s with
  | Some rest => Found (PyFloat Fnan, rest)
  | None =>
  match Json.starts_with (py "Infinity") s with
  | Some rest => Found (PyFloat (Finf false), rest)
  | None =>
  match Json.starts_with (py "-Infinity") s with
  | Some rest => Found (PyFloat (Finf true), rest)
  | None => Invalid
  end end end end end end end.

(** [scan_once] with [depth] containers left to enter: an opening brace or
    bracket at depth zero raises [RecursionError]. *)
Fixpoint scan_once (lim : limits) (depth : nat) (s : pystr)
  : scan (pyval * pystr) :=
  match s with
  | [] => Invalid
  | c :: r =>
      if c =? 34 then
        match Json.scanstring r [] with
        | Some (x, rest) => Found (PyStr x, rest)
        | None => Invalid
        end
      else if c =? 123 then
        match depth with
        | O => Exceeded RecursionError
        | S d => parse_object (scan_once lim d) r
        end
      else if c =? 91 then
        match depth with
        | O => Exceeded RecursionError
        | S d => parse_array (scan_once lim d) r
        end
      else scan_literal lim s
  end.

(** [json.loads(s)] *)
Definition loads (lim : limits) (s : pystr) : scan pyval :=
  match s with
  | 65279 :: _ => Invalid
  | _ =>
      match scan_once lim (max_depth lim) (Json.skip_ws s) with
      | Found (v, rest) =>
          match Json.skip_ws rest with
          | [] => Found v
          | _ => Invalid
          end
      | Invalid => Invalid
      | Exceeded e => Exceeded e
      end
  end.

(** The result of a scanner as [Json] gives it, when no limit was hit. *)
Definition erase {A} (r : scan A) : option A :=
  match r with
  | Found a => Some a
  | Invalid | Exceeded _ => None
  end.

Definition exceeded {A} (r : scan A) : bool :=
  match r with
  | Exceeded _ => true
  | Found _ | Invalid => false
  end.

(** *** The extraction with both handlers *)

(** What the body of a [try] block can raise now: the exceptions of the
    calls, or one of the two of the decoder. *)
Inductive raised :=
| Library (e : exn)
| Decoder (e : decoder_error).

Inductive outcome (A : Type) :=
| Returns (a : A)
| Raises (e : raised).

Arguments Returns {A} a.
Arguments Raises {A} e.

Definition T (A : Type) := history -> outcome A * history.

Definition done {A} (a : A) : T A := fun h => (Returns a, h).

Definition fail {A} (e : raised) : T A := fun h => (Raises e, h).

Definition lift {A} (c : M A) : T A :=
  fun h =>
    match c h with
    | (Ok a, h') => (Returns a, h')
    | (Raise e, h') => (Raises (Library e), h')
    end.

Definition and_then {A B} (c : T A) (k : A -> T B) : T B :=
  fun h =>
    match c h with
    | (Returns a, h') => k a h'
    | (Raises e, h') => (Raises e, h')
    end.

(** [try: c except Exception as e: handler e] *)
Definition attempt {A} (c : T A) (handler : raised -> M A) : M A :=
  fun h =>
    match c h with
    | (Returns a, h') => (Ok a, h')
    | (Raises e, h') => handler e h'
    end.

Section WithWorld.

Variable lim : limits.
Variable w : World.

(** Lines 100-125 of [server.py] (93-118 of [main.py]): the inner handler
    is the [Invalid] branch, everything else that is raised goes to the
    outer one. *)
Definition extract_categories_from_query (query : pystr) : M pyval :=
  attempt
    (and_then (lift (create_completion w (AskCategories query)))
       (fun content =>
     and_then (lift (content_strip content))
       (fun categories_str =>
     match loads lim categories_str with
     | Found v => done v
     | Invalid =>
         done (PyList (map PyStr (comma_separated categories_str)))
     | Exceeded e => fail (Decoder e)
     end)))
    (fun _ => ret (PyList [])).

End WithWorld.

(** The limits of CPython 3.11 as it starts: a recursion limit of 1000,
    under which the decoder enters at most a thousand containers, and 4300
    digits. *)
Definition defaults : limits :=
  {| max_depth := 1000; max_str_digits := 4300 |}.

(** A JSON array of two names as [json.dumps] writes it, between white
    space. *)
Definition padded_array : pystr :=
  py "  " ++ Shape.array_text [py "едa"; py "помощь животным"] ++ [10; 32].

(** A JSON array after a no-break space, which [strip] removes and the
    JSON grammar does not allow. *)
Definition nbsp_array : pystr := 160 :: Shape.array_text [py "едa"].

(** A decimal integer of 4301 digits: valid JSON. *)
Definition long_integer : pystr := repeat 49 4301.

(** 1001 opening brackets followed by 1001 closing ones: valid JSON. *)
Definition deep_array : pystr := repeat 91 1001 ++ repeat 93 1001.

(** 1001 opening brackets and nothing else: not JSON. *)
Definition open_brackets : pystr := repeat 91 1001.

(** The value of [depth] arrays inside one another, the innermost empty. *)
Fixpoint nested (depth : nat) : pyval :=
  match depth with
  | O => PyList []
  | S d => PyList [nested d]
  end.

(** A world whose provider answers the category request with [text]. *)
Definition answering (text : pystr) : World :=
  Cases.answers (ChatContent (Some (py "null"))) (ChatContent (Some text))
    (fun _ _ _ => HttpJson (PyList [])).

End Limited.

(* ===================================================================== *)
(** ** Strings and the JSON decoder on examples *)
(* ===================================================================== *)

Lemma pystr_eqb_eq a b : PyStr.eqb a b = true <-> a = b.
Proof.
  unfold PyStr.eqb. destruct (list_eq_dec N.eq_dec a b); split; congruence.
Qed.

Example py_ascii : py "null" = [110; 117; 108; 108]%N.
Proof. reflexivity. Qed.

Example py_cyrillic : py "едa" = [1077; 1076; 97]%N.
Proof. reflexivity. Qed.

Example strip_example : strip (py "  a b	") = py "a b".
Proof. reflexivity. Qed.

Example split_example :
  split 44 (py "a,,b,") = [py "a"; []; py "b"; []].
Proof. reflexivity. Qed.

Example loads_null : Json.loads (py "null") = Some PyNone.
Proof. reflexivity. Qed.

Example loads_array :
  Json.loads (py " [1, -20, 1.5e3, true, {}, [null]] ")
  = Some (PyList [PyInt 1; PyInt (-20); PyFloat (Fdec false 15 2);
                  PyBool true; PyDict []; PyList [PyNone]]).
Proof. reflexivity. Qed.

Example loads_trailing_comma : Json.loads (py "[1,]") = None.
Proof. reflexivity. Qed.

Example loads_leading_zero : Json.loads (py "01") = None.
Proof. reflexivity. Qed.

Example loads_bare_words : Json.loads (py "едa, помощь животным") = None.
Proof. reflexivity. Qed.

(** *** [split] and [strip] against their Python meaning *)

Lemma split_not_nil sep s : split sep s <> [].
Proof.
  destruct s as [|c r]; cbn; [discriminate|].
  destruct (c =? sep)%N; [discriminate|].
  destruct (split sep r); discriminate.
Qed.

(** Joining the pieces with the separator gives the string back. *)
Lemma join_split sep s : join sep (split sep s) = s.
Proof.
  induction s as [|c r IH]; [reflexivity|].
  cbn [split]. destruct (N.eqb_spec c sep) as [->|Hc].
  - pose proof (split_not_nil sep r) as Hne.
    destruct (split sep r) as [|p ps] eqn:E; [congruence|].
    cbn [join app]. cbn [join] in IH. rewrite IH. reflexivity.
  - pose proof (split_not_nil sep r) as Hne.
    destruct (split sep r) as [|p ps] eqn:E; [congruence|].
    destruct ps as [|q qs]; cbn [join app] in *; rewrite IH; reflexivity.
Qed.

(** No piece contains the separator. *)
Lemma split_no_sep sep s : Forall (fun p => ~ In sep p) (split sep s).
Proof.
  induction s as [|c r IH]; cbn [split].
  - constructor; [intros []|constructor].
  - destruct (N.eqb_spec c sep) as [->|Hc].
    + constructor; [intros []|exact IH].
    + destruct (split sep r) as [|p ps]; [repeat constructor|].
      * intros [E|[]]. congruence.
      * inversion IH as [|? ? Hp Hps]; subst. constructor; [|exact Hps].
        intros [E|Hin]; [congruence | exact (Hp Hin)].
Qed.

Lemma lstrip_spec s :
  exists spaces,
    s = spaces ++ lstrip s
    /\ forallb isspace spaces = true
    /\ match lstrip s with c :: _ => isspace c = false | [] => True end.
Proof.
  induction s as [|c r (spaces & E & Hs & Hh)].
  - exists []. repeat split.
  - cbn [lstrip]. destruct (isspace c) eqn:Hc.
    + exists (c :: spaces). cbn [app forallb]. rewrite Hc, Hs, <- E.
      repeat split. exact Hh.
    + exists []. repeat split. exact Hc.
Qed.

(** [strip] removes exactly the white space at both ends. *)
Lemma strip_spec s :
  exists before after,
    s = before ++ strip s ++ after
    /\ forallb isspace before = true
    /\ forallb isspace after = true
    /\ (forall c r, strip s = c :: r -> isspace c = false)
    /\ (forall r c, strip s = r ++ [c] -> isspace c = false).
Proof.
  unfold strip, rstrip.
  destruct (lstrip_spec s) as (before & E1 & H1 & Hhead).
  destruct (lstrip_spec (rev (lstrip s))) as (after & E2 & H2 & Hlast).
  set (t := lstrip (rev (lstrip s))) in *.
  assert (E3 : lstrip s = rev t ++ rev after).
  { rewrite <- rev_app_distr, <- E2, rev_involutive. reflexivity. }
  exists before, (rev after). repeat split.
  - rewrite <- E3. exact E1.
  - exact H1.
  - rewrite forallb_forall in *. intros c Hc. apply H2, in_rev. exact Hc.
  - intros c r Hr. rewrite E3, Hr in Hhead. cbn [app] in Hhead. exact Hhead.
  - intros r c Hr.
    assert (Ht : t = c :: rev r).
    { rewrite <- (rev_involutive t), Hr, rev_app_distr. reflexivity. }
    rewrite Ht in Hlast. exact Hlast.
Qed.

(** *** The budgets of the decoder

    Every scanner consumes at least one character of its input, so the
    loops over the elements of a container and the nesting of containers
    are bounded by the length of the text: budgets of at least that length
    all give the same result. *)

Lemma skip_ws_length s : List.length (Json.skip_ws s) <= List.length s.
Proof.
  induction s as [|c r IH]; cbn; [lia|].
  destruct (Json.is_ws c); cbn; lia.
Qed.

Lemma take_digits_length s :
  List.length (snd (Json.take_digits s)) <= List.length s.
Proof.
  induction s as [|c r IH]; cbn; [lia|].
  destruct (Json.is_digit c); cbn; [|lia].
  destruct (Json.take_digits r); cbn in *; lia.
Qed.

Lemma scanstring_length_aux n : forall s acc x rest,
  List.length s <= n ->
  Json.scanstring s acc = Some (x, rest) ->
  List.length rest < List.length s.
Proof.
  induction n as [|n IH]; intros s acc x rest Hle.
  - destruct s; [discriminate | cbn in Hle; lia].
  - destruct s as [|c r]; [discriminate|].
    cbn [Json.scanstring]. cbn [List.length] in Hle.
    repeat match goal with
    | |- context [if ?b then _ else _] => destruct b
    | |- context [match ?l with [] => _ | _ :: _ => _ end] =>
        is_var l; destruct l; cbn [List.length] in Hle
    | |- context [match ?o with Some _ => _ | None => _ end] => destruct o
    | |- None = Some _ -> _ => discriminate
    | |- Some _ = Some _ -> _ =>
        let E := fresh in intros E; inversion E; subst; cbn [List.length]; lia
    | |- Json.scanstring ?t _ = Some _ -> _ =>
        let E := fresh in
        intros E; apply IH in E; cbn [List.length] in *; lia
    end.
Qed.

Lemma scanstring_length s acc x rest :
  Json.scanstring s acc = Some (x, rest) ->
  List.length rest < List.length s.
Proof. apply (scanstring_length_aux (List.length s)). lia. Qed.

Lemma starts_with_length p s rest :
  p <> [] -> Json.starts_with p s = Some rest ->
  List.length rest < List.length s.
Proof.
  intros Hp. unfold Json.starts_with.
  destruct (PyStr.eqb (firstn (List.length p) s) p) eqn:E; [|discriminate].
  intros [= <-]. apply pystr_eqb_eq in E.
  assert (L : List.length (firstn (List.length p) s) = List.length p)
    by (rewrite E; reflexivity).
  rewrite length_firstn in L. rewrite length_skipn.
  destruct p; [congruence|]. cbn [List.length] in *. lia.
Qed.


Lemma scan_sign_length s :
  List.length (snd (Json.scan_sign s)) <= List.length s.
Proof.
  destruct s as [|c r]; cbn; [lia|]. destruct (c =? 45)%N; cbn; lia.
Qed.

Lemma scan_int_length s ids rest :
  Json.scan_int s = Some (ids, rest) -> List.length rest < List.length s.
Proof.
  destruct s as [|c r]; cbn; [discriminate|].
  destruct ((49 <=? c)%N && (c <=? 57)%N).
  - pose proof (take_digits_length r) as P.
    destruct (Json.take_digits r) as [ds t]. cbn [snd] in P.
    intros [= _ <-]. lia.
  - destruct (c =? 48)%N; [|discriminate]. intros [= _ <-]. lia.
Qed.

Lemma scan_frac_length s :
  List.length (snd (Json.scan_frac s)) <= List.length s.
Proof.
  destruct s as [|dot [|d r]]; cbn [Json.scan_frac snd]; try lia.
  destruct ((dot =? 46)%N && Json.is_digit d); cbn [snd]; [|lia].
  pose proof (take_digits_length (tl (dot :: d :: r))) as P.
  cbn [tl List.length] in *. lia.
Qed.

Lemma scan_exp_length s :
  List.length (snd (Json.scan_exp s)) <= List.length s.
Proof.
  destruct s as [|e r]; cbn [Json.scan_exp snd]; [lia|].
  destruct ((e =? 101)%N || (e =? 69)%N); cbn [snd]; [|lia].
  assert (Sign : exists b t,
            match r with
            | [] => (false, r)
            | sg :: t0 =>
                if (sg =? 45)%N then (true, t0)
                else if (sg =? 43)%N then (false, t0) else (false, r)
            end = (b, t) /\ List.length t <= List.length r).
  { destruct r as [|sg t0]; [eexists _, _; split; [reflexivity | lia]|].
    destruct (sg =? 45)%N;
      [eexists _, _; split; [reflexivity | cbn; lia]|].
    destruct (sg =? 43)%N; eexists _, _; split; try reflexivity; cbn; lia. }
  destruct Sign as (eneg & r' & -> & L).
  pose proof (take_digits_length r') as P.
  destruct (Json.take_digits r') as [eds rest]. cbn [snd] in P.
  destruct eds; cbn [snd List.length]; lia.
Qed.

Lemma match_number_length s v rest :
  Json.match_number s = Some (v, rest) ->
  List.length rest < List.length s.
Proof.
  unfold Json.match_number.
  pose proof (scan_sign_length s) as P1.
  destruct (Json.scan_sign s) as [neg s1]. cbn [snd] in P1.
  destruct (Json.scan_int s1) as [[ids s2]|] eqn:E; [|discriminate].
  apply scan_int_length in E.
  pose proof (scan_frac_length s2) as P3.
  destruct (Json.scan_frac s2) as [frac s3]. cbn [snd] in P3.
  pose proof (scan_exp_length s3) as P4.
  destruct (Json.scan_exp s3) as [ex s4]. cbn [snd] in P4.
  destruct frac, ex; intros [= _ <-]; lia.
Qed.

Lemma scan_literal_length s v rest :
  Json.scan_literal s = Some (v, rest) ->
  List.length rest < List.length s.
Proof.
  unfold Json.scan_literal.
  repeat match goal with
  | |- context [Json.starts_with ?p s] =>
      let E := fresh "E" in
      destruct (Json.starts_with p s) eqn:E;
      [apply starts_with_length in E; [|discriminate];
       intros [= _ <-]; exact E |]
  | |- context [Json.match_number s] =>
      let E := fresh "E" in
      destruct (Json.match_number s) as [[? ?]|] eqn:E;
      [apply match_number_length in E; intros [= _ <-]; exact E |]
  end.
  discriminate.
Qed.

Section ContainerFacts.

Variable scan : pystr -> option (pyval * pystr).
Hypothesis scan_shrinks : forall s v rest,
  scan s = Some (v, rest) -> List.length rest < List.length s.

Lemma array_tail_length n : forall s acc v rest,
  Json.array_tail scan n s acc = Some (v, rest) ->
  List.length rest < List.length s.
Proof.
  induction n as [|n IH]; intros s acc v rest; cbn [Json.array_tail];
    [discriminate|].
  pose proof (skip_ws_length s) as W.
  destruct (Json.skip_ws s) as [|c r]; [discriminate|]. cbn [List.length] in W.
  destruct (c =? 93)%N; [intros [= _ <-]; lia|].
  destruct (c =? 44)%N; [|discriminate].
  pose proof (skip_ws_length r) as W'.
  destruct (scan (Json.skip_ws r)) as [[x t]|] eqn:E; [|discriminate].
  apply scan_shrinks in E. intros H. apply IH in H. lia.
Qed.

Lemma array_tail_stable n : forall m s acc,
  List.length s <= n -> List.length s <= m ->
  Json.array_tail scan n s acc = Json.array_tail scan m s acc.
Proof.
  induction n as [|n IH]; intros m s acc Hn Hm.
  - destruct s; [|cbn in Hn; lia]. destruct m; reflexivity.
  - destruct m as [|m].
    { destruct s; [reflexivity | cbn in Hm; lia]. }
    cbn [Json.array_tail].
    pose proof (skip_ws_length s) as W.
    destruct (Json.skip_ws s) as [|c r]; [reflexivity|].
    cbn [List.length] in W.
    destruct (c =? 93)%N; [reflexivity|].
    destruct (c =? 44)%N; [|reflexivity].
    pose proof (skip_ws_length r) as W'.
    destruct (scan (Json.skip_ws r)) as [[x t]|] eqn:E; [|reflexivity].
    apply scan_shrinks in E. apply IH; lia.
Qed.

Lemma parse_array_length s v rest :
  Json.parse_array scan s = Some (v, rest) ->
  List.length rest < List.length s.
Proof.
  unfold Json.parse_array.
  pose proof (skip_ws_length s) as W.
  destruct (Json.skip_ws s) as [|c r] eqn:Es; [discriminate|].
  cbn [List.length] in W.
  destruct (c =? 93)%N; [intros [= _ <-]; lia|].
  destruct (scan (c :: r)) as [[x t]|] eqn:E; [|discriminate].
  apply scan_shrinks in E. intros H. apply array_tail_length in H.
  cbn [List.length] in E. lia.
Qed.

Lemma parse_pair_length s k v rest :
  Json.parse_pair scan s = Some (k, v, rest) ->
  List.length rest < List.length s.
Proof.
  unfold Json.parse_pair.
  destruct s as [|q r]; [discriminate|].
  destruct (q =? 34)%N; [|discriminate].
  destruct (Json.scanstring r []) as [[key r1]|] eqn:E1; [|discriminate].
  apply scanstring_length in E1.
  pose proof (skip_ws_length r1) as W1.
  destruct (Json.skip_ws r1) as [|colon r2]; [discriminate|].
  cbn [List.length] in W1.
  destruct (colon =? 58)%N; [|discriminate].
  pose proof (skip_ws_length r2) as W2.
  destruct (scan (Json.skip_ws r2)) as [[x t]|] eqn:E; [|discriminate].
  apply scan_shrinks in E. intros [= _ _ <-]. cbn [List.length]. lia.
Qed.

Lemma object_tail_length n : forall s acc v rest,
  Json.object_tail scan n s acc = Some (v, rest) ->
  List.length rest < List.length s.
Proof.
  induction n as [|n IH]; intros s acc v rest; cbn [Json.object_tail];
    [discriminate|].
  pose proof (skip_ws_length s) as W.
  destruct (Json.skip_ws s) as [|c r]; [discriminate|]. cbn [List.length] in W.
  destruct (c =? 125)%N; [intros [= _ <-]; lia|].
  destruct (c =? 44)%N; [|discriminate].
  pose proof (skip_ws_length r) as W'.
  destruct (Json.parse_pair scan (Json.skip_ws r)) as [[[k x] t]|] eqn:E;
    [|discriminate].
  apply parse_pair_length in E. intros H. apply IH in H. lia.
Qed.

Lemma object_tail_stable n : forall m s acc,
  List.length s <= n -> List.length s <= m ->
  Json.object_tail scan n s acc = Json.object_tail scan m s acc.
Proof.
  induction n as [|n IH]; intros m s acc Hn Hm.
  - destruct s; [|cbn in Hn; lia]. destruct m; reflexivity.
  - destruct m as [|m].
    { destruct s; [reflexivity | cbn in Hm; lia]. }
    cbn [Json.object_tail].
    pose proof (skip_ws_length s) as W.
    destruct (Json.skip_ws s) as [|c r]; [reflexivity|].
    cbn [List.length] in W.
    destruct (c =? 125)%N; [reflexivity|].
    destruct (c =? 44)%N; [|reflexivity].
    pose proof (skip_ws_length r) as W'.
    destruct (Json.parse_pair scan (Json.skip_ws r)) as [[[k x] t]|] eqn:E;
      [|reflexivity].
    apply parse_pair_length in E. apply IH; lia.
Qed.

Lemma parse_object_length s v rest :
  Json.parse_object scan s = Some (v, rest) ->
  List.length rest < List.length s.
Proof.
  unfold Json.parse_object.
  pose proof (skip_ws_length s) as W.
  destruct (Json.skip_ws s) as [|c r] eqn:Es; [discriminate|].
  cbn [List.length] in W.
  destruct (c =? 125)%N; [intros [= _ <-]; lia|].
  destruct (Json.parse_pair scan (c :: r)) as [[[k x] t]|] eqn:E;
    [|discriminate].
  apply parse_pair_length in E. intros H. apply object_tail_length in H.
  cbn [List.length] in E. lia.
Qed.

End ContainerFacts.

Lemma scan_once_length d : forall s v rest,
  Json.scan_once d s = Some (v, rest) -> List.length rest < List.length s.
Proof.
  induction d as [|d IH]; intros s v rest; destruct s as [|c r];
    cbn [Json.scan_once]; try discriminate.
  - destruct (c =? 34)%N.
    { destruct (Json.scanstring r []) as [[x t]|] eqn:E; [|discriminate].
      apply scanstring_length in E. intros [= _ <-]. cbn. lia. }
    destruct (c =? 123)%N; [discriminate|].
    destruct (c =? 91)%N; [discriminate|].
    apply scan_literal_length.
  - destruct (c =? 34)%N.
    { destruct (Json.scanstring r []) as [[x t]|] eqn:E; [|discriminate].
      apply scanstring_length in E. intros [= _ <-]. cbn. lia. }
    destruct (c =? 123)%N.
    { intros H. apply (parse_object_length _ IH) in H. cbn. lia. }
    destruct (c =? 91)%N.
    { intros H. apply (parse_array_length _ IH) in H. cbn. lia. }
    apply scan_literal_length.
Qed.

Section TwoScanners.

Variables scan1 scan2 : pystr -> option (pyval * pystr).
Variable bound : nat.
Hypothesis scan1_shrinks : forall s v rest,
  scan1 s = Some (v, rest) -> List.length rest < List.length s.
Hypothesis agree : forall s,
  List.length s <= bound -> scan1 s = scan2 s.

Lemma array_tail_agree n : forall s acc,
  List.length s <= bound ->
  Json.array_tail scan1 n s acc = Json.array_tail scan2 n s acc.
Proof.
  induction n as [|n IH]; intros s acc Hs; [reflexivity|].
  cbn [Json.array_tail].
  pose proof (skip_ws_length s) as W.
  destruct (Json.skip_ws s) as [|c r]; [reflexivity|].
  cbn [List.length] in W.
  destruct (c =? 93)%N; [reflexivity|].
  destruct (c =? 44)%N; [|reflexivity].
  pose proof (skip_ws_length r) as W'.
  rewrite <- agree by lia.
  destruct (scan1 (Json.skip_ws r)) as [[x t]|] eqn:E; [|reflexivity].
  apply scan1_shrinks in E. apply IH. lia.
Qed.

Lemma parse_array_agree s :
  List.length s <= bound ->
  Json.parse_array scan1 s = Json.parse_array scan2 s.
Proof.
  intros Hs. unfold Json.parse_array.
  pose proof (skip_ws_length s) as W.
  destruct (Json.skip_ws s) as [|c r]; [reflexivity|].
  destruct (c =? 93)%N; [reflexivity|].
  rewrite <- agree by lia.
  destruct (scan1 (c :: r)) as [[x t]|] eqn:E; [|reflexivity].
  apply scan1_shrinks in E. apply array_tail_agree. lia.
Qed.

Lemma parse_pair_agree s :
  List.length s <= bound ->
  Json.parse_pair scan1 s = Json.parse_pair scan2 s.
Proof.
  intros Hs. unfold Json.parse_pair.
  destruct s as [|q r]; [reflexivity|]. cbn [List.length] in Hs.
  destruct (q =? 34)%N; [|reflexivity].
  destruct (Json.scanstring r []) as [[key r1]|] eqn:E1; [|reflexivity].
  apply scanstring_length in E1.
  pose proof (skip_ws_length r1) as W1.
  destruct (Json.skip_ws r1) as [|colon r2]; [reflexivity|].
  cbn [List.length] in W1.
  destruct (colon =? 58)%N; [|reflexivity].
  pose proof (skip_ws_length r2) as W2.
  rewrite <- agree by lia. reflexivity.
Qed.

Lemma object_tail_agree n : forall s acc,
  List.length s <= bound ->
  Json.object_tail scan1 n s acc = Json.object_tail scan2 n s acc.
Proof.
  induction n as [|n IH]; intros s acc Hs; [reflexivity|].
  cbn [Json.object_tail].
  pose proof (skip_ws_length s) as W.
  destruct (Json.skip_ws s) as [|c r]; [reflexivity|].
  cbn [List.length] in W.
  destruct (c =? 125)%N; [reflexivity|].
  destruct (c =? 44)%N; [|reflexivity].
  pose proof (skip_ws_length r) as W'.
  rewrite <- parse_pair_agree by lia.
  destruct (Json.parse_pair scan1 (Json.skip_ws r)) as [[[k x] t]|] eqn:E;
    [|reflexivity].
  apply (parse_pair_length _ scan1_shrinks) in E. apply IH. lia.
Qed.

Lemma parse_object_agree s :
  List.length s <= bound ->
  Json.parse_object scan1 s = Json.parse_object scan2 s.
Proof.
  intros Hs. unfold Json.parse_object.
  pose proof (skip_ws_length s) as W.
  destruct (Json.skip_ws s) as [|c r]; [reflexivity|].
  destruct (c =? 125)%N; [reflexivity|].
  rewrite <- parse_pair_agree by lia.
  destruct (Json.parse_pair scan1 (c :: r)) as [[[k x] t]|] eqn:E;
    [|reflexivity].
  apply (parse_pair_length _ scan1_shrinks) in E.
  apply object_tail_agree. lia.
Qed.

End TwoScanners.

(** A nesting budget of at least the length of the text is never
    exhausted: all such budgets give the same result. *)
Lemma scan_once_stable d : forall d' s,
  List.length s <= d -> List.length s <= d' ->
  Json.scan_once d s = Json.scan_once d' s.
Proof.
  induction d as [|d IH]; intros d' s Hd Hd'.
  - destruct s; [|cbn in Hd; lia]. destruct d'; reflexivity.
  - destruct d' as [|d'].
    { destruct s; [reflexivity | cbn in Hd'; lia]. }
    destruct s as [|c r]; [reflexivity|].
    cbn [Json.scan_once List.length] in *.
    destruct (c =? 34)%N; [reflexivity|].
    destruct (c =? 123)%N.
    { apply (parse_object_agree _ _ (List.length r) (scan_once_length d));
        [|lia].
      intros s Hs. apply IH; lia. }
    destruct (c =? 91)%N; [|reflexivity].
    apply (parse_array_agree _ _ (List.length r) (scan_once_length d)); [|lia].
    intros s Hs. apply IH; lia.
Qed.

Lemma loads_budget s d :
  List.length s <= d ->
  Json.loads s
  = match s with
    | 65279%N :: _ => None
    | _ =>
        match Json.scan_once d (Json.skip_ws s) with
        | Some (v, rest) =>
            match Json.skip_ws rest with [] => Some v | _ :: _ => None end
        | None => None
        end
    end.
Proof.
  intros Hd. unfold Json.loads.
  pose proof (skip_ws_length s) as W.
  rewrite (scan_once_stable (List.length s) d (Json.skip_ws s)) by lia.
  reflexivity.
Qed.

(* ===================================================================== *)
(** ** Running the monad *)
(* ===================================================================== *)

Lemma try_except_ok {A} (c : M A) handler h a h' :
  c h = (Ok a, h') -> try_except c handler h = (Ok a, h').
Proof. intros E. unfold try_except. rewrite E. reflexivity. Qed.

Lemma try_except_raise {A} (c : M A) handler h e h' :
  c h = (Raise e, h') -> try_except c handler h = handler e h'.
Proof. intros E. unfold try_except. rewrite E. reflexivity. Qed.

(** A backend search never raises: it yields the candidate's answer and
    records one call. *)
Lemma server_get_nko_list_run w params h :
  Server.get_nko_list w params h
  = (Ok (Spec.answer w h params), h ++ [HttpGet UrlNko params]).
Proof.
  unfold Server.get_nko_list, try_except, http_get_json, Spec.answer.
  destruct (backend w h UrlNko params); reflexivity.
Qed.

Lemma server_nko_params jwt_token city categories :
  (let nko_params : dict := [] in
   let nko_params :=
     if truthy (of_opt jwt_token)
     then dict_set nko_params (py "jwt_token") (of_opt jwt_token)
     else nko_params in
   let nko_params :=
     if truthy (of_opt city)
     then dict_set nko_params (py "city") (of_opt city)
     else nko_params in
   if truthy categories
   then dict_set nko_params (py "category") categories
   else nko_params)
  = Spec.full_filter_set jwt_token city categories.
Proof.
  unfold Spec.full_filter_set.
  destruct (truthy (of_opt jwt_token)), (truthy (of_opt city)),
    (truthy categories); reflexivity.
Qed.

Lemma server_resolve_unfold w jwt_token city categories :
  Server.resolve w jwt_token city categories
  = (nko_list <- Server.get_nko_list w
                   (Spec.full_filter_set jwt_token city categories) ;;
     nko_list <- (if negb (truthy nko_list) && truthy (of_opt city)
                  then Server.get_nko_list w (Spec.city_only_filter_set city)
                  else ret nko_list) ;;
     nko_list <- (if negb (truthy nko_list)
                  then Server.get_nko_list w Spec.empty_filter_set
                  else ret nko_list) ;;
     ret nko_list).
Proof.
  pose proof (server_nko_params jwt_token city categories) as P.
  cbv zeta in P. unfold Server.resolve. cbv zeta. rewrite P. reflexivity.
Qed.

(** The cascade of [server.py] is a run of the specification's cascade
    over the specification's candidates; in particular it never raises. *)
Lemma server_resolve_cascade w jwt_token city categories h :
  exists r h',
    Server.resolve w jwt_token city categories h = (Ok r, h')
    /\ Spec.cascade w h (Spec.candidates jwt_token city categories) r h'.
Proof.
  rewrite server_resolve_unfold. unfold Spec.candidates.
  set (full := Spec.full_filter_set jwt_token city categories).
  unfold bind at 1. rewrite server_get_nko_list_run.
  destruct (truthy (Spec.answer w h full)) eqn:T1.
  - (* the full filter set wins *)
    cbn [negb andb]. unfold bind, ret. rewrite ?T1. cbn [negb].
    eexists _, _. split; [reflexivity|].
    apply Spec.cascade_wins. exact T1.
  - destruct (truthy (of_opt city)) eqn:TC; cbn [negb andb app].
    + (* a city was extracted: the city-only filter set is tried *)
      unfold bind at 1. rewrite server_get_nko_list_run.
      set (h1 := h ++ [HttpGet UrlNko full]).
      destruct (truthy (Spec.answer w h1 (Spec.city_only_filter_set city)))
        eqn:T2.
      * unfold bind, ret. rewrite ?T2. cbn [negb].
        eexists _, _. split; [reflexivity|].
        apply Spec.cascade_falls_back; [exact T1|].
        apply Spec.cascade_wins. exact T2.
      * unfold bind at 1. rewrite ?T2. cbn [negb].
        rewrite server_get_nko_list_run. unfold ret.
        eexists _, _. split; [reflexivity|].
        apply Spec.cascade_falls_back; [exact T1|].
        apply Spec.cascade_falls_back; [exact T2|].
        set (h2 := h1 ++ _).
        destruct (truthy (Spec.answer w h2 Spec.empty_filter_set)) eqn:T3.
        -- apply Spec.cascade_wins. exact T3.
        -- apply Spec.cascade_terminal. exact T3.
    + (* no city: straight to the unfiltered listing *)
      unfold bind at 1. unfold ret at 1. unfold bind at 1. rewrite ?T1.
      cbn [negb].
      rewrite server_get_nko_list_run. unfold ret.
      eexists _, _. split; [reflexivity|].
      apply Spec.cascade_falls_back; [exact T1|].
      set (h1 := h ++ _).
      destruct (truthy (Spec.answer w h1 Spec.empty_filter_set)) eqn:T3.
      * apply Spec.cascade_wins. exact T3.
      * apply Spec.cascade_terminal. exact T3.
Qed.

(** A run of the cascade tries a non-empty prefix of the candidates, one
    call each and in order; every candidate before the last one tried
    answered with an empty record set, and the run stops at the first
    non-empty answer or at the last candidate. *)
Lemma cascade_calls w h cs r h' :
  Spec.cascade w h cs r h' ->
  exists i,
    i < List.length cs
    /\ h' = Spec.calls h cs (S i)
    /\ r = Spec.answer w (Spec.calls h cs i) (nth i cs [])
    /\ (forall j, j < i ->
          truthy (Spec.answer w (Spec.calls h cs j) (nth j cs [])) = false)
    /\ (truthy r = true \/ S i = List.length cs).
Proof.
  unfold Spec.calls.
  induction 1 as [h c cs T | h c T | h c c' cs r h' T _ IH].
  - exists 0. cbn [firstn map nth List.length]. rewrite app_nil_r.
    repeat split; [lia | | left; exact T].
    intros j Hj. lia.
  - exists 0. cbn [firstn map nth List.length]. rewrite app_nil_r.
    repeat split; [lia | | right; reflexivity].
    intros j Hj. lia.
  - destruct IH as (i & Hi & Hh & Hr & Hprev & Hstop).
    exists (S i).
    assert (Shift : forall k,
      (h ++ [HttpGet UrlNko c]) ++ map (HttpGet UrlNko) (firstn k (c' :: cs))
      = h ++ map (HttpGet UrlNko) (firstn (S k) (c :: c' :: cs))).
    { intros k. rewrite <- app_assoc. reflexivity. }
    rewrite !Shift in *.
    repeat split.
    + cbn [List.length] in *. lia.
    + exact Hh.
    + exact Hr.
    + intros [|j] Hj.
      * cbn [firstn map nth]. rewrite app_nil_r. exact T.
      * specialize (Hprev j ltac:(lia)). rewrite Shift in Hprev. exact Hprev.
    + destruct Hstop as [Hs | Hs]; [left; exact Hs | right].
      cbn [List.length] in *. lia.
Qed.

(** *** The stages of one cycle of [server.py] *)

Lemma server_extract_city_run w query h :
  Server.extract_city_from_query w query h
  = (Ok (Outcome.city_of (completion w h (AskCity query))),
     h ++ [Chat (AskCity query)]).
Proof.
  unfold Server.extract_city_from_query, try_except, bind, create_completion,
    Outcome.city_of.
  destruct (completion w h (AskCity query)) as [msg | [s|]]; try reflexivity.
  unfold content_strip, ret.
  destruct (PyStr.eqb (lower (strip s)) (py "null")); reflexivity.
Qed.

Lemma server_extract_categories_run w query h :
  Server.extract_categories_from_query w query h
  = (Ok (Outcome.categories_of (completion w h (AskCategories query))),
     h ++ [Chat (AskCategories query)]).
Proof.
  unfold Server.extract_categories_from_query, try_except, bind,
    create_completion, Outcome.categories_of.
  destruct (completion w h (AskCategories query)) as [msg | [s|]];
    try reflexivity.
  unfold content_strip, ret.
  destruct (Json.loads (strip s)); reflexivity.
Qed.

Lemma server_make_context_run query city categories nko_list h :
  Server.make_context query city categories nko_list h
  = (Outcome.context_of query city categories nko_list, h).
Proof.
  unfold Server.make_context, bind.
  destruct nko_list; reflexivity.
Qed.

(** One cycle of [process_user_query], stage by stage. *)
Lemma server_cycle w query jwt_token h :
  let city := Outcome.city_of (completion w h (AskCity query)) in
  let h1 := h ++ [Chat (AskCity query)] in
  let categories :=
    Outcome.categories_of (completion w h1 (AskCategories query)) in
  let h2 := h1 ++ [Chat (AskCategories query)] in
  forall nko_list h3,
    Server.resolve w jwt_token city categories h2 = (Ok nko_list, h3) ->
    Server.process_user_query w query jwt_token h
    = match Outcome.context_of query city categories nko_list with
      | Raise e =>
          (Ok {| Server.response := Some (apology e);
                 Server.city := None;
                 Server.categories := PyList [] |}, h3)
      | Ok context =>
          (Ok match completion w h3 (AskRecommendation context query) with
              | ChatRaises msg =>
                  {| Server.response := Some (apology (ProviderError msg));
                     Server.city := None;
                     Server.categories := PyList [] |}
              | ChatContent content =>
                  {| Server.response :=
                       option_map (fun s => [Lit s]) content;
                     Server.city := city;
                     Server.categories := categories |}
              end,
           h3 ++ [Chat (AskRecommendation context query)])
      end.
Proof.
  intros city h1 categories h2 nko_list h3 Res.
  unfold Server.process_user_query, Server.process_user_query_try,
    try_except.
  unfold bind at 1. rewrite server_extract_city_run.
  unfold bind at 1. rewrite server_extract_categories_run.
  unfold bind at 1. fold city h1 categories h2. rewrite Res.
  unfold bind at 1. rewrite server_make_context_run.
  destruct (Outcome.context_of query city categories nko_list) as [context|e].
  - unfold bind, create_completion, ret.
    destruct (completion w h3 (AskRecommendation context query));
      reflexivity.
  - reflexivity.
Qed.

Example kazan_cycle :
  Server.process_user_query Scenario.kazan Scenario.kazan_query None []
  = (Ok {| Server.response := Some [Lit (py "Рекомендации")];
           Server.city := Some (py "Казань");
           Server.categories := PyList [PyStr (py "животные")] |},
     [Chat (AskCity Scenario.kazan_query);
      Chat (AskCategories Scenario.kazan_query);
      HttpGet UrlNko [(py "city", PyStr (py "Казань"));
                      (py "category", PyList [PyStr (py "животные")])];
      HttpGet UrlNko [(py "city", PyStr (py "Казань"))];
      Chat (AskRecommendation
              {| user_query := Scenario.kazan_query;
                 extracted_city := Some (py "Казань");
                 extracted_categories := PyList [PyStr (py "животные")];
                 nko_count := 12;
                 nko_data := PyList (map Scenario.record (seq 1 5)) |}
              Scenario.kazan_query)]).
Proof. vm_compute. reflexivity. Qed.

(** What follows the cascade in the history of a cycle: nothing, or the
    single recommendation request. *)
Lemma server_cycle_history w query jwt_token h :
  let city := Outcome.city_of (completion w h (AskCity query)) in
  let h1 := h ++ [Chat (AskCity query)] in
  let categories :=
    Outcome.categories_of (completion w h1 (AskCategories query)) in
  let h2 := h1 ++ [Chat (AskCategories query)] in
  forall nko_list h3,
    Server.resolve w jwt_token city categories h2 = (Ok nko_list, h3) ->
    snd (Server.process_user_query w query jwt_token h)
    = h3 ++ match Outcome.context_of query city categories nko_list with
            | Ok context => [Chat (AskRecommendation context query)]
            | Raise _ => []
            end.
Proof.
  intros city h1 categories h2 nko_list h3 Res.
  rewrite (server_cycle w query jwt_token h nko_list h3 Res).
  fold city h1 categories.
  destruct (Outcome.context_of query city categories nko_list).
  - reflexivity.
  - cbn [snd]. rewrite app_nil_r. reflexivity.
Qed.

(** Once the cascade has returned, the cycle ends with a response. *)
Lemma server_cycle_ok w query jwt_token h :
  let city := Outcome.city_of (completion w h (AskCity query)) in
  let h1 := h ++ [Chat (AskCity query)] in
  let categories :=
    Outcome.categories_of (completion w h1 (AskCategories query)) in
  let h2 := h1 ++ [Chat (AskCategories query)] in
  forall nko_list h3,
    Server.resolve w jwt_token city categories h2 = (Ok nko_list, h3) ->
    exists r tail,
      Server.process_user_query w query jwt_token h = (Ok r, h3 ++ tail).
Proof.
  intros city h1 categories h2 nko_list h3 Res.
  rewrite (server_cycle w query jwt_token h nko_list h3 Res).
  fold city h1 categories.
  destruct (Outcome.context_of query city categories nko_list).
  - eexists _, _. reflexivity.
  - eexists _, []. rewrite app_nil_r. reflexivity.
Qed.

(* ===================================================================== *)
(** ** The fallback cascade (claims C1, C2) *)
(* ===================================================================== *)


(** C2.  A backend search never raises: a call that fails (an exception of
    the HTTP client or an error status) yields the empty list, a call that
    succeeds yields the decoded body, and exactly one call is recorded.
    The cascade therefore always returns a record set, the answer of the
    last candidate it tried (an empty list when that call failed), and a
    candidate whose call failed is followed by the next candidate unless
    it was the last one. *)
Theorem C2_backend_errors_are_empty_results w :
  (forall params h,
     exists r,
       Server.get_nko_list w params h = (Ok r, h ++ [HttpGet UrlNko params])
       /\ (forall v, backend w h UrlNko params = HttpJson v -> r = v)
       /\ (forall msg, backend w h UrlNko params = HttpRaises msg ->
             r = PyList [])
       /\ (forall code body,
             backend w h UrlNko params = HttpStatus code body ->
             r = PyList []))
  /\ (forall jwt_token city categories h,
        let cs := Spec.candidates jwt_token city categories in
        exists nko_list i,
          i < List.length cs
          /\ Server.resolve w jwt_token city categories h
             = (Ok nko_list, Spec.calls h cs (S i))
          /\ nko_list = Spec.answer w (Spec.calls h cs i) (nth i cs [])
          /\ forall j,
               j <= i -> S j < List.length cs ->
               (forall v,
                  backend w (Spec.calls h cs j) UrlNko (nth j cs [])
                  <> HttpJson v) ->
               j < i).
Proof.
  split.
  - intros params h. eexists. split; [apply server_get_nko_list_run|].
    unfold Spec.answer.
    repeat split; intros; destruct (backend w h UrlNko params);
      congruence.
  - intros jwt_token city categories h cs.
    destruct (server_resolve_cascade w jwt_token city categories h)
      as (r & h' & Run & Casc).
    destruct (cascade_calls _ _ _ _ _ Casc) as (i & Hi & Hh & Hr & Hprev & Hstop).
    exists r, i. subst h'. repeat (split; [assumption|]).
    intros j Hj Hlast Herr.
    destruct (Nat.eq_dec j i) as [->|]; [exfalso | lia].
    destruct Hstop as [Hs | Hs]; [| fold cs in Hs; lia].
    rewrite Hr in Hs. unfold Spec.answer in Hs. fold cs in Hs.
    destruct (backend w (Spec.calls h cs i) UrlNko (nth i cs []))
      as [msg | code body | v]; try discriminate Hs.
    exact (Herr v eq_refl).
Qed.

(* ===================================================================== *)
(** ** Extraction (claims C3, C4) *)
(* ===================================================================== *)

(** C3.  [extract_categories_from_query] returns whatever [json.loads]
    makes of the provider's text: on the JSON text [null] it returns
    [None], not a sequence, and the cycle hands [None] on as the
    [categories] of its response. *)
Theorem C3_categories_can_be_none :
  fst (Server.extract_categories_from_query Scenario.null_categories
         Scenario.kazan_query [])
  = Ok PyNone
  /\ exists r h,
       Server.process_user_query Scenario.null_categories
         Scenario.kazan_query None [] = (Ok r, h)
       /\ Server.categories r = PyNone.
Proof.
  split; [vm_compute; reflexivity|].
  eexists _, _. split; [vm_compute; reflexivity | reflexivity].
Qed.

(** Outside that JSON path the result is a list of strings: the empty list
    after a failed completion, the comma-separated pieces after a decoding
    error. *)
Lemma categories_of_is_string_list o :
  (Spec.completion_failed o = true
   \/ exists s, o = ChatContent (Some s) /\ Json.loads (strip s) = None) ->
  exists l, Outcome.categories_of o = PyList (map PyStr l).
Proof.
  intros [F | (s & -> & E)].
  - exists []. destruct o as [msg | [s|]]; [reflexivity | discriminate F
                                            | reflexivity].
  - eexists. cbn [Outcome.categories_of]. rewrite E. reflexivity.
Qed.

(** C4.  A failed completion during extraction (the call raises, or the
    response has no text content) is absorbed: the city extraction then
    returns no city, the category extraction returns the empty list, each
    having issued its one request; and when both fail the cycle goes on to
    search the backend with a filter set that holds neither city nor
    category, and ends with a response instead of an exception. *)
Theorem C4_extraction_failure_degrades w query jwt_token h :
  let h1 := h ++ [Chat (AskCity query)] in
  let h2 := h1 ++ [Chat (AskCategories query)] in
  (Spec.completion_failed (completion w h (AskCity query)) = true ->
   Server.extract_city_from_query w query h = (Ok None, h1))
  /\ (Spec.completion_failed (completion w h1 (AskCategories query)) = true ->
      Server.extract_categories_from_query w query h1 = (Ok (PyList []), h2))
  /\ (Spec.completion_failed (completion w h (AskCity query)) = true ->
      Spec.completion_failed (completion w h1 (AskCategories query)) = true ->
      exists r rest,
        Server.process_user_query w query jwt_token h
        = (Ok r,
           h2 ++ HttpGet UrlNko
                   (Spec.full_filter_set jwt_token None (PyList []))
                 :: rest)
        /\ dict_get (Spec.full_filter_set jwt_token None (PyList []))
             (py "city") = None
        /\ dict_get (Spec.full_filter_set jwt_token None (PyList []))
             (py "category") = None).
Proof.
  intros h1 h2.
  assert (City : Spec.completion_failed (completion w h (AskCity query))
                 = true ->
                 Outcome.city_of (completion w h (AskCity query)) = None).
  { destruct (completion w h (AskCity query)) as [msg | [s|]];
      [reflexivity | discriminate | reflexivity]. }
  assert (Cats : Spec.completion_failed
                   (completion w h1 (AskCategories query)) = true ->
                 Outcome.categories_of (completion w h1 (AskCategories query))
                 = PyList []).
  { destruct (completion w h1 (AskCategories query)) as [msg | [s|]];
      [reflexivity | discriminate | reflexivity]. }
  split; [|split].
  - intros F. rewrite server_extract_city_run, (City F). reflexivity.
  - intros F. rewrite server_extract_categories_run, (Cats F). reflexivity.
  - intros F1 F2.
    destruct (server_resolve_cascade w jwt_token None (PyList []) h2)
      as (nko_list & h3 & Run & Casc).
    destruct (cascade_calls _ _ _ _ _ Casc) as (i & _ & Hh & _).
    pose proof (server_cycle_ok w query jwt_token h) as Cycle.
    cbv zeta in Cycle. fold h1 in Cycle. rewrite (City F1), (Cats F2) in Cycle.
    destruct (Cycle nko_list h3 Run) as (r & tail & E).
    exists r. eexists. split; [|split].
    + rewrite E, Hh. unfold Spec.calls, Spec.candidates.
      cbn [firstn map of_opt truthy app]. rewrite <- app_assoc.
      reflexivity.
    + unfold Spec.full_filter_set.
      destruct (truthy (of_opt jwt_token)); reflexivity.
    + unfold Spec.full_filter_set.
      destruct (truthy (of_opt jwt_token)); reflexivity.
Qed.

Lemma C4_extraction_failure_degrades_witness :
  Spec.completion_failed
    (completion Scenario.unreachable [] (AskCity Scenario.kazan_query)) = true
  /\ Spec.completion_failed
       (completion Scenario.unreachable [Chat (AskCity Scenario.kazan_query)]
          (AskCategories Scenario.kazan_query)) = true
  /\ exists r rest,
       Server.process_user_query Scenario.unreachable Scenario.kazan_query
         None []
       = (Ok r,
          [Chat (AskCity Scenario.kazan_query);
           Chat (AskCategories Scenario.kazan_query)]
          ++ HttpGet UrlNko [] :: rest).
Proof.
  split; [reflexivity|]. split; [reflexivity|].
  destruct (C4_extraction_failure_degrades Scenario.unreachable
              Scenario.kazan_query None []) as (_ & _ & Proceeds).
  destruct (Proceeds eq_refl eq_refl) as (r & rest & E & _).
  exists r, rest. exact E.
Defined.

Lemma nonempty_true_iff (s : pystr) : nonempty s = true <-> s <> [].
Proof. destruct s; cbn; split; congruence. Qed.

(** The pieces kept by the comma fallback: the trimmed fragments between
    the commas that are not empty once trimmed. *)
Lemma comma_separated_In s p :
  In p (comma_separated s)
  <-> p <> [] /\ exists fragment, In fragment (split 44 s) /\ p = strip fragment.
Proof.
  unfold comma_separated. rewrite in_map_iff. split.
  - intros (f & <- & Hf). apply filter_In in Hf. destruct Hf as [Hin Hne].
    split; [apply nonempty_true_iff; exact Hne|]. exists f. auto.
  - intros (Hne & f & Hin & ->). exists f. split; [reflexivity|].
    apply filter_In. split; [exact Hin|]. apply nonempty_true_iff. exact Hne.
Qed.

(* ===================================================================== *)
(** ** The recommendation context (claim C6) *)
(* ===================================================================== *)



(* ===================================================================== *)
(** ** Failures inside the cycle and at the endpoint (claims C7, C8) *)
(* ===================================================================== *)

(** The dictionary returned by the [except] handler. *)
Lemma server_handler_run w query jwt_token h e h' :
  Server.process_user_query_try w query jwt_token h = (Raise e, h') ->
  Server.process_user_query w query jwt_token h
  = (Ok {| Server.response := Some (apology e);
           Server.city := None;
           Server.categories := PyList [] |}, h').
Proof.
  intros E. unfold Server.process_user_query.
  rewrite (try_except_raise _ _ _ _ _ E). reflexivity.
Qed.

(** C7.  [process_user_query] never raises.  Whatever exception its [try]
    block raises, at whatever stage, the function returns the apology
    that embeds the text of the exception, with no city and no categories;
    when the block raises nothing its result is returned.  At the endpoint,
    once the key is configured, the outcome is therefore the construction
    of the response model from a returned dictionary: no exception of the
    extraction, the cascade or the composition leaves [query_nko]. *)
Theorem C7_cycle_never_raises w query jwt_token h :
  (exists r h', Server.process_user_query w query jwt_token h = (Ok r, h'))
  /\ (forall e h',
        Server.process_user_query_try w query jwt_token h = (Raise e, h') ->
        Server.process_user_query w query jwt_token h
        = (Ok {| Server.response :=
                   Some [Lit (py "Извините, произошла ошибка при обработке вашего запроса: ");
                         StrExn e];
                 Server.city := None;
                 Server.categories := PyList [] |}, h'))
  /\ (forall r h',
        Server.process_user_query_try w query jwt_token h = (Ok r, h') ->
        Server.process_user_query w query jwt_token h = (Ok r, h'))
  /\ (forall (QueryResponse : Type)
             (QueryResponse_init : Server.Response -> result QueryResponse)
             key,
        truthy (of_opt key) = true ->
        exists r h',
          Server.process_user_query w query jwt_token h = (Ok r, h')
          /\ Server.query_nko w QueryResponse QueryResponse_init key
               {| Server.query := query; Server.jwt_token := jwt_token |} h
             = (QueryResponse_init r, h')).
Proof.
  assert (Total : exists r h',
            Server.process_user_query w query jwt_token h = (Ok r, h')).
  { destruct (Server.process_user_query_try w query jwt_token h)
      as [[r|e] h'] eqn:E.
    - exists r, h'. unfold Server.process_user_query.
      apply try_except_ok. exact E.
    - eexists _, h'. apply server_handler_run. exact E. }
  split; [exact Total|]. split; [|split].
  - intros e h' E. apply server_handler_run. exact E.
  - intros r h' E. unfold Server.process_user_query.
    apply try_except_ok. exact E.
  - intros QueryResponse QueryResponse_init key K.
    destruct Total as (r & h' & E). exists r, h'. split; [exact E|].
    unfold Server.query_nko. rewrite K. cbn [negb Server.query Server.jwt_token].
    unfold bind. rewrite E. reflexivity.
Qed.

(** C8.  While the provider key is not configured (absent or empty),
    every call of the [POST /query] handler raises the HTTP error 500
    "OpenRouter API key not configured" at once: the history of external
    calls is left as it was, so neither the provider nor the backend is
    contacted. *)
Theorem C8_missing_key_fails_without_calls
    w (QueryResponse : Type)
    (QueryResponse_init : Server.Response -> result QueryResponse)
    OPENROUTER_API_KEY request h :
  truthy (of_opt OPENROUTER_API_KEY) = false ->
  Server.query_nko w QueryResponse QueryResponse_init OPENROUTER_API_KEY
    request h
  = (Raise (HTTPException 500 (py "OpenRouter API key not configured")), h).
Proof.
  intros K. unfold Server.query_nko. rewrite K. reflexivity.
Qed.

Lemma C8_missing_key_fails_without_calls_witness :
  truthy (of_opt None) = false
  /\ Server.query_nko Scenario.kazan Server.Response (fun r => Ok r) None
       {| Server.query := Scenario.kazan_query; Server.jwt_token := None |} []
     = (Raise (HTTPException 500 (py "OpenRouter API key not configured")),
        []).
Proof.
  split; [reflexivity|].
  apply (C8_missing_key_fails_without_calls Scenario.kazan Server.Response
           (fun r => Ok r) None).
  reflexivity.
Defined.

(* ===================================================================== *)
(** ** The runner against the server (claim C9) *)
(* ===================================================================== *)

Lemma bind3_assoc {A B C D} (m1 : M A) (m2 : A -> M B) (m3 : B -> M C)
    (k : C -> M D) h :
  bind m1 (fun a => bind (m2 a) (fun b => bind (m3 b) k)) h
  = bind (bind m1 (fun a => bind (m2 a)
                               (fun b => bind (m3 b) (fun c => ret c)))) k h.
Proof.
  unfold bind, ret.
  destruct (m1 h) as [[a|e] h1]; [|reflexivity].
  destruct (m2 a h1) as [[b|e] h2]; [|reflexivity].
  destruct (m3 b h2) as [[c|e] h3]; reflexivity.
Qed.

(** Without a token the cascade written out in [main.py] is the cascade
    of [server.py]. *)
Lemma main_inline_cascade w jwt_token city categories :
  truthy (of_opt jwt_token) = false ->
  Server.resolve w jwt_token city categories
  = bind (Main.get_nko_list w
            (if truthy categories
             then dict_set
                    (if truthy (of_opt city)
                     then dict_set [] (py "city") (of_opt city) else [])
                    (py "category") categories
             else if truthy (of_opt city)
                  then dict_set [] (py "city") (of_opt city) else []))
      (fun nko_list =>
         bind (if negb (truthy nko_list) && truthy (of_opt city)
               then Main.get_nko_list w [(py "city", of_opt city)]
               else ret nko_list)
           (fun nko_list =>
              bind (if negb (truthy nko_list)
                    then Main.get_nko_list w []
                    else ret nko_list)
                (fun nko_list => ret nko_list))).
Proof.
  intros T. unfold Server.resolve. rewrite T. reflexivity.
Qed.

(** One cycle of the runner, in terms of the cycle of the server. *)
Lemma main_cycle w query jwt_token h :
  truthy (of_opt jwt_token) = false ->
  Main.process_user_query w query h
  = (match fst (Server.process_user_query w query jwt_token h) with
     | Ok r => Ok (Server.response r)
     | Raise e => Raise e
     end,
     snd (Server.process_user_query w query jwt_token h)).
Proof.
  intros T.
  destruct (server_resolve_cascade w jwt_token
              (Outcome.city_of (completion w h (AskCity query)))
              (Outcome.categories_of
                 (completion w (h ++ [Chat (AskCity query)])
                    (AskCategories query)))
              ((h ++ [Chat (AskCity query)]) ++ [Chat (AskCategories query)]))
    as (r & h3 & Run & _).
  rewrite (server_cycle w query jwt_token h r h3 Run).
  unfold Main.process_user_query, try_except.
  unfold bind at 1.
  change (Main.extract_city_from_query w query h)
    with (Server.extract_city_from_query w query h).
  rewrite server_extract_city_run.
  unfold bind at 1.
  change (Main.extract_categories_from_query w query)
    with (Server.extract_categories_from_query w query).
  rewrite server_extract_categories_run.
  cbv zeta. rewrite bind3_assoc.
  rewrite <- (main_inline_cascade w jwt_token _ _ T).
  unfold bind at 1. rewrite Run.
  destruct r; try reflexivity.
  - cbn [Outcome.context_of]. unfold bind, py_len, py_slice_to, ret,
      create_completion.
    match goal with |- context [completion w h3 ?req] =>
      destruct (completion w h3 req) end; reflexivity.
  - cbn [Outcome.context_of]. unfold bind, py_len, py_slice_to, ret,
      create_completion.
    match goal with |- context [completion w h3 ?req] =>
      destruct (completion w h3 req) end; reflexivity.
Qed.

(** C9.  Run without a token (none, or the empty string) in the same world
    and from the same history, the runner's [process_user_query] and the
    server's end with the same history of external calls: the same two
    extraction requests, the same backend searches of the cascade in the
    same order, and the same recommendation request, hence the same
    context.  Neither raises, and the text returned by the runner is the
    [response] field of the dictionary returned by the server. *)
Theorem C9_runner_matches_server w query jwt_token h :
  truthy (of_opt jwt_token) = false ->
  exists answer r calls_made,
    Main.process_user_query w query h = (Ok answer, calls_made)
    /\ Server.process_user_query w query jwt_token h = (Ok r, calls_made)
    /\ answer = Server.response r.
Proof.
  intros T.
  pose proof (main_cycle w query jwt_token h T) as E.
  destruct (server_resolve_cascade w jwt_token
              (Outcome.city_of (completion w h (AskCity query)))
              (Outcome.categories_of
                 (completion w (h ++ [Chat (AskCity query)])
                    (AskCategories query)))
              ((h ++ [Chat (AskCity query)]) ++ [Chat (AskCategories query)]))
    as (nko_list & h3 & Run & _).
  destruct (server_cycle_ok w query jwt_token h nko_list h3 Run)
    as (r & tail & S).
  rewrite S in E. cbn [fst snd] in E.
  exists (Server.response r), r, (h3 ++ tail).
  split; [exact E|]. split; [exact S | reflexivity].
Qed.

Lemma C9_runner_matches_server_witness :
  truthy (of_opt None) = false
  /\ exists answer r calls_made,
       Main.process_user_query Scenario.kazan Scenario.kazan_query []
       = (Ok answer, calls_made)
       /\ Server.process_user_query Scenario.kazan Scenario.kazan_query None []
          = (Ok r, calls_made)
       /\ answer = Server.response r.
Proof.
  split; [reflexivity|].
  apply (C9_runner_matches_server Scenario.kazan Scenario.kazan_query None []).
  reflexivity.
Defined.

(* ===================================================================== *)
(** ** The tool binding (claim C10) *)
(* ===================================================================== *)

(** A false identifier stops [get_nko_by_id] before any request. *)
Lemma mcp_guard w args h :
  truthy (Mcp.args_get args (py "nko_id")) = false ->
  Mcp.get_nko_by_id w args h
  = (Ok [Mcp.text_content [Lit (py "Error: nko_id is required")]], h).
Proof.
  intros T. unfold Mcp.get_nko_by_id. rewrite T. reflexivity.
Qed.

(** C10.  Called with [nko_id] equal to 0, [get_nko_by_id] returns the one
    text "Error: nko_id is required" and leaves the history of external
    calls as it was, so the backend is not contacted; this is the result
    of a call whose arguments have no [nko_id] at all, the guard testing
    the truth value of the identifier. *)
Theorem C10_zero_id_is_treated_as_missing w args h :
  dict_get args (py "nko_id") = Some (PyInt 0) ->
  Mcp.get_nko_by_id w args h
  = (Ok [{| Mcp.type := py "text";
            Mcp.text := [Lit (py "Error: nko_id is required")] |}], h)
  /\ forall args',
       dict_get args' (py "nko_id") = None ->
       Mcp.get_nko_by_id w args h = Mcp.get_nko_by_id w args' h.
Proof.
  intros Z0.
  assert (G : Mcp.get_nko_by_id w args h
              = (Ok [Mcp.text_content [Lit (py "Error: nko_id is required")]],
                 h)).
  { apply mcp_guard. unfold Mcp.args_get. rewrite Z0. reflexivity. }
  split; [exact G|].
  intros args' Absent. rewrite G. symmetry.
  apply mcp_guard. unfold Mcp.args_get. rewrite Absent. reflexivity.
Qed.

Lemma C10_zero_id_is_treated_as_missing_witness :
  dict_get [(py "nko_id", PyInt 0)] (py "nko_id") = Some (PyInt 0)
  /\ Mcp.get_nko_by_id Scenario.kazan [(py "nko_id", PyInt 0)] []
     = (Ok [{| Mcp.type := py "text";
               Mcp.text := [Lit (py "Error: nko_id is required")] |}], []).
Proof.
  split; [reflexivity|].
  apply (C10_zero_id_is_treated_as_missing Scenario.kazan
           [(py "nko_id", PyInt 0)] []).
  reflexivity.
Defined.

(** A non-zero identifier does reach the backend. *)
Example get_nko_by_id_seven :
  Mcp.get_nko_by_id Scenario.unreachable [(py "nko_id", PyInt 7)] []
  = (Ok [Mcp.text_content
           [Lit (py "Error fetching NKO: ");
            StrExn (RequestError (py "All connection attempts failed"))]],
     [HttpGet (UrlNkoById (PyInt 7)) []]).
Proof. reflexivity. Qed.

(* ===================================================================== *)
(** ** Whole cycles on the concrete worlds *)
(* ===================================================================== *)

(** Nothing is reachable: both extractions degrade, the token-only and the
    unfiltered searches both fail and count as empty, the context is built
    on the empty record set, and the failed recommendation request becomes
    the apology. *)
Example unreachable_cycle :
  Server.process_user_query Scenario.unreachable Scenario.kazan_query
    (Some (py "token")) []
  = (Ok {| Server.response :=
             Some (apology (ProviderError (py "Connection error.")));
           Server.city := None;
           Server.categories := PyList [] |},
     [Chat (AskCity Scenario.kazan_query);
      Chat (AskCategories Scenario.kazan_query);
      HttpGet UrlNko [(py "jwt_token", PyStr (py "token"))];
      HttpGet UrlNko [];
      Chat (AskRecommendation
              {| user_query := Scenario.kazan_query;
                 extracted_city := None;
                 extracted_categories := PyList [];
                 nko_count := 0;
                 nko_data := PyList [] |}
              Scenario.kazan_query)]).
Proof. vm_compute. reflexivity. Qed.

(** The recommendation request fails after a successful extraction: the
    apology carries neither the extracted city nor the categories. *)
Example composer_down_cycle :
  fst (Server.process_user_query Scenario.composer_down Scenario.kazan_query
         None [])
  = Ok {| Server.response :=
            Some (apology (ProviderError (py "Request timed out.")));
          Server.city := None;
          Server.categories := PyList [] |}.
Proof. vm_compute. reflexivity. Qed.

(** The runner on the scenario of the specification. *)
Example kazan_runner_cycle :
  fst (Main.process_user_query Scenario.kazan Scenario.kazan_query [])
  = Ok (Some [Lit (py "Рекомендации")]).
Proof. vm_compute. reflexivity. Qed.

(* ===================================================================== *)
(** ** Further properties of the extraction and of the cycle *)
(* ===================================================================== *)

(** *** Trimming padded texts *)

Lemma lstrip_blank_app pre s :
  Shape.blank pre = true -> lstrip (pre ++ s) = lstrip s.
Proof.
  unfold Shape.blank. induction pre as [|c r IH]; [reflexivity|].
  cbn [forallb app lstrip]. intros H. apply andb_prop in H.
  destruct H as [Hc Hr]. rewrite Hc. apply IH. exact Hr.
Qed.

Lemma lstrip_blank s : Shape.blank s = true -> lstrip s = [].
Proof.
  intros H. rewrite <- (app_nil_r s). rewrite lstrip_blank_app by exact H.
  reflexivity.
Qed.

Lemma blank_rev s : Shape.blank s = true -> Shape.blank (rev s) = true.
Proof.
  unfold Shape.blank. rewrite !forallb_forall. intros H c Hc.
  apply H, in_rev. exact Hc.
Qed.

(** Trimming removes the padding and nothing else. *)
Lemma strip_padded pre m post :
  Shape.blank pre = true -> Shape.blank post = true ->
  Shape.trimmed m = true ->
  strip (pre ++ m ++ post) = m.
Proof.
  intros Hpre Hpost Hm. unfold strip, rstrip.
  rewrite lstrip_blank_app by exact Hpre.
  destruct m as [|a m'].
  - cbn [app]. rewrite (lstrip_blank post Hpost). reflexivity.
  - cbn [Shape.trimmed] in Hm. apply andb_prop in Hm.
    destruct Hm as [Ha Hz]. apply negb_true_iff in Ha, Hz.
    cbn [app lstrip]. rewrite Ha.
    change (a :: m' ++ post) with ((a :: m') ++ post).
    rewrite rev_app_distr, lstrip_blank_app by (apply blank_rev; exact Hpost).
    assert (Hne : a :: m' <> []) by discriminate.
    rewrite (app_removelast_last 0%N Hne) at 1.
    rewrite rev_app_distr. cbn [rev app lstrip]. rewrite Hz.
    change (last (a :: m') 0%N :: rev (removelast (a :: m')))
      with (rev [last (a :: m') 0%N] ++ rev (removelast (a :: m'))).
    rewrite <- rev_app_distr, rev_involutive.
    symmetry. apply app_removelast_last. exact Hne.
Qed.

Lemma strip_trimmed m : Shape.trimmed m = true -> strip m = m.
Proof.
  intros H. pose proof (strip_padded [] m [] eq_refl eq_refl H) as E.
  cbn [app] in E. rewrite app_nil_r in E. exact E.
Qed.

(** What [strip] returns is trimmed. *)
Lemma strip_is_trimmed s : Shape.trimmed (strip s) = true.
Proof.
  destruct (strip_spec s) as (before & after & _ & _ & _ & Hhead & Hlast).
  destruct (strip s) as [|c r] eqn:E; [reflexivity|].
  cbn [Shape.trimmed]. rewrite (Hhead c r eq_refl). cbn [negb andb].
  assert (Hne : c :: r <> []) by discriminate.
  rewrite (Hlast (removelast (c :: r)) (last (c :: r) 0%N)
             (app_removelast_last 0%N Hne)).
  reflexivity.
Qed.

Lemma lower_char_ascii c x :
  lower_char c = x -> (97 <= x <= 122)%N -> c = x \/ c = (x - 32)%N.
Proof.
  unfold lower_char.
  destruct ((65 <=? c)%N && (c <=? 90)%N) eqn:E; intros <- Hx; [right|left].
  - lia.
  - reflexivity.
Qed.

(** Every spelling of the null marker is trimmed. *)
Lemma null_spelling_trimmed m :
  lower m = py "null" -> Shape.trimmed m = true.
Proof.
  unfold lower.
  destruct m as [|c1 [|c2 [|c3 [|c4 [|c5 r]]]]]; try discriminate.
  cbn [map]. intros E. injection E as E1 _ _ E4.
  apply lower_char_ascii in E1; [|lia]. apply lower_char_ascii in E4; [|lia].
  destruct E1 as [-> | ->], E4 as [-> | ->]; reflexivity.
Qed.

(** *** The city extraction on padded answers *)

Lemma city_of_padded pre core post :
  Shape.blank pre = true -> Shape.blank post = true ->
  Shape.trimmed core = true ->
  Outcome.city_of (ChatContent (Some (pre ++ core ++ post)))
  = if PyStr.eqb (lower core) (py "null") then None else Some core.
Proof.
  intros Hpre Hpost Hcore. cbn [Outcome.city_of].
  rewrite (strip_padded pre core post Hpre Hpost Hcore). reflexivity.
Qed.

(** X1.  Both [extract_city_from_query] functions read the null marker in
    any letter case and with any white space around it: the answer is
    then "no city". *)
Theorem X1_null_marker_any_case w query h pre marker post :
  completion w h (AskCity query)
  = ChatContent (Some (pre ++ marker ++ post)) ->
  Shape.blank pre = true -> Shape.blank post = true ->
  lower marker = py "null" ->
  Server.extract_city_from_query w query h
  = (Ok None, h ++ [Chat (AskCity query)])
  /\ Main.extract_city_from_query w query h
     = (Ok None, h ++ [Chat (AskCity query)]).
Proof.
  intros E Hpre Hpost Hnull.
  assert (R : Server.extract_city_from_query w query h
              = (Ok None, h ++ [Chat (AskCity query)])).
  { rewrite server_extract_city_run, E.
    rewrite (city_of_padded pre marker post Hpre Hpost
               (null_spelling_trimmed marker Hnull)).
    rewrite Hnull. reflexivity. }
  split; exact R.
Qed.

Lemma X1_null_marker_any_case_witness :
  completion Cases.shouted_null [] (AskCity Scenario.kazan_query)
  = ChatContent (Some (py "  " ++ py "NuLL" ++ py " "))
  /\ Server.extract_city_from_query Cases.shouted_null Scenario.kazan_query []
     = (Ok None, [Chat (AskCity Scenario.kazan_query)]).
Proof.
  split; [reflexivity|].
  exact (proj1 (X1_null_marker_any_case Cases.shouted_null
                  Scenario.kazan_query [] (py "  ") (py "NuLL") (py " ")
                  eq_refl eq_refl eq_refl eq_refl)).
Defined.

(** X2.  Any other answer is taken as the city without validation: the
    text between the surrounding white space is returned exactly as it is
    (the empty text included), whenever it is not a spelling of the null
    marker. *)
Theorem X2_city_returned_verbatim w query h pre core post :
  completion w h (AskCity query)
  = ChatContent (Some (pre ++ core ++ post)) ->
  Shape.blank pre = true -> Shape.blank post = true ->
  Shape.trimmed core = true ->
  lower core <> py "null" ->
  Server.extract_city_from_query w query h
  = (Ok (Some core), h ++ [Chat (AskCity query)])
  /\ Main.extract_city_from_query w query h
     = (Ok (Some core), h ++ [Chat (AskCity query)]).
Proof.
  intros E Hpre Hpost Hcore Hnot.
  assert (R : Server.extract_city_from_query w query h
              = (Ok (Some core), h ++ [Chat (AskCity query)])).
  { rewrite server_extract_city_run, E.
    rewrite (city_of_padded pre core post Hpre Hpost Hcore).
    destruct (PyStr.eqb (lower core) (py "null")) eqn:B; [|reflexivity].
    apply pystr_eqb_eq in B. contradiction. }
  split; exact R.
Qed.

Lemma X2_city_returned_verbatim_witness :
  completion Scenario.kazan [] (AskCity Scenario.kazan_query)
  = ChatContent (Some (py " " ++ py "Казань" ++ py " "))
  /\ Server.extract_city_from_query Scenario.kazan Scenario.kazan_query []
     = (Ok (Some (py "Казань")), [Chat (AskCity Scenario.kazan_query)]).
Proof.
  split; [reflexivity|].
  refine (proj1 (X2_city_returned_verbatim Scenario.kazan
                   Scenario.kazan_query [] (py " ") (py "Казань") (py " ")
                   eq_refl eq_refl eq_refl eq_refl _)).
  intros E. discriminate E.
Defined.

(** *** The comma path *)

Lemma strip_In c s : In c (strip s) -> In c s.
Proof.
  destruct (strip_spec s) as (before & after & E & _).
  intros H. rewrite E. apply in_or_app. right. apply in_or_app. left.
  exact H.
Qed.

(** Every piece of the comma path is non-empty, free of commas, and free
    of white space at both ends. *)
Lemma comma_separated_pieces s :
  Forall (fun p => p <> [] /\ ~ In 44%N p /\ Shape.trimmed p = true)
    (comma_separated s).
Proof.
  apply Forall_forall. intros p Hp.
  apply comma_separated_In in Hp. destruct Hp as (Hne & f & Hf & ->).
  split; [exact Hne|]. split; [|apply strip_is_trimmed].
  intros Hc. apply strip_In in Hc.
  pose proof (split_no_sep 44%N s) as Hs. rewrite Forall_forall in Hs.
  exact (Hs f Hf Hc).
Qed.

(** X3.  When the provider's text does not decode as JSON, the categories
    returned by both extraction functions form a list of strings, each of
    them non-empty, without a comma, and without white space at either
    end. *)
Theorem X3_comma_path_pieces w query h raw :
  completion w h (AskCategories query) = ChatContent (Some raw) ->
  Json.loads (strip raw) = None ->
  exists pieces,
    Server.extract_categories_from_query w query h
    = (Ok (PyList (map PyStr pieces)), h ++ [Chat (AskCategories query)])
    /\ Main.extract_categories_from_query w query h
       = (Ok (PyList (map PyStr pieces)), h ++ [Chat (AskCategories query)])
    /\ Forall (fun p => p <> [] /\ ~ In 44%N p /\ Shape.trimmed p = true)
         pieces.
Proof.
  intros E L. exists (comma_separated (strip raw)).
  assert (R : Server.extract_categories_from_query w query h
              = (Ok (PyList (map PyStr (comma_separated (strip raw)))),
                 h ++ [Chat (AskCategories query)])).
  { rewrite server_extract_categories_run, E. cbn [Outcome.categories_of].
    rewrite L. reflexivity. }
  split; [exact R|]. split; [exact R|]. apply comma_separated_pieces.
Qed.

Lemma X3_comma_path_pieces_witness :
  Json.loads (strip (py "едa, помощь животным")) = None
  /\ exists pieces,
       Server.extract_categories_from_query Scenario.bare_categories
         Scenario.kazan_query []
       = (Ok (PyList (map PyStr pieces)),
          [Chat (AskCategories Scenario.kazan_query)])
       /\ Forall (fun p => p <> [] /\ ~ In 44%N p /\ Shape.trimmed p = true)
            pieces.
Proof.
  split; [reflexivity|].
  destruct (X3_comma_path_pieces Scenario.bare_categories
              Scenario.kazan_query [] (py "едa, помощь животным")
              eq_refl eq_refl) as (pieces & S & _ & F).
  exists pieces. split; [exact S | exact F].
Defined.

(** *** Texts that cannot be JSON *)

Lemma pystr_eqb_head c p d q :
  c <> d -> PyStr.eqb (c :: p) (d :: q) = false.
Proof.
  intros H. unfold PyStr.eqb.
  destruct (list_eq_dec N.eq_dec (c :: p) (d :: q)) as [E|]; [|reflexivity].
  injection E as E _. contradiction.
Qed.

Lemma starts_with_head d q c r :
  c <> d -> Json.starts_with (d :: q) (c :: r) = None.
Proof.
  intros H. unfold Json.starts_with. cbn [List.length firstn].
  rewrite (pystr_eqb_head c _ d q H). reflexivity.
Qed.

Lemma scan_literal_none c r :
  Shape.can_start_value c = false -> Json.scan_literal (c :: r) = None.
Proof.
  unfold Shape.can_start_value. intros H.
  repeat (apply orb_false_elim in H; destruct H as [H ?]).
  repeat match goal with
         | E : (_ =? _)%N = false |- _ => apply N.eqb_neq in E
         end.
  unfold Json.scan_literal.
  change (py "null") with (110 :: py "ull")%N.
  change (py "true") with (116 :: py "rue")%N.
  change (py "false") with (102 :: py "alse")%N.
  change (py "NaN") with (78 :: py "aN")%N.
  change (py "Infinity") with (73 :: py "nfinity")%N.
  change (py "-Infinity") with (45 :: py "Infinity")%N.
  rewrite !starts_with_head by assumption.
  unfold Json.match_number, Json.scan_sign.
  destruct (N.eqb_spec c 45) as [|_]; [contradiction|].
  unfold Json.scan_int.
  assert (D : Json.is_digit c = false) by assumption.
  unfold Json.is_digit in D.
  destruct (N.eqb_spec c 48) as [->|_]; [discriminate D|].
  destruct ((49 <=? c)%N && (c <=? 57)%N) eqn:B; [|reflexivity].
  apply andb_prop in B. destruct B as [B1 B2].
  apply N.leb_le in B1, B2. apply andb_false_elim in D.
  destruct D as [D|D]; apply N.leb_gt in D; lia.
Qed.

Lemma is_ws_isspace c : Json.is_ws c = true -> isspace c = true.
Proof.
  unfold Json.is_ws. intros H.
  repeat (apply orb_prop in H; destruct H as [H|H]);
    apply N.eqb_eq in H; subst c; reflexivity.
Qed.

(** A text whose first character cannot begin a JSON value does not
    decode. *)
Lemma loads_none_of_start c r :
  isspace c = false -> Shape.can_start_value c = false ->
  Json.loads (c :: r) = None.
Proof.
  intros Hs Hc.
  assert (W : Json.skip_ws (c :: r) = c :: r).
  { cbn [Json.skip_ws]. destruct (Json.is_ws c) eqn:E; [|reflexivity].
    apply is_ws_isspace in E. congruence. }
  assert (S : Json.scan_once (List.length (c :: r)) (Json.skip_ws (c :: r))
              = None).
  { rewrite W. cbn [List.length Json.scan_once].
    pose proof Hc as Hc'. unfold Shape.can_start_value in Hc'.
    repeat (apply orb_false_elim in Hc'; destruct Hc' as [Hc' ?]).
    repeat match goal with
           | E : (c =? ?k)%N = false |- _ => rewrite E
           end.
    apply scan_literal_none. exact Hc. }
  unfold Json.loads. rewrite S.
  destruct c as [|p]; [reflexivity|].
  repeat (destruct p as [p|p|]; try reflexivity).
Qed.

(** X4.  A text that, once trimmed, begins with a character no JSON value
    can begin with (any letter except n, t, f, N and I, for one) is never
    decoded as JSON: both extraction functions return its comma-separated
    pieces.  A blank text gives the empty list. *)
Theorem X4_bare_words_take_the_comma_path w query h raw :
  completion w h (AskCategories query) = ChatContent (Some raw) ->
  (forall c rest,
     strip raw = c :: rest ->
     Shape.can_start_value c = false ->
     Server.extract_categories_from_query w query h
     = (Ok (PyList (map PyStr (comma_separated (c :: rest)))),
        h ++ [Chat (AskCategories query)])
     /\ Main.extract_categories_from_query w query h
        = (Ok (PyList (map PyStr (comma_separated (c :: rest)))),
           h ++ [Chat (AskCategories query)]))
  /\ (Shape.blank raw = true ->
      Server.extract_categories_from_query w query h
      = (Ok (PyList []), h ++ [Chat (AskCategories query)])
      /\ Main.extract_categories_from_query w query h
         = (Ok (PyList []), h ++ [Chat (AskCategories query)])).
Proof.
  intros E.
  assert (R : Json.loads (strip raw) = None ->
              Server.extract_categories_from_query w query h
              = (Ok (PyList (map PyStr (comma_separated (strip raw)))),
                 h ++ [Chat (AskCategories query)])).
  { intros L. rewrite server_extract_categories_run, E.
    cbn [Outcome.categories_of]. rewrite L. reflexivity. }
  split.
  - intros c rest S Hstart.
    assert (L : Json.loads (strip raw) = None).
    { pose proof (strip_is_trimmed raw) as T. rewrite S in T |- *.
      apply loads_none_of_start; [|exact Hstart].
      cbn [Shape.trimmed] in T. apply andb_prop in T. destruct T as [T _].
      apply negb_true_iff. exact T. }
    specialize (R L). rewrite S in R. split; exact R.
  - intros B.
    assert (S : strip raw = []).
    { unfold strip, rstrip. rewrite (lstrip_blank raw B). reflexivity. }
    rewrite S in R. specialize (R eq_refl). split; exact R.
Qed.

Lemma X4_bare_words_take_the_comma_path_witness :
  Shape.can_start_value 1077 = false
  /\ Server.extract_categories_from_query Scenario.bare_categories
       Scenario.kazan_query []
     = (Ok (PyList [PyStr (py "едa"); PyStr (py "помощь животным")]),
        [Chat (AskCategories Scenario.kazan_query)]).
Proof.
  split; [reflexivity|].
  exact (proj1 (proj1 (X4_bare_words_take_the_comma_path
                         Scenario.bare_categories Scenario.kazan_query []
                         (py "едa, помощь животным") eq_refl)
                  1077%N (py "дa, помощь животным") eq_refl eq_refl)).
Defined.

(** *** A JSON array of plain names *)

Lemma scanstring_plain s : forall acc rest,
  Shape.plain s = true ->
  Json.scanstring (s ++ 34%N :: rest) acc = Some (rev acc ++ s, rest).
Proof.
  unfold Shape.plain.
  induction s as [|c r IH]; intros acc rest H.
  - cbn [app Json.scanstring]. rewrite app_nil_r. reflexivity.
  - cbn [forallb] in H. apply andb_prop in H. destruct H as [Hc Hr].
    unfold Shape.plain_char in Hc.
    apply andb_prop in Hc. destruct Hc as [Hc H3].
    apply andb_prop in Hc. destruct Hc as [H1 H2].
    apply negb_true_iff in H1, H2, H3.
    cbn [app Json.scanstring]. rewrite H1, H2, H3.
    rewrite (IH (c :: acc) rest Hr). cbn [rev].
    rewrite <- app_assoc. reflexivity.
Qed.

Lemma scan_once_quoted d s rest :
  Shape.plain s = true ->
  Json.scan_once d (Scenario.quoted s ++ rest) = Some (PyStr s, rest).
Proof.
  intros H. unfold Scenario.quoted.
  change ((34%N :: s ++ [34%N]) ++ rest)
    with (34%N :: (s ++ [34%N]) ++ rest).
  rewrite <- app_assoc. cbn [app].
  destruct d; cbn [Json.scan_once N.eqb Pos.eqb];
    rewrite (scanstring_plain s [] rest H); reflexivity.
Qed.

Lemma others_text_cons s names rest :
  List.concat (map (fun s => py ", " ++ Scenario.quoted s) (s :: names))
  ++ 93%N :: rest
  = 44%N :: 32%N
    :: Scenario.quoted s
       ++ List.concat (map (fun s => py ", " ++ Scenario.quoted s) names)
       ++ 93%N :: rest.
Proof.
  cbn [map List.concat]. rewrite <- !app_assoc. reflexivity.
Qed.

Lemma array_tail_comma scan n t acc :
  Json.array_tail scan (S n) (44%N :: 32%N :: t) acc
  = match scan (Json.skip_ws t) with
    | Some (v, rest) => Json.array_tail scan n rest (v :: acc)
    | None => None
    end.
Proof. reflexivity. Qed.

Lemma skip_ws_quoted s t :
  Json.skip_ws (Scenario.quoted s ++ t) = Scenario.quoted s ++ t.
Proof. reflexivity. Qed.

Lemma array_tail_names d names : forall n acc rest,
  Forall (fun s => Shape.plain s = true) names ->
  List.length names < n ->
  Json.array_tail (Json.scan_once d) n
    (List.concat (map (fun s => py ", " ++ Scenario.quoted s) names)
     ++ 93%N :: rest) acc
  = Some (PyList (rev acc ++ map PyStr names), rest).
Proof.
  induction names as [|s names IH]; intros n acc rest Hp Hn.
  - destruct n as [|n]; [cbn in Hn; lia|].
    cbn [map List.concat app Json.array_tail Json.skip_ws].
    rewrite app_nil_r. reflexivity.
  - destruct n as [|n]; [cbn in Hn; lia|].
    inversion Hp as [|? ? Hs Hrest]; subst.
    rewrite others_text_cons, array_tail_comma, skip_ws_quoted.
    rewrite (scan_once_quoted d s _ Hs).
    rewrite (IH n (PyStr s :: acc) rest Hrest) by (cbn in Hn; lia).
    cbn [rev map]. rewrite <- app_assoc. reflexivity.
Qed.

Lemma length_others_text (names : list pystr) rest :
  List.length names
  < List.length
      (List.concat (map (fun s => py ", " ++ Scenario.quoted s) names)
       ++ 93%N :: rest).
Proof.
  induction names as [|s names IH].
  - cbn. lia.
  - rewrite others_text_cons. cbn [List.length]. rewrite length_app. lia.
Qed.

Lemma parse_array_first scan first t :
  Json.parse_array scan (Scenario.quoted first ++ t)
  = match scan (Scenario.quoted first ++ t) with
    | Some (v, rest) => Json.array_tail scan (List.length rest) rest [v]
    | None => None
    end.
Proof. reflexivity. Qed.

(** The decoder reads the array text of plain names back. *)
Lemma loads_array_text names :
  Forall (fun s => Shape.plain s = true) names ->
  Json.loads (Shape.array_text names) = Some (PyList (map PyStr names)).
Proof.
  intros Hp. destruct names as [|first others]; [reflexivity|].
  inversion Hp as [|? ? Hfirst Hothers]; subst.
  unfold Shape.array_text.
  set (t := List.concat (map (fun s => py ", " ++ Scenario.quoted s) others)
            ++ [93%N]).
  assert (E : Json.loads (91%N :: Scenario.quoted first ++ t)
              = match Json.parse_array
                        (Json.scan_once
                           (List.length (Scenario.quoted first ++ t)))
                        (Scenario.quoted first ++ t) with
                | Some (v, rest) =>
                    match Json.skip_ws rest with
                    | [] => Some v
                    | _ :: _ => None
                    end
                | None => None
                end) by reflexivity.
  rewrite E, parse_array_first, (scan_once_quoted _ first t Hfirst).
  unfold t.
  rewrite (array_tail_names _ others _ [PyStr first] [] Hothers)
    by apply length_others_text.
  reflexivity.
Qed.

Lemma array_text_trimmed names : Shape.trimmed (Shape.array_text names) = true.
Proof.
  destruct names as [|first others]; [reflexivity|].
  unfold Shape.array_text. cbn [Shape.trimmed].
  change (91%N :: Scenario.quoted first
          ++ List.concat
               (map (fun s => py ", " ++ Scenario.quoted s) others)
          ++ [93%N])
    with ((91%N :: Scenario.quoted first)
          ++ List.concat
               (map (fun s => py ", " ++ Scenario.quoted s) others)
          ++ [93%N]).
  rewrite app_assoc, last_last. reflexivity.
Qed.

(** X5.  When the provider answers the category request, as its prompt
    asks, with a JSON array of names (written as [json.dumps] writes them,
    the names free of quotes, backslashes and control characters), with
    any white space around it, both extraction functions return exactly
    these names, in order. *)
Theorem X5_json_array_of_names w query h pre names post :
  completion w h (AskCategories query)
  = ChatContent (Some (pre ++ Shape.array_text names ++ post)) ->
  Shape.blank pre = true -> Shape.blank post = true ->
  Forall (fun s => Shape.plain s = true) names ->
  Server.extract_categories_from_query w query h
  = (Ok (PyList (map PyStr names)), h ++ [Chat (AskCategories query)])
  /\ Main.extract_categories_from_query w query h
     = (Ok (PyList (map PyStr names)), h ++ [Chat (AskCategories query)]).
Proof.
  intros E Hpre Hpost Hp.
  assert (R : Server.extract_categories_from_query w query h
              = (Ok (PyList (map PyStr names)),
                 h ++ [Chat (AskCategories query)])).
  { rewrite server_extract_categories_run, E. cbn [Outcome.categories_of].
    rewrite (strip_padded pre _ post Hpre Hpost (array_text_trimmed names)).
    rewrite (loads_array_text names Hp). reflexivity. }
  split; exact R.
Qed.

Lemma X5_json_array_of_names_witness :
  completion Scenario.kazan [Chat (AskCity Scenario.kazan_query)]
    (AskCategories Scenario.kazan_query)
  = ChatContent (Some ([] ++ Shape.array_text [py "животные"] ++ []))
  /\ Server.extract_categories_from_query Scenario.kazan Scenario.kazan_query
       [Chat (AskCity Scenario.kazan_query)]
     = (Ok (PyList [PyStr (py "животные")]),
        [Chat (AskCity Scenario.kazan_query);
         Chat (AskCategories Scenario.kazan_query)]).
Proof.
  split; [reflexivity|].
  refine (proj1 (X5_json_array_of_names Scenario.kazan Scenario.kazan_query
                   [Chat (AskCity Scenario.kazan_query)] []
                   [py "животные"] [] eq_refl eq_refl eq_refl _)).
  repeat constructor.
Defined.

(** *** The requests of the cascade *)

Lemma full_filter_set_lookup jwt_token city categories :
  dict_get (Spec.full_filter_set jwt_token city categories) (py "jwt_token")
  = (if truthy (of_opt jwt_token) then Some (of_opt jwt_token) else None)
  /\ dict_get (Spec.full_filter_set jwt_token city categories) (py "city")
     = (if truthy (of_opt city) then Some (of_opt city) else None)
  /\ dict_get (Spec.full_filter_set jwt_token city categories)
       (py "category")
     = (if truthy categories then Some categories else None).
Proof.
  unfold Spec.full_filter_set.
  destruct (truthy (of_opt jwt_token)), (truthy (of_opt city)),
    (truthy categories); repeat split; reflexivity.
Qed.

Lemma Forall_firstn_of {A} (P : A -> Prop) n (l : list A) :
  Forall P l -> Forall P (firstn n l).
Proof.
  intros H. apply Forall_forall. intros x Hx.
  rewrite Forall_forall in H. apply H.
  rewrite <- (firstn_skipn n l). apply in_or_app. left. exact Hx.
Qed.

Lemma dict_get_cons_iff a x (r : dict) k v :
  dict_get ((a, x) :: r) k = Some v
  <-> (k = a /\ v = x) \/ (k <> a /\ dict_get r k = Some v).
Proof.
  cbn [dict_get]. destruct (PyStr.eqb a k) eqn:E.
  - apply pystr_eqb_eq in E. subst k. split.
    + intros [= <-]. left. split; reflexivity.
    + intros [[_ ->] | [N _]]; [reflexivity | contradiction].
  - assert (N : k <> a).
    { intros ->. rewrite (proj2 (pystr_eqb_eq a a) eq_refl) in E.
      discriminate E. }
    split.
    + intros H. right. split; assumption.
    + intros [[-> _] | [_ H]]; [contradiction | exact H].
Qed.

(** The first request holds a key exactly when it is one of the three
    filters and its value is true in Python's sense. *)
Lemma full_filter_set_exact jwt_token city categories k v :
  dict_get (Spec.full_filter_set jwt_token city categories) k = Some v
  <-> (k = py "jwt_token" /\ v = of_opt jwt_token /\ truthy v = true)
      \/ (k = py "city" /\ v = of_opt city /\ truthy v = true)
      \/ (k = py "category" /\ v = categories /\ truthy v = true).
Proof.
  assert (K1 : py "jwt_token" <> py "city") by (intros E; discriminate E).
  assert (K2 : py "jwt_token" <> py "category")
    by (intros E; discriminate E).
  assert (K3 : py "city" <> py "category") by (intros E; discriminate E).
  unfold Spec.full_filter_set.
  destruct (truthy (of_opt jwt_token)) eqn:T1,
    (truthy (of_opt city)) eqn:T2, (truthy categories) eqn:T3;
    cbn [app]; rewrite ?dict_get_cons_iff; cbn [dict_get];
    (split;
     [ intros H;
       repeat match goal with
              | H : _ \/ _ |- _ => destruct H as [H|H]
              | H : _ /\ _ |- _ => destruct H
              end;
       subst; try discriminate; auto 6
     | intros [(-> & -> & T) | [(-> & -> & T) | (-> & -> & T)]];
       try congruence; auto 8 ]).
Qed.

(** X6.  The first backend search of the cascade carries exactly the
    filters that are present, in the order token, city, categories, and
    nothing else: a key is looked up successfully if and only if it is one
    of these three and its value is true in Python's sense.  The searches
    after it are a prefix of the city-only search (made only when there is
    a city) followed by the unfiltered search; there are at most two of
    them and they never carry the token or the categories. *)
Theorem X6_fallback_searches_drop_token w jwt_token city categories h :
  let first : dict :=
    (if truthy (of_opt jwt_token)
     then [(py "jwt_token", of_opt jwt_token)] else [])
    ++ (if truthy (of_opt city) then [(py "city", of_opt city)] else [])
    ++ (if truthy categories then [(py "category", categories)] else []) in
  exists nko_list later,
    Server.resolve w jwt_token city categories h
    = (Ok nko_list, h ++ HttpGet UrlNko first :: later)
    /\ (forall k v,
          dict_get first k = Some v
          <-> (k = py "jwt_token" /\ v = of_opt jwt_token /\ truthy v = true)
              \/ (k = py "city" /\ v = of_opt city /\ truthy v = true)
              \/ (k = py "category" /\ v = categories /\ truthy v = true))
    /\ dict_get first (py "jwt_token")
       = (if truthy (of_opt jwt_token) then Some (of_opt jwt_token) else None)
    /\ dict_get first (py "city")
       = (if truthy (of_opt city) then Some (of_opt city) else None)
    /\ dict_get first (py "category")
       = (if truthy categories then Some categories else None)
    /\ (exists tried,
          later
          = firstn tried
              ((if truthy (of_opt city)
                then [HttpGet UrlNko [(py "city", of_opt city)]] else [])
               ++ [HttpGet UrlNko []]))
    /\ List.length later <= 2
    /\ Forall (fun e => exists params,
                 e = HttpGet UrlNko params
                 /\ dict_get params (py "jwt_token") = None
                 /\ dict_get params (py "category") = None) later.
Proof.
  intros first.
  destruct (server_resolve_cascade w jwt_token city categories h)
    as (r & h' & Run & Casc).
  destruct (cascade_calls _ _ _ _ _ Casc) as (i & Hi & Hh & _).
  unfold Spec.calls, Spec.candidates in Hh. cbn [firstn map] in Hh.
  destruct (full_filter_set_lookup jwt_token city categories)
    as (L1 & L2 & L3).
  exists r. eexists. split; [rewrite Run, Hh; reflexivity|].
  split; [intros k v; apply full_filter_set_exact|].
  repeat (split; [assumption|]).
  split; [|split].
  - exists i. rewrite <- firstn_map, map_app.
    destruct (truthy (of_opt city)); reflexivity.
  - rewrite length_map, length_firstn.
    destruct (truthy (of_opt city)); cbn [List.length app]; lia.
  - apply Forall_forall. intros e He. apply in_map_iff in He.
    destruct He as (params & <- & Hp). exists params. split; [reflexivity|].
    assert (A : Forall (fun p => dict_get p (py "jwt_token") = None
                                 /\ dict_get p (py "category") = None)
                  ((if truthy (of_opt city)
                    then [Spec.city_only_filter_set city] else [])
                   ++ [Spec.empty_filter_set])).
    { destruct (truthy (of_opt city)); repeat constructor. }
    apply (Forall_firstn_of _ i) in A. rewrite Forall_forall in A.
    exact (A params Hp).
Qed.

(** X7.  With no token, no city and no categories the first search is
    already the unfiltered one; when it comes back empty (or fails) the
    same unfiltered request is sent a second time, and its answer is
    returned. *)
Theorem X7_unfiltered_search_is_repeated w jwt_token city categories h :
  truthy (of_opt jwt_token) = false ->
  truthy (of_opt city) = false ->
  truthy categories = false ->
  truthy (Spec.answer w h []) = false ->
  Server.resolve w jwt_token city categories h
  = (Ok (Spec.answer w (h ++ [HttpGet UrlNko []]) []),
     h ++ [HttpGet UrlNko []; HttpGet UrlNko []]).
Proof.
  intros T1 T2 T3 A.
  rewrite server_resolve_unfold. unfold Spec.full_filter_set.
  rewrite T1, T2, T3. cbn [app].
  unfold bind at 1. rewrite server_get_nko_list_run, A.
  cbn [negb andb]. unfold bind at 1, ret at 1. unfold bind at 1. rewrite A.
  cbn [negb]. unfold Spec.empty_filter_set.
  rewrite server_get_nko_list_run. unfold ret. rewrite <- app_assoc.
  reflexivity.
Qed.

Lemma X7_unfiltered_search_is_repeated_witness :
  truthy (Spec.answer Scenario.unreachable [] []) = false
  /\ Server.resolve Scenario.unreachable None None (PyList []) []
     = (Ok (PyList []), [HttpGet UrlNko []; HttpGet UrlNko []]).
Proof.
  split; [reflexivity|].
  exact (X7_unfiltered_search_is_repeated Scenario.unreachable None None
           (PyList []) [] eq_refl eq_refl eq_refl eq_refl).
Defined.

(** *** Answers that are not record sets, blank cities, echoed filters *)



(** X9.  A blank answer to the city request gives the empty string as the
    city, not "no city"; the cascade treats the empty string as absent: no
    city filter is sent and the city-only search is skipped. *)
Theorem X9_blank_city_answer w query h blank_text :
  completion w h (AskCity query) = ChatContent (Some blank_text) ->
  Shape.blank blank_text = true ->
  Server.extract_city_from_query w query h
  = (Ok (Some []), h ++ [Chat (AskCity query)])
  /\ forall jwt_token categories h',
       Server.resolve w jwt_token (Some []) categories h'
       = Server.resolve w jwt_token None categories h'.
Proof.
  intros E B. split.
  - rewrite server_extract_city_run, E.
    pose proof (city_of_padded blank_text [] [] B eq_refl eq_refl) as C.
    cbn [app] in C. rewrite app_nil_r in C. do 2 f_equal. exact C.
  - intros jwt_token categories h'.
    rewrite !server_resolve_unfold.
    change (Spec.full_filter_set jwt_token (Some []) categories)
      with (Spec.full_filter_set jwt_token None categories).
    unfold bind. rewrite !server_get_nko_list_run.
    destruct (truthy (Spec.answer w h'
                        (Spec.full_filter_set jwt_token None categories)));
      reflexivity.
Qed.

Lemma X9_blank_city_answer_witness :
  Shape.blank (py "   ") = true
  /\ Server.extract_city_from_query Cases.blank_city Scenario.kazan_query []
     = (Ok (Some []), [Chat (AskCity Scenario.kazan_query)]).
Proof.
  split; [reflexivity|].
  exact (proj1 (X9_blank_city_answer Cases.blank_city Scenario.kazan_query []
                  (py "   ") eq_refl eq_refl)).
Defined.



(** *** The calls of one cycle *)

(** X11.  One cycle of the server's [process_user_query] makes its external
    calls in a fixed order: the city request, the category request, then
    one to three backend searches, then at most one recommendation
    request, so never more than six calls.  Without a token the runner's
    cycle makes the same calls. *)
Theorem X11_calls_of_a_cycle w query jwt_token h :
  exists searches tail,
    snd (Server.process_user_query w query jwt_token h)
    = h ++ [Chat (AskCity query); Chat (AskCategories query)]
        ++ map (HttpGet UrlNko) searches ++ tail
    /\ 1 <= List.length searches <= 3
    /\ (tail = [] \/ exists context, tail = [Chat (AskRecommendation context query)])
    /\ List.length (snd (Server.process_user_query w query jwt_token h))
       <= List.length h + 6
    /\ (truthy (of_opt jwt_token) = false ->
        snd (Main.process_user_query w query h)
        = snd (Server.process_user_query w query jwt_token h)).
Proof.
  set (city := Outcome.city_of (completion w h (AskCity query))).
  set (h1 := h ++ [Chat (AskCity query)]).
  set (categories :=
         Outcome.categories_of (completion w h1 (AskCategories query))).
  set (h2 := h1 ++ [Chat (AskCategories query)]).
  destruct (server_resolve_cascade w jwt_token city categories h2)
    as (r & h3 & Run & Casc).
  destruct (cascade_calls _ _ _ _ _ Casc) as (i & Hi & Hh & _).
  pose proof (server_cycle_history w query jwt_token h r h3 Run) as Hist.
  fold city h1 categories in Hist.
  set (cs := Spec.candidates jwt_token city categories) in *.
  assert (Lcs : List.length cs <= 3).
  { unfold cs, Spec.candidates. destruct (truthy (of_opt city)); cbn; lia. }
  assert (Ls : List.length (firstn (S i) cs) = S i).
  { rewrite length_firstn. lia. }
  exists (firstn (S i) cs).
  exists (match Outcome.context_of query city categories r with
          | Ok context => [Chat (AskRecommendation context query)]
          | Raise _ => []
          end).
  assert (E : snd (Server.process_user_query w query jwt_token h)
              = h ++ [Chat (AskCity query); Chat (AskCategories query)]
                  ++ map (HttpGet UrlNko) (firstn (S i) cs)
                  ++ match Outcome.context_of query city categories r with
                     | Ok context => [Chat (AskRecommendation context query)]
                     | Raise _ => []
                     end).
  { rewrite Hist, Hh. unfold Spec.calls, h2, h1.
    rewrite <- !app_assoc. reflexivity. }
  split; [exact E|]. split; [lia|]. split; [|split].
  - destruct (Outcome.context_of query city categories r);
      [right; eexists; reflexivity | left; reflexivity].
  - rewrite E, !length_app, length_map, Ls.
    destruct (Outcome.context_of query city categories r); cbn [List.length];
      lia.
  - intros T. rewrite (main_cycle w query jwt_token h T). reflexivity.
Qed.

(* ===================================================================== *)
(** ** Further properties of the tools and of the runner's helpers *)
(* ===================================================================== *)

(** *** Dictionaries: store and look up *)

Lemma pystr_eqb_refl k : PyStr.eqb k k = true.
Proof. apply pystr_eqb_eq. reflexivity. Qed.

Lemma pystr_eqb_neq a b : a <> b -> PyStr.eqb a b = false.
Proof.
  intros H. destruct (PyStr.eqb a b) eqn:E; [|reflexivity].
  apply pystr_eqb_eq in E. contradiction.
Qed.

Lemma dict_get_set_same d k v : dict_get (dict_set d k v) k = Some v.
Proof.
  induction d as [|[k' v'] r IH]; cbn [dict_set dict_get].
  - rewrite pystr_eqb_refl. reflexivity.
  - destruct (PyStr.eqb k' k) eqn:E; cbn [dict_get]; rewrite E;
      [reflexivity | exact IH].
Qed.

Lemma dict_get_set_other d k v k' :
  k <> k' -> dict_get (dict_set d k v) k' = dict_get d k'.
Proof.
  intros H. induction d as [|[k0 v0] r IH]; cbn [dict_set dict_get].
  - rewrite (pystr_eqb_neq k k' H). reflexivity.
  - destruct (PyStr.eqb k0 k) eqn:E; cbn [dict_get].
    + apply pystr_eqb_eq in E. subst k0.
      rewrite (pystr_eqb_neq k k' H). reflexivity.
    + destruct (PyStr.eqb k0 k'); [reflexivity | exact IH].
Qed.

Lemma dict_set_twice d k v : dict_set (dict_set d k v) k v = dict_set d k v.
Proof.
  induction d as [|[k' v'] r IH]; cbn [dict_set].
  - rewrite pystr_eqb_refl. reflexivity.
  - destruct (PyStr.eqb k' k) eqn:E; cbn [dict_set]; rewrite E;
      [reflexivity | rewrite IH; reflexivity].
Qed.

(** Storing the same value under the same key once per element of a
    non-empty sequence stores it once. *)
Lemma fold_dict_set {A} (items : list A) d k v :
  items <> [] ->
  fold_left (fun params _ => dict_set params k v) items d = dict_set d k v.
Proof.
  intros Hne. destruct items as [|x items]; [congruence|]. clear Hne.
  cbn [fold_left]. induction items as [|y items IH]; [reflexivity|].
  cbn [fold_left]. rewrite dict_set_twice. exact IH.
Qed.

(** The key is stored when the test holds, and left alone otherwise. *)
Lemma dict_get_cond_set (b : bool) d k v k' :
  dict_get (if b then dict_set d k v else d) k'
  = if b && PyStr.eqb k k' then Some v else dict_get d k'.
Proof.
  destruct b; cbn [andb]; [|reflexivity].
  destruct (PyStr.eqb k k') eqn:E.
  - apply pystr_eqb_eq in E. subst. apply dict_get_set_same.
  - apply dict_get_set_other. intros ->. rewrite pystr_eqb_refl in E.
    discriminate.
Qed.

(** *** The tools of mcp.py *)

Import Api.

(** The loop over the categories stores the whole value once. *)
Lemma category_loop categories params l :
  (truthy categories = true -> iterable categories = true) ->
  (if truthy categories
   then
     items <~ py_iter categories ;;
     done (fold_left
             (fun params category =>
                dict_set params (py "category") categories)
             items params)
   else done params) l
  = (Done (if truthy categories
           then dict_set params (py "category") categories
           else params), l).
Proof.
  intros H. destruct (truthy categories) eqn:T; [|reflexivity].
  specialize (H eq_refl).
  destruct categories as [| b | z | f | s | items | d];
    try discriminate H; unfold and_then, py_iter, done.
  - rewrite fold_dict_set; [reflexivity|].
    destruct s; [discriminate T | discriminate].
  - rewrite fold_dict_set; [reflexivity|].
    destruct items; [discriminate T | discriminate].
  - rewrite fold_dict_set; [reflexivity|].
    destruct d; [discriminate T | discriminate].
Qed.

(** The one request of [get_nko_list] and what it carries. *)
Lemma mcp_list_request service str_lower args l :
  let jwt_token := get_or args (py "jwt_token") (PyStr []) in
  let city := get_or args (py "city") PyNone in
  let favorite := get_or args (py "favorite") PyNone in
  let categories := get_or args (py "category") (PyList []) in
  let regex := get_or args (py "regex") PyNone in
  (truthy categories = true -> iterable categories = true) ->
  exists params t,
    McpTools.get_nko_list service str_lower args l
    = (Done [Mcp.text_content t], l ++ [Get PathNko params])
    /\ dict_get params (py "jwt_token")
       = (if truthy jwt_token then Some jwt_token else None)
    /\ dict_get params (py "city") = (if truthy city then Some city else None)
    /\ dict_get params (py "regex")
       = (if truthy regex then Some regex else None)
    /\ dict_get params (py "category")
       = (if truthy categories then Some categories else None)
    /\ dict_get params (py "favorite")
       = (if is_not_none favorite then Some (PyStr (str_lower favorite))
          else None).
Proof.
  intros jwt_token city favorite categories regex Iter.
  unfold McpTools.get_nko_list. fold jwt_token city favorite categories regex.
  cbv zeta.
  set (p4 := if truthy regex then dict_set _ (py "regex") regex else _).
  unfold attempt. unfold and_then at 1.
  rewrite (category_loop categories p4 l Iter).
  set (params := if truthy categories then _ else _).
  assert (Lookups :
    dict_get params (py "jwt_token")
    = (if truthy jwt_token then Some jwt_token else None)
    /\ dict_get params (py "city") = (if truthy city then Some city else None)
    /\ dict_get params (py "regex")
       = (if truthy regex then Some regex else None)
    /\ dict_get params (py "category")
       = (if truthy categories then Some categories else None)
    /\ dict_get params (py "favorite")
       = (if is_not_none favorite then Some (PyStr (str_lower favorite))
          else None)).
  { unfold params, p4.
    destruct (truthy jwt_token), (truthy city), (is_not_none favorite),
      (truthy regex), (truthy categories); repeat split; reflexivity. }
  exists params. unfold and_then, get_json, done.
  destruct (respond service l PathNko params) as [msg | code body | v];
    eexists; (split; [reflexivity | exact Lookups]).
Qed.

(** X12.  Called with categories that are absent, empty or a sequence,
    [get_nko_list] of mcp.py sends exactly one request to [/nko] and
    returns exactly one text.  The request carries the token, the city and
    the regex when they are true in Python's sense, the categories as one
    whole value when they are not empty, and the favorite flag whenever it
    is given and not [None], so also when it is [False]. *)
Theorem X12_tool_list_request service str_lower args l :
  let jwt_token := get_or args (py "jwt_token") (PyStr []) in
  let city := get_or args (py "city") PyNone in
  let favorite := get_or args (py "favorite") PyNone in
  let categories := get_or args (py "category") (PyList []) in
  let regex := get_or args (py "regex") PyNone in
  (truthy categories = true -> iterable categories = true) ->
  exists params t,
    McpTools.get_nko_list service str_lower args l
    = (Done [Mcp.text_content t], l ++ [Get PathNko params])
    /\ dict_get params (py "jwt_token")
       = (if truthy jwt_token then Some jwt_token else None)
    /\ dict_get params (py "city") = (if truthy city then Some city else None)
    /\ dict_get params (py "regex")
       = (if truthy regex then Some regex else None)
    /\ dict_get params (py "category")
       = (if truthy categories then Some categories else None)
    /\ dict_get params (py "favorite")
       = (if is_not_none favorite then Some (PyStr (str_lower favorite))
          else None)
    /\ (favorite = PyBool false ->
        dict_get params (py "favorite")
        = Some (PyStr (str_lower (PyBool false)))).
Proof.
  intros jwt_token city favorite categories regex Iter.
  destruct (mcp_list_request service str_lower args l Iter)
    as (params & t & Run & L1 & L2 & L3 & L4 & L5).
  fold favorite in L5.
  exists params, t. repeat (split; [assumption|]).
  intros F. rewrite L5, F. reflexivity.
Qed.

Lemma X12_tool_list_request_witness :
  exists params t,
    McpTools.get_nko_list Cases.directory Cases.word_lower
      [(py "city", PyStr (py "Казань")); (py "favorite", PyBool false);
       (py "category", PyList [PyStr (py "животные"); PyStr (py "еда")]);
       (py "regex", PyStr [])] []
    = (Done [Mcp.text_content t], [Get PathNko params])
    /\ dict_get params (py "favorite") = Some (PyStr (py "false"))
    /\ dict_get params (py "category")
       = Some (PyList [PyStr (py "животные"); PyStr (py "еда")])
    /\ dict_get params (py "regex") = None
    /\ dict_get params (py "jwt_token") = None.
Proof.
  destruct (X12_tool_list_request Cases.directory Cases.word_lower
              [(py "city", PyStr (py "Казань")); (py "favorite", PyBool false);
               (py "category",
                PyList [PyStr (py "животные"); PyStr (py "еда")]);
               (py "regex", PyStr [])] [])
    as (params & t & Run & L1 & _ & L3 & L4 & L5 & _).
  - intros _. reflexivity.
  - exists params, t. split; [exact Run|].
    split; [exact L5|]. split; [exact L4|]. split; [exact L3 | exact L1].
Defined.

(** X13.  Categories that are true in Python's sense but cannot be
    iterated (a non-zero number, [True]) make the loop raise before any
    request: [get_nko_list] of mcp.py returns the text of that error and
    the backend is not contacted. *)
Theorem X13_tool_list_bad_categories service str_lower args l :
  let categories := get_or args (py "category") (PyList []) in
  truthy categories = true ->
  iterable categories = false ->
  McpTools.get_nko_list service str_lower args l
  = (Done [Mcp.text_content
             [Lit (py "Error fetching NKO list: ");
              Lit (py "'" ++ type_name categories
                   ++ py "' object is not iterable")]],
     l).
Proof.
  intros categories T I.
  unfold McpTools.get_nko_list. fold categories. cbv zeta.
  unfold attempt, and_then. rewrite T.
  destruct categories; try discriminate I; reflexivity.
Qed.

Lemma X13_tool_list_bad_categories_witness :
  McpTools.get_nko_list Cases.directory Cases.word_lower
    [(py "category", PyInt 5)] []
  = (Done [Mcp.text_content
             [Lit (py "Error fetching NKO list: ");
              Lit (py "'int' object is not iterable")]],
     []).
Proof.
  exact (X13_tool_list_bad_categories Cases.directory Cases.word_lower
           [(py "category", PyInt 5)] [] eq_refl eq_refl).
Defined.

(** The three tools never raise and return one text; they send at most
    one request. *)
Lemma tool_list_total service str_lower args l :
  exists t l',
    McpTools.get_nko_list service str_lower args l
    = (Done [Mcp.text_content t], l')
    /\ (l' = l \/ exists params, l' = l ++ [Get PathNko params]).
Proof.
  destruct (truthy (get_or args (py "category") (PyList []))) eqn:T.
  - destruct (iterable (get_or args (py "category") (PyList []))) eqn:I.
    + destruct (mcp_list_request service str_lower args l
                  (fun _ => I)) as (params & t & E & _).
      exists t, (l ++ [Get PathNko params]). split; [exact E|].
      right. exists params. reflexivity.
    + unfold McpTools.get_nko_list. cbv zeta. unfold attempt, and_then.
      rewrite T.
      destruct (get_or args (py "category") (PyList []));
        try discriminate I;
        (eexists _, l; split; [reflexivity | left; reflexivity]).
  - destruct (mcp_list_request service str_lower args l)
      as (params & t & E & _).
    { cbv zeta. rewrite T. discriminate. }
    exists t, (l ++ [Get PathNko params]). split; [exact E|].
    right. exists params. reflexivity.
Qed.

(** The two models of [get_nko_by_id] agree: run on a service at log [l],
    the tool gives what the model on worlds gives in the world of that
    service, and logs the same request. *)
Lemma mcp_by_id_models_agree service args l :
  McpTools.get_nko_by_id service args l
  = (Bridge.inject (fst (Mcp.get_nko_by_id (Bridge.narrow service l) args [])),
     l ++ Bridge.widen
            (snd (Mcp.get_nko_by_id (Bridge.narrow service l) args []))).
Proof.
  unfold McpTools.get_nko_by_id, Mcp.get_nko_by_id, Mcp.args_get, get_or.
  destruct (truthy match dict_get args (py "nko_id") with
                   | Some v => v
                   | None => PyNone
                   end) eqn:T; cbn [negb].
  - unfold attempt, and_then, get_json, try_except, bind, http_get_json.
    cbn [Bridge.narrow backend Bridge.widen flat_map app Bridge.widen_url].
    rewrite app_nil_r.
    destruct (respond service l _ []) as [msg | code body | v];
      reflexivity.
  - cbn [done ret fst snd Bridge.inject Bridge.widen flat_map].
    rewrite app_nil_r. reflexivity.
Qed.

Lemma tool_by_id_total service args l :
  exists t l',
    McpTools.get_nko_by_id service args l = (Done [Mcp.text_content t], l')
    /\ (l' = l \/ exists p, l' = l ++ [Get p []]).
Proof.
  unfold McpTools.get_nko_by_id.
  destruct (truthy (get_or args (py "nko_id") PyNone)); cbn [negb].
  - unfold attempt, and_then, get_json, done.
    destruct (respond service l _ []) as [msg | code body | v];
      eexists _, _; (split; [reflexivity | right; eexists; reflexivity]).
  - eexists _, l. split; [reflexivity | left; reflexivity].
Qed.

Lemma tool_cities_total service args l :
  exists t l',
    McpTools.get_cities service args l = (Done [Mcp.text_content t], l')
    /\ (l' = l \/ exists p params, l' = l ++ [Get p params]).
Proof.
  unfold McpTools.get_cities. cbv zeta.
  unfold attempt, and_then, get_json, done.
  match goal with |- context [respond service l PathCity ?p] =>
    destruct (respond service l PathCity p) end;
    eexists _, _; (split; [reflexivity | right; eexists _, _; reflexivity]).
Qed.

(** The names under which [handle_list_tools] announces the tools. *)
Lemma listed_names :
  map McpTools.name McpTools.handle_list_tools
  = [py "get_nko_list"; py "get_nko_by_id"; py "get_cities"].
Proof. reflexivity. Qed.

(** X14.  Whatever the name and the arguments, [handle_call_tool] never
    raises and returns exactly one text, having sent at most one request
    to the backend. *)
Theorem X14_call_tool_total service str_lower name arguments l :
  exists t l',
    McpTools.handle_call_tool service str_lower name arguments l
    = (Done [Mcp.text_content t], l')
    /\ (l' = l \/ exists p params, l' = l ++ [Get p params]).
Proof.
  unfold McpTools.handle_call_tool, attempt.
  destruct (PyStr.eqb name (py "get_nko_list")).
  { destruct (tool_list_total service str_lower arguments l)
      as (t & l' & E & [-> | (params & ->)]); rewrite E;
      eexists _, _; (split; [reflexivity|]);
      [left | right; eexists _, _]; reflexivity. }
  destruct (PyStr.eqb name (py "get_nko_by_id")).
  { destruct (tool_by_id_total service arguments l)
      as (t & l' & E & [-> | (p & ->)]); rewrite E;
      eexists _, _; (split; [reflexivity|]);
      [left | right; eexists _, _]; reflexivity. }
  destruct (PyStr.eqb name (py "get_cities")).
  { destruct (tool_cities_total service arguments l)
      as (t & l' & E & [-> | (p & params & ->)]); rewrite E;
      eexists _, _; (split; [reflexivity|]);
      [left | right; eexists _, _]; reflexivity. }
  eexists _, l. split; [reflexivity | left; reflexivity].
Qed.

(** X15.  The tools that [handle_list_tools] announces are exactly the
    ones [handle_call_tool] knows: a call under an announced name is the
    call of the tool function of that name, and a call under any other
    name returns "Unknown tool: " followed by the name, without a
    request. *)
Theorem X15_listed_tools_are_dispatched service str_lower name arguments l :
  let listed := map McpTools.name McpTools.handle_list_tools in
  (In name listed ->
   McpTools.handle_call_tool service str_lower name arguments l
   = if PyStr.eqb name (py "get_nko_list")
     then McpTools.get_nko_list service str_lower arguments l
     else if PyStr.eqb name (py "get_nko_by_id")
          then McpTools.get_nko_by_id service arguments l
          else McpTools.get_cities service arguments l)
  /\ (~ In name listed ->
      McpTools.handle_call_tool service str_lower name arguments l
      = (Done [Mcp.text_content [Lit (py "Unknown tool: "); Lit name]], l))
  /\ List.length listed = 3
  /\ NoDup listed.
Proof.
  intros listed. unfold listed. rewrite listed_names.
  split; [|split; [|split]].
  - intros Hin. unfold McpTools.handle_call_tool, attempt.
    destruct (PyStr.eqb name (py "get_nko_list")) eqn:E1.
    { destruct (tool_list_total service str_lower arguments l)
        as (t & l' & E & _). rewrite E. reflexivity. }
    destruct (PyStr.eqb name (py "get_nko_by_id")) eqn:E2.
    { destruct (tool_by_id_total service arguments l) as (t & l' & E & _).
      rewrite E. reflexivity. }
    destruct (PyStr.eqb name (py "get_cities")) eqn:E3.
    { destruct (tool_cities_total service arguments l) as (t & l' & E & _).
      rewrite E. reflexivity. }
    exfalso. cbn [In] in Hin.
    destruct Hin as [<- | [<- | [<- | []]]];
      rewrite pystr_eqb_refl in *; discriminate.
  - intros Hout. unfold McpTools.handle_call_tool, attempt.
    assert (N : forall k, In k [py "get_nko_list"; py "get_nko_by_id";
                                py "get_cities"] ->
                          PyStr.eqb name k = false).
    { intros k Hk. apply pystr_eqb_neq. intros ->. exact (Hout Hk). }
    rewrite !N by (cbn [In]; tauto). reflexivity.
  - reflexivity.
  - repeat constructor; cbn [In]; intros H;
      repeat (destruct H as [H|H]; [discriminate H|]); exact H.
Qed.

(** *** The identifier guard and the not-found answer *)

(** X16.  [get_nko_by_id] of mcp.py contacts the backend if and only if
    the identifier is present and true in Python's sense: a missing,
    [None], zero, [False], empty-string or empty-container identifier gives
    the text "Error: nko_id is required" with no request, and any other
    identifier gives exactly one request to [/nko/{nko_id}], without
    parameters, and one text; the function never raises. *)
Theorem X16_by_id_requests_iff_true w args h :
  let nko_id := Mcp.args_get args (py "nko_id") in
  (truthy nko_id = false ->
   Mcp.get_nko_by_id w args h
   = (Ok [Mcp.text_content [Lit (py "Error: nko_id is required")]], h))
  /\ (truthy nko_id = true ->
      exists t,
        Mcp.get_nko_by_id w args h
        = (Ok [Mcp.text_content t], h ++ [HttpGet (UrlNkoById nko_id) []]))
  /\ (In nko_id [PyNone; PyBool false; PyInt 0; PyStr []; PyList [];
                 PyDict []] ->
      truthy nko_id = false)
  /\ (dict_get args (py "nko_id") = None -> truthy nko_id = false).
Proof.
  intros nko_id. split; [|split; [|split]].
  - intros T. apply mcp_guard. exact T.
  - intros T. unfold Mcp.get_nko_by_id. fold nko_id. rewrite T. cbn [negb].
    unfold try_except, bind, http_get_json, ret.
    destruct (backend w h (UrlNkoById nko_id) []) as [msg | code body | v];
      eexists; reflexivity.
  - cbn [In]. intros H.
    repeat (destruct H as [<- | H]; [reflexivity|]). destruct H.
  - intros A. unfold nko_id, Mcp.args_get. rewrite A. reflexivity.
Qed.

(** X17.  For an identifier that passes the guard, the text
    "NKO with ID {nko_id} not found" is returned exactly when the backend
    answers with status 404; every other error status is reported with its
    code and body. *)
Theorem X17_not_found_iff_404 w args h :
  let nko_id := Mcp.args_get args (py "nko_id") in
  truthy nko_id = true ->
  let not_found :=
    [Mcp.text_content
       [Lit (py "NKO with ID "); StrVal nko_id; Lit (py " not found")]] in
  (fst (Mcp.get_nko_by_id w args h) = Ok not_found
   <-> exists body, backend w h (UrlNkoById nko_id) [] = HttpStatus 404 body)
  /\ (forall status_code body,
        backend w h (UrlNkoById nko_id) [] = HttpStatus status_code body ->
        status_code <> 404%Z ->
        fst (Mcp.get_nko_by_id w args h)
        = Ok [Mcp.text_content
                [Lit (py "HTTP error "); StrVal (PyInt status_code);
                 Lit (py ": "); Lit body]]).
Proof.
  intros nko_id T not_found.
  unfold Mcp.get_nko_by_id. fold nko_id. rewrite T. cbn [negb].
  unfold try_except, bind, http_get_json, ret.
  destruct (backend w h (UrlNkoById nko_id) []) as [msg | code body | v];
    cbn [fst].
  - split.
    + split; [intros E; discriminate E | intros (b & E); discriminate E].
    + intros c b E. discriminate E.
  - destruct (Z.eqb_spec code 404) as [-> | Hc].
    + split.
      * split; [intros _; exists body; reflexivity | reflexivity].
      * intros c b E Hn. injection E as <- <-. contradiction.
    + split.
      * split; [intros E; discriminate E |].
        intros (b & E). injection E as E _. contradiction.
      * intros c b E _. injection E as <- <-. reflexivity.
  - split.
    + split; [intros E; discriminate E | intros (b & E); discriminate E].
    + intros c b E. discriminate E.
Qed.

Lemma X17_not_found_iff_404_witness :
  truthy (Mcp.args_get [(py "nko_id", PyInt 99)] (py "nko_id")) = true
  /\ fst (Mcp.get_nko_by_id (Bridge.narrow Cases.directory [])
            [(py "nko_id", PyInt 99)] [])
     = Ok [Mcp.text_content
             [Lit (py "NKO with ID "); StrVal (PyInt 99);
              Lit (py " not found")]].
Proof.
  split; [reflexivity|].
  apply (proj1 (X17_not_found_iff_404 (Bridge.narrow Cases.directory [])
                  [(py "nko_id", PyInt 99)] [] eq_refl)).
  exists (py "Not Found"). reflexivity.
Defined.

(** *** The helpers of the runner against the tools *)

(** X18.  [get_nko_by_id] of main.py has no guard: for every integer,
    zero included, it sends one request to [/nko/{nko_id}] and returns the
    decoded body, or [None] after any failure, never raising.  For a
    non-zero integer the tool of mcp.py sends the same request; for zero
    the tool sends none. *)
Theorem X18_runner_by_id_has_no_guard service nko_id l :
  let request := Get (PathNkoById (PyInt nko_id)) [] in
  MainApi.get_nko_by_id service nko_id l
  = (Done match respond service l (PathNkoById (PyInt nko_id)) [] with
          | HttpJson body => body
          | HttpRaises _ | HttpStatus _ _ => PyNone
          end,
     l ++ [request])
  /\ snd (McpTools.get_nko_by_id service [(py "nko_id", PyInt nko_id)] l)
     = (if (nko_id =? 0)%Z then l else l ++ [request]).
Proof.
  intros request. split.
  - unfold MainApi.get_nko_by_id, attempt, get_json, done.
    destruct (respond service l (PathNkoById (PyInt nko_id)) []);
      reflexivity.
  - unfold McpTools.get_nko_by_id, get_or.
    cbn [dict_get]. rewrite pystr_eqb_refl. cbn [truthy].
    destruct (nko_id =? 0)%Z; cbn [negb snd done]; [reflexivity|].
    unfold attempt, and_then, get_json, done.
    destruct (respond service l (PathNkoById (PyInt nko_id)) []);
      reflexivity.
Qed.

(** X19.  Given the same regex, [get_cities] of main.py and the tool of
    mcp.py send the same single request to [/city], with the regex as the
    only parameter when it is a non-empty string and without parameters
    otherwise.  On success the helper returns the cities the tool prints;
    on any failure the helper returns the empty list while the tool
    returns an error text. *)
Theorem X19_cities_helper_and_tool service regex l :
  let params :=
    match regex with
    | Some (c :: r) => [(py "regex", PyStr (c :: r))]
    | Some [] | None => []
    end in
  let args :=
    match regex with
    | Some r => [(py "regex", PyStr r)]
    | None => []
    end in
  snd (MainApi.get_cities service regex l) = l ++ [Get PathCity params]
  /\ snd (McpTools.get_cities service args l) = l ++ [Get PathCity params]
  /\ (forall cities,
        respond service l PathCity params = HttpJson cities ->
        fst (MainApi.get_cities service regex l) = Done cities
        /\ fst (McpTools.get_cities service args l)
           = Done [Mcp.text_content [JsonDumps cities]])
  /\ ((forall cities, respond service l PathCity params <> HttpJson cities) ->
      fst (MainApi.get_cities service regex l) = Done (PyList [])
      /\ exists t,
           fst (McpTools.get_cities service args l)
           = Done [Mcp.text_content t]
           /\ forall cities, t <> [JsonDumps cities]).
Proof.
  intros params args.
  assert (P1 : (if truthy (of_opt regex)
                then dict_set [] (py "regex") (of_opt regex) else [])
               = params).
  { unfold params. destruct regex as [[|c r]|]; reflexivity. }
  assert (P2 : (if truthy (get_or args (py "regex") PyNone)
                then dict_set [] (py "regex") (get_or args (py "regex") PyNone)
                else [])
               = params).
  { unfold params, args, get_or. destruct regex as [[|c r]|]; reflexivity. }
  unfold MainApi.get_cities, McpTools.get_cities. cbv zeta.
  rewrite P1, P2. unfold attempt, and_then, get_json, done.
  destruct (respond service l PathCity params) as [msg | code body | v];
    cbn [fst snd];
    (split; [reflexivity|]); (split; [reflexivity|]); split.
  - intros c E. discriminate E.
  - intros _. split; [reflexivity|]. eexists. split; [reflexivity|].
    intros c E. discriminate E.
  - intros c E. discriminate E.
  - intros _. split; [reflexivity|]. eexists. split; [reflexivity|].
    intros c E. discriminate E.
  - intros c E. injection E as <-. split; reflexivity.
  - intros Hno. exfalso. exact (Hno v eq_refl).
Qed.

(* ===================================================================== *)
(** ** The decoder under the limits of the interpreter (claim C5) *)
(* ===================================================================== *)

(** *** Within the limits the decoder is the plain one *)

Lemma limited_match_number_within lim s :
  Limited.exceeded (Limited.match_number lim s) = false ->
  Json.match_number s = Limited.erase (Limited.match_number lim s).
Proof.
  unfold Limited.match_number, Json.match_number.
  destruct (Json.scan_sign s) as [neg s1].
  destruct (Json.scan_int s1) as [[ids s2]|]; [|reflexivity].
  destruct (Json.scan_frac s2) as [frac s3].
  destruct (Json.scan_exp s3) as [ex s4].
  destruct frac; [|reflexivity]. destruct ex; [reflexivity|].
  destruct (Limited.too_many_digits lim (List.length ids));
    [discriminate | reflexivity].
Qed.

Lemma limited_scan_literal_within lim s :
  Limited.exceeded (Limited.scan_literal lim s) = false ->
  Json.scan_literal s = Limited.erase (Limited.scan_literal lim s).
Proof.
  unfold Limited.scan_literal, Json.scan_literal.
  destruct (Json.starts_with (py "null") s); [reflexivity|].
  destruct (Json.starts_with (py "true") s); [reflexivity|].
  destruct (Json.starts_with (py "false") s); [reflexivity|].
  pose proof (limited_match_number_within lim s) as N.
  destruct (Limited.match_number lim s) as [res| |e];
    cbn [Limited.exceeded Limited.erase] in N |- *.
  - intros _. rewrite N by reflexivity. reflexivity.
  - intros _. rewrite N by reflexivity.
    destruct (Json.starts_with (py "NaN") s); [reflexivity|].
    destruct (Json.starts_with (py "Infinity") s); [reflexivity|].
    destruct (Json.starts_with (py "-Infinity") s); reflexivity.
  - discriminate.
Qed.

Section LimitedContainers.

Variable scan_value : pystr -> Limited.scan (pyval * pystr).
Variable scan : pystr -> option (pyval * pystr).

Hypothesis scan_within : forall s,
  Limited.exceeded (scan_value s) = false ->
  scan s = Limited.erase (scan_value s).

Lemma limited_array_tail_within n : forall s acc,
  Limited.exceeded (Limited.array_tail scan_value n s acc) = false ->
  Json.array_tail scan n s acc
  = Limited.erase (Limited.array_tail scan_value n s acc).
Proof.
  induction n as [|n IH]; intros s acc; [reflexivity|].
  cbn [Limited.array_tail Json.array_tail].
  destruct (Json.skip_ws s) as [|c r]; [reflexivity|].
  destruct (c =? 93)%N; [reflexivity|].
  destruct (c =? 44)%N; [|reflexivity].
  pose proof (scan_within (Json.skip_ws r)) as W.
  destruct (scan_value (Json.skip_ws r)) as [[v rest]| |e];
    cbn [Limited.exceeded Limited.erase] in W.
  - rewrite W by reflexivity. apply IH.
  - rewrite W by reflexivity. reflexivity.
  - discriminate.
Qed.

Lemma limited_parse_array_within s :
  Limited.exceeded (Limited.parse_array scan_value s) = false ->
  Json.parse_array scan s = Limited.erase (Limited.parse_array scan_value s).
Proof.
  unfold Limited.parse_array, Json.parse_array.
  destruct (Json.skip_ws s) as [|c r]; [reflexivity|].
  destruct (c =? 93)%N; [reflexivity|].
  pose proof (scan_within (c :: r)) as W.
  destruct (scan_value (c :: r)) as [[v rest]| |e];
    cbn [Limited.exceeded Limited.erase] in W.
  - rewrite W by reflexivity. apply limited_array_tail_within.
  - rewrite W by reflexivity. reflexivity.
  - discriminate.
Qed.

Lemma limited_parse_pair_within s :
  Limited.exceeded (Limited.parse_pair scan_value s) = false ->
  Json.parse_pair scan s = Limited.erase (Limited.parse_pair scan_value s).
Proof.
  unfold Limited.parse_pair, Json.parse_pair.
  destruct s as [|q r]; [reflexivity|].
  destruct (q =? 34)%N; [|reflexivity].
  destruct (Json.scanstring r []) as [[k r1]|]; [|reflexivity].
  destruct (Json.skip_ws r1) as [|colon r2]; [reflexivity|].
  destruct (colon =? 58)%N; [|reflexivity].
  pose proof (scan_within (Json.skip_ws r2)) as W.
  destruct (scan_value (Json.skip_ws r2)) as [[v rest]| |e];
    cbn [Limited.exceeded Limited.erase] in W.
  - rewrite W by reflexivity. reflexivity.
  - rewrite W by reflexivity. reflexivity.
  - discriminate.
Qed.

Lemma limited_object_tail_within n : forall s acc,
  Limited.exceeded (Limited.object_tail scan_value n s acc) = false ->
  Json.object_tail scan n s acc
  = Limited.erase (Limited.object_tail scan_value n s acc).
Proof.
  induction n as [|n IH]; intros s acc; [reflexivity|].
  cbn [Limited.object_tail Json.object_tail].
  destruct (Json.skip_ws s) as [|c r]; [reflexivity|].
  destruct (c =? 125)%N; [reflexivity|].
  destruct (c =? 44)%N; [|reflexivity].
  pose proof (limited_parse_pair_within (Json.skip_ws r)) as W.
  destruct (Limited.parse_pair scan_value (Json.skip_ws r))
    as [[[k v] rest]| |e]; cbn [Limited.exceeded Limited.erase] in W.
  - rewrite W by reflexivity. apply IH.
  - rewrite W by reflexivity. reflexivity.
  - discriminate.
Qed.

Lemma limited_parse_object_within s :
  Limited.exceeded (Limited.parse_object scan_value s) = false ->
  Json.parse_object scan s
  = Limited.erase (Limited.parse_object scan_value s).
Proof.
  unfold Limited.parse_object, Json.parse_object.
  destruct (Json.skip_ws s) as [|c r]; [reflexivity|].
  destruct (c =? 125)%N; [reflexivity|].
  pose proof (limited_parse_pair_within (c :: r)) as W.
  destruct (Limited.parse_pair scan_value (c :: r))
    as [[[k v] rest]| |e]; cbn [Limited.exceeded Limited.erase] in W.
  - rewrite W by reflexivity. apply limited_object_tail_within.
  - rewrite W by reflexivity. reflexivity.
  - discriminate.
Qed.

End LimitedContainers.

(** A scan that stays within [d] levels is the scan of [Json] at any
    budget of at least [d]. *)
Lemma limited_scan_once_within lim d : forall d' s,
  d <= d' ->
  Limited.exceeded (Limited.scan_once lim d s) = false ->
  Json.scan_once d' s = Limited.erase (Limited.scan_once lim d s).
Proof.
  induction d as [|d IH]; intros d' s Hd; destruct s as [|c r].
  - destruct d'; reflexivity.
  - assert (E : Json.scan_once d' (c :: r)
                = if (c =? 34)%N then
                    match Json.scanstring r [] with
                    | Some (x, rest) => Some (PyStr x, rest)
                    | None => None
                    end
                  else if (c =? 123)%N then
                    match d' with
                    | O => None
                    | S d => Json.parse_object (Json.scan_once d) r
                    end
                  else if (c =? 91)%N then
                    match d' with
                    | O => None
                    | S d => Json.parse_array (Json.scan_once d) r
                    end
                  else Json.scan_literal (c :: r))
      by (destruct d'; reflexivity).
    rewrite E. cbn [Limited.scan_once].
    destruct (c =? 34)%N.
    { destruct (Json.scanstring r []) as [[x rest]|]; reflexivity. }
    destruct (c =? 123)%N; [discriminate|].
    destruct (c =? 91)%N; [discriminate|].
    apply limited_scan_literal_within.
  - destruct d'; reflexivity.
  - destruct d' as [|d']; [lia|].
    cbn [Limited.scan_once Json.scan_once].
    destruct (c =? 34)%N.
    { destruct (Json.scanstring r []) as [[x rest]|]; reflexivity. }
    destruct (c =? 123)%N.
    { apply limited_parse_object_within. intros s. apply IH. lia. }
    destruct (c =? 91)%N.
    { apply limited_parse_array_within. intros s. apply IH. lia. }
    apply limited_scan_literal_within.
Qed.

(** Whenever [json.loads] raises nothing but [json.JSONDecodeError], its
    outcome is the one of the plain decoder. *)
Lemma limited_loads_within lim s :
  Limited.exceeded (Limited.loads lim s) = false ->
  Json.loads s = Limited.erase (Limited.loads lim s).
Proof.
  intros H.
  rewrite (loads_budget s (Nat.max (List.length s) (Limited.max_depth lim)))
    by lia.
  revert H. unfold Limited.loads.
  assert (G : Limited.exceeded
                (match
                   Limited.scan_once lim (Limited.max_depth lim)
                     (Json.skip_ws s)
                 with
                 | Limited.Found (v, rest) =>
                     match Json.skip_ws rest with
                     | [] => Limited.Found v
                     | _ :: _ => Limited.Invalid
                     end
                 | Limited.Invalid => Limited.Invalid
                 | Limited.Exceeded e => Limited.Exceeded e
                 end) = false ->
              match
                Json.scan_once
                  (Nat.max (List.length s) (Limited.max_depth lim))
                  (Json.skip_ws s)
              with
              | Some (v, rest) =>
                  match Json.skip_ws rest with
                  | [] => Some v
                  | _ :: _ => None
                  end
              | None => None
              end
              = Limited.erase
                  (match
                     Limited.scan_once lim (Limited.max_depth lim)
                       (Json.skip_ws s)
                   with
                   | Limited.Found (v, rest) =>
                       match Json.skip_ws rest with
                       | [] => Limited.Found v
                       | _ :: _ => Limited.Invalid
                       end
                   | Limited.Invalid => Limited.Invalid
                   | Limited.Exceeded e => Limited.Exceeded e
                   end)).
  { pose proof (limited_scan_once_within lim (Limited.max_depth lim)
                  (Nat.max (List.length s) (Limited.max_depth lim))
                  (Json.skip_ws s)) as W.
    destruct (Limited.scan_once lim (Limited.max_depth lim) (Json.skip_ws s))
      as [[v rest]| |e]; cbn [Limited.exceeded Limited.erase] in W.
    - intros _. rewrite W by (try reflexivity; lia).
      destruct (Json.skip_ws rest); reflexivity.
    - intros _. rewrite W by (try reflexivity; lia). reflexivity.
    - discriminate. }
  destruct s as [|c r]; [exact G|].
  destruct c as [|p]; [exact G|].
  repeat (destruct p as [p|p|]; try exact G).
  reflexivity.
Qed.

(** *** Texts that stay within the limits *)

Lemma take_digits_split s :
  fst (Json.take_digits s) ++ snd (Json.take_digits s) = s.
Proof.
  induction s as [|c r IH]; [reflexivity|].
  cbn [Json.take_digits]. destruct (Json.is_digit c); [|reflexivity].
  destruct (Json.take_digits r) as [ds rest]. cbn [fst snd app] in *.
  rewrite IH. reflexivity.
Qed.

Lemma scan_int_digits s ids rest :
  Json.scan_int s = Some (ids, rest) -> List.length ids <= List.length s.
Proof.
  unfold Json.scan_int. destruct s as [|c r]; [discriminate|].
  destruct ((49 <=? c)%N && (c <=? 57)%N).
  - pose proof (take_digits_split r) as E.
    destruct (Json.take_digits r) as [ds t]. cbn [fst snd] in E.
    intros [= <- <-]. rewrite <- E. cbn [List.length].
    rewrite length_app. lia.
  - destruct (c =? 48)%N; [|discriminate].
    intros [= <- <-]. cbn [List.length]. lia.
Qed.

Lemma too_many_digits_short lim n :
  n <= 640 -> Limited.too_many_digits lim n = false.
Proof.
  intros H. unfold Limited.too_many_digits.
  destruct (Nat.ltb_spec 640 n) as [L|_]; [lia | reflexivity].
Qed.

Lemma limited_match_number_short lim s :
  List.length s <= 640 ->
  Limited.exceeded (Limited.match_number lim s) = false.
Proof.
  intros H. unfold Limited.match_number.
  pose proof (scan_sign_length s) as S1.
  destruct (Json.scan_sign s) as [neg s1]. cbn [snd] in S1.
  destruct (Json.scan_int s1) as [[ids s2]|] eqn:I; [|reflexivity].
  apply scan_int_digits in I.
  destruct (Json.scan_frac s2) as [frac s3].
  destruct (Json.scan_exp s3) as [ex s4].
  destruct frac; [|reflexivity]. destruct ex; [reflexivity|].
  rewrite too_many_digits_short by lia. reflexivity.
Qed.

Lemma limited_scan_literal_short lim s :
  List.length s <= 640 ->
  Limited.exceeded (Limited.scan_literal lim s) = false.
Proof.
  intros H. unfold Limited.scan_literal.
  destruct (Json.starts_with (py "null") s); [reflexivity|].
  destruct (Json.starts_with (py "true") s); [reflexivity|].
  destruct (Json.starts_with (py "false") s); [reflexivity|].
  pose proof (limited_match_number_short lim s H) as N.
  destruct (Limited.match_number lim s) as [res| |e];
    [reflexivity | | discriminate N].
  destruct (Json.starts_with (py "NaN") s); [reflexivity|].
  destruct (Json.starts_with (py "Infinity") s); [reflexivity|].
  destruct (Json.starts_with (py "-Infinity") s); reflexivity.
Qed.

Section ShortContainers.

Variable scan_value : pystr -> Limited.scan (pyval * pystr).
Variable bound : nat.

Hypothesis scan_short : forall s,
  List.length s <= bound -> Limited.exceeded (scan_value s) = false.

Hypothesis scan_consumes : forall s v rest,
  scan_value s = Limited.Found (v, rest) -> List.length rest < List.length s.

Lemma limited_array_tail_short n : forall s acc,
  List.length s <= bound ->
  Limited.exceeded (Limited.array_tail scan_value n s acc) = false.
Proof.
  induction n as [|n IH]; intros s acc Hs; [reflexivity|].
  cbn [Limited.array_tail].
  pose proof (skip_ws_length s) as W.
  destruct (Json.skip_ws s) as [|c r]; [reflexivity|].
  cbn [List.length] in W.
  destruct (c =? 93)%N; [reflexivity|].
  destruct (c =? 44)%N; [|reflexivity].
  pose proof (skip_ws_length r) as W'.
  pose proof (scan_short (Json.skip_ws r)) as A.
  pose proof (scan_consumes (Json.skip_ws r)) as B.
  destruct (scan_value (Json.skip_ws r)) as [[v rest]| |e].
  - specialize (B v rest eq_refl). apply IH. lia.
  - reflexivity.
  - apply A. lia.
Qed.

Lemma limited_parse_array_short s :
  List.length s <= bound ->
  Limited.exceeded (Limited.parse_array scan_value s) = false.
Proof.
  intros Hs. unfold Limited.parse_array.
  pose proof (skip_ws_length s) as W.
  destruct (Json.skip_ws s) as [|c r]; [reflexivity|].
  destruct (c =? 93)%N; [reflexivity|].
  pose proof (scan_short (c :: r)) as A.
  pose proof (scan_consumes (c :: r)) as B.
  destruct (scan_value (c :: r)) as [[v rest]| |e].
  - specialize (B v rest eq_refl). apply limited_array_tail_short. lia.
  - reflexivity.
  - apply A. lia.
Qed.

Lemma limited_parse_pair_short s :
  List.length s <= bound ->
  Limited.exceeded (Limited.parse_pair scan_value s) = false.
Proof.
  intros Hs. unfold Limited.parse_pair.
  destruct s as [|q r]; [reflexivity|]. cbn [List.length] in Hs.
  destruct (q =? 34)%N; [|reflexivity].
  destruct (Json.scanstring r []) as [[k r1]|] eqn:K; [|reflexivity].
  apply scanstring_length in K.
  pose proof (skip_ws_length r1) as W.
  destruct (Json.skip_ws r1) as [|colon r2]; [reflexivity|].
  cbn [List.length] in W.
  destruct (colon =? 58)%N; [|reflexivity].
  pose proof (skip_ws_length r2) as W'.
  pose proof (scan_short (Json.skip_ws r2)) as A.
  destruct (scan_value (Json.skip_ws r2)) as [[v rest]| |e].
  - reflexivity.
  - reflexivity.
  - apply A. lia.
Qed.

Lemma limited_parse_pair_consumes s k v rest :
  Limited.parse_pair scan_value s = Limited.Found (k, v, rest) ->
  List.length rest < List.length s.
Proof.
  unfold Limited.parse_pair.
  destruct s as [|q r]; [discriminate|]. cbn [List.length].
  destruct (q =? 34)%N; [|discriminate].
  destruct (Json.scanstring r []) as [[k1 r1]|] eqn:K; [|discriminate].
  apply scanstring_length in K.
  pose proof (skip_ws_length r1) as W.
  destruct (Json.skip_ws r1) as [|colon r2]; [discriminate|].
  cbn [List.length] in W.
  destruct (colon =? 58)%N; [|discriminate].
  pose proof (skip_ws_length r2) as W'.
  pose proof (scan_consumes (Json.skip_ws r2)) as B.
  destruct (scan_value (Json.skip_ws r2)) as [[v1 rest1]| |e];
    [|discriminate|discriminate].
  specialize (B v1 rest1 eq_refl). intros [= _ _ <-]. lia.
Qed.

Lemma limited_object_tail_short n : forall s acc,
  List.length s <= bound ->
  Limited.exceeded (Limited.object_tail scan_value n s acc) = false.
Proof.
  induction n as [|n IH]; intros s acc Hs; [reflexivity|].
  cbn [Limited.object_tail].
  pose proof (skip_ws_length s) as W.
  destruct (Json.skip_ws s) as [|c r]; [reflexivity|].
  cbn [List.length] in W.
  destruct (c =? 125)%N; [reflexivity|].
  destruct (c =? 44)%N; [|reflexivity].
  pose proof (skip_ws_length r) as W'.
  pose proof (limited_parse_pair_short (Json.skip_ws r)) as A.
  pose proof (limited_parse_pair_consumes (Json.skip_ws r)) as B.
  destruct (Limited.parse_pair scan_value (Json.skip_ws r))
    as [[[k v] rest]| |e].
  - specialize (B k v rest eq_refl). apply IH. lia.
  - reflexivity.
  - apply A. lia.
Qed.

Lemma limited_parse_object_short s :
  List.length s <= bound ->
  Limited.exceeded (Limited.parse_object scan_value s) = false.
Proof.
  intros Hs. unfold Limited.parse_object.
  pose proof (skip_ws_length s) as W.
  destruct (Json.skip_ws s) as [|c r]; [reflexivity|].
  destruct (c =? 125)%N; [reflexivity|].
  pose proof (limited_parse_pair_short (c :: r)) as A.
  pose proof (limited_parse_pair_consumes (c :: r)) as B.
  destruct (Limited.parse_pair scan_value (c :: r)) as [[[k v] rest]| |e].
  - specialize (B k v rest eq_refl). apply limited_object_tail_short. lia.
  - reflexivity.
  - apply A. lia.
Qed.

End ShortContainers.

Lemma limited_scan_once_consumes lim d s v rest :
  Limited.scan_once lim d s = Limited.Found (v, rest) ->
  List.length rest < List.length s.
Proof.
  intros H. apply (scan_once_length d s v).
  rewrite (limited_scan_once_within lim d d s (le_n d)); rewrite H;
    reflexivity.
Qed.

(** A text of at most 640 characters, and of no more characters than the
    decoder has levels, hits no limit. *)
Lemma limited_scan_once_short lim d : forall s,
  List.length s <= d -> List.length s <= 640 ->
  Limited.exceeded (Limited.scan_once lim d s) = false.
Proof.
  induction d as [|d IH]; intros s Hd Hs.
  - destruct s; [reflexivity | cbn in Hd; lia].
  - destruct s as [|c r]; [reflexivity|].
    cbn [Limited.scan_once]. cbn [List.length] in Hd, Hs.
    destruct (c =? 34)%N.
    { destruct (Json.scanstring r []) as [[x rest]|]; reflexivity. }
    destruct (c =? 123)%N.
    { apply (limited_parse_object_short _ (List.length r)); [| |lia].
      - intros s Hl. apply IH; lia.
      - apply limited_scan_once_consumes. }
    destruct (c =? 91)%N.
    { apply (limited_parse_array_short _ (List.length r)); [| |lia].
      - intros s Hl. apply IH; lia.
      - apply limited_scan_once_consumes. }
    apply limited_scan_literal_short. cbn [List.length]. lia.
Qed.

Lemma limited_loads_short lim s :
  List.length s <= 640 -> List.length s <= Limited.max_depth lim ->
  Limited.exceeded (Limited.loads lim s) = false.
Proof.
  intros H1 H2.
  pose proof (skip_ws_length s) as W.
  pose proof (limited_scan_once_short lim (Limited.max_depth lim)
                (Json.skip_ws s)) as A.
  assert (G : Limited.exceeded
                (match
                   Limited.scan_once lim (Limited.max_depth lim)
                     (Json.skip_ws s)
                 with
                 | Limited.Found (v, rest) =>
                     match Json.skip_ws rest with
                     | [] => Limited.Found v
                     | _ :: _ => Limited.Invalid
                     end
                 | Limited.Invalid => Limited.Invalid
                 | Limited.Exceeded e => Limited.Exceeded e
                 end) = false).
  { destruct (Limited.scan_once lim (Limited.max_depth lim) (Json.skip_ws s))
      as [[v rest]| |e].
    - destruct (Json.skip_ws rest); reflexivity.
    - reflexivity.
    - apply A; lia. }
  unfold Limited.loads.
  destruct s as [|c r]; [exact G|].
  destruct c as [|p]; [exact G|].
  repeat (destruct p as [p|p|]; try exact G).
  reflexivity.
Qed.

(** *** A JSON array of plain names, again *)

Lemma limited_scan_once_quoted lim d s rest :
  Shape.plain s = true ->
  Limited.scan_once lim d (Scenario.quoted s ++ rest)
  = Limited.Found (PyStr s, rest).
Proof.
  intros H. unfold Scenario.quoted.
  change ((34%N :: s ++ [34%N]) ++ rest)
    with (34%N :: (s ++ [34%N]) ++ rest).
  rewrite <- app_assoc. cbn [app].
  destruct d; cbn [Limited.scan_once N.eqb Pos.eqb];
    rewrite (scanstring_plain s [] rest H); reflexivity.
Qed.

Lemma limited_array_tail_comma scan_value n t acc :
  Limited.array_tail scan_value (S n) (44%N :: 32%N :: t) acc
  = match scan_value (Json.skip_ws t) with
    | Limited.Found (v, rest) =>
        Limited.array_tail scan_value n rest (v :: acc)
    | Limited.Invalid => Limited.Invalid
    | Limited.Exceeded e => Limited.Exceeded e
    end.
Proof. reflexivity. Qed.

Lemma limited_array_tail_names lim d names : forall n acc rest,
  Forall (fun s => Shape.plain s = true) names ->
  List.length names < n ->
  Limited.array_tail (Limited.scan_once lim d) n
    (List.concat (map (fun s => py ", " ++ Scenario.quoted s) names)
     ++ 93%N :: rest) acc
  = Limited.Found (PyList (rev acc ++ map PyStr names), rest).
Proof.
  induction names as [|s names IH]; intros n acc rest Hp Hn.
  - destruct n as [|n]; [cbn in Hn; lia|].
    cbn [map List.concat app Limited.array_tail Json.skip_ws].
    rewrite app_nil_r. reflexivity.
  - destruct n as [|n]; [cbn in Hn; lia|].
    inversion Hp as [|? ? Hs Hrest]; subst.
    rewrite others_text_cons, limited_array_tail_comma, skip_ws_quoted.
    rewrite (limited_scan_once_quoted lim d s _ Hs).
    rewrite (IH n (PyStr s :: acc) rest Hrest) by (cbn in Hn; lia).
    cbn [rev map]. rewrite <- app_assoc. reflexivity.
Qed.

Lemma limited_parse_array_first scan_value first t :
  Limited.parse_array scan_value (Scenario.quoted first ++ t)
  = match scan_value (Scenario.quoted first ++ t) with
    | Limited.Found (v, rest) =>
        Limited.array_tail scan_value (List.length rest) rest [v]
    | Limited.Invalid => Limited.Invalid
    | Limited.Exceeded e => Limited.Exceeded e
    end.
Proof. reflexivity. Qed.

(** With one level to enter, the decoder reads the array text of plain
    names back. *)
Lemma limited_loads_array_text lim names :
  1 <= Limited.max_depth lim ->
  Forall (fun s => Shape.plain s = true) names ->
  Limited.loads lim (Shape.array_text names)
  = Limited.Found (PyList (map PyStr names)).
Proof.
  intros Hd Hp. unfold Limited.loads.
  destruct (Limited.max_depth lim) as [|d]; [lia|].
  destruct names as [|first others]; [reflexivity|].
  inversion Hp as [|? ? Hfirst Hothers]; subst.
  unfold Shape.array_text.
  set (t := List.concat (map (fun s => py ", " ++ Scenario.quoted s) others)
            ++ [93%N]).
  cbn [Json.skip_ws Json.is_ws N.eqb Pos.eqb orb Limited.scan_once].
  rewrite limited_parse_array_first.
  rewrite (limited_scan_once_quoted lim d first t Hfirst).
  unfold t.
  rewrite (limited_array_tail_names lim d others _ [PyStr first] [] Hothers)
    by apply length_others_text.
  reflexivity.
Qed.

(** *** Texts beyond the limits *)

(** One opening bracket more than the decoder has levels: whatever
    follows, [json.loads] raises [RecursionError]. *)
Lemma limited_scan_once_deep lim d rest :
  Limited.scan_once lim d (repeat 91%N (S d) ++ rest)
  = Limited.Exceeded Limited.RecursionError.
Proof.
  induction d as [|d IH]; [reflexivity|].
  change (repeat 91%N (S (S d)) ++ rest)
    with (91%N :: repeat 91%N (S d) ++ rest).
  cbn [Limited.scan_once N.eqb Pos.eqb].
  unfold Limited.parse_array.
  change (Json.skip_ws (repeat 91%N (S d) ++ rest))
    with (repeat 91%N (S d) ++ rest).
  change (repeat 91%N (S d) ++ rest)
    with (91%N :: repeat 91%N d ++ rest) at 1.
  cbn [N.eqb Pos.eqb]. rewrite IH. reflexivity.
Qed.

Lemma limited_loads_deep lim rest :
  Limited.loads lim (repeat 91%N (S (Limited.max_depth lim)) ++ rest)
  = Limited.Exceeded Limited.RecursionError.
Proof.
  unfold Limited.loads.
  change (Json.skip_ws (repeat 91%N (S (Limited.max_depth lim)) ++ rest))
    with (repeat 91%N (S (Limited.max_depth lim)) ++ rest).
  rewrite limited_scan_once_deep. reflexivity.
Qed.

Lemma take_digits_all ds :
  forallb Json.is_digit ds = true -> Json.take_digits ds = (ds, []).
Proof.
  induction ds as [|c r IH]; [reflexivity|].
  cbn [forallb Json.take_digits]. intros H. apply andb_prop in H.
  destruct H as [Hc Hr]. rewrite Hc, (IH Hr). reflexivity.
Qed.

(** An integer literal of more digits than [int] accepts:
    [json.loads] raises [ValueError]. *)
Lemma limited_loads_long_integer lim s :
  forallb Json.is_digit s = true ->
  hd 48%N s <> 48%N ->
  Limited.too_many_digits lim (List.length s) = true ->
  Limited.loads lim s = Limited.Exceeded Limited.ValueError.
Proof.
  intros Hd Hz Hm.
  destruct s as [|c r].
  { unfold Limited.too_many_digits in Hm. discriminate Hm. }
  cbn [hd] in Hz. cbn [forallb] in Hd. apply andb_prop in Hd.
  destruct Hd as [Hc Hr].
  assert (R : (49 <= c <= 57)%N).
  { unfold Json.is_digit in Hc. apply andb_prop in Hc.
    destruct Hc as [A B]. apply N.leb_le in A, B. lia. }
  assert (N : Limited.match_number lim (c :: r)
              = Limited.Exceeded Limited.ValueError).
  { unfold Limited.match_number, Json.scan_sign.
    destruct (N.eqb_spec c 45) as [|_]; [lia|].
    unfold Json.scan_int.
    destruct (N.leb_spec 49 c) as [_|]; [|lia].
    destruct (N.leb_spec c 57) as [_|]; [|lia].
    cbn [andb]. rewrite (take_digits_all r Hr).
    cbn [Json.scan_frac Json.scan_exp]. rewrite Hm. reflexivity. }
  assert (L : Limited.scan_literal lim (c :: r)
              = Limited.Exceeded Limited.ValueError).
  { unfold Limited.scan_literal.
    change (py "null") with (110 :: py "ull")%N.
    change (py "true") with (116 :: py "rue")%N.
    change (py "false") with (102 :: py "alse")%N.
    rewrite !starts_with_head by lia. rewrite N. reflexivity. }
  assert (S : forall d, Limited.scan_once lim d (Json.skip_ws (c :: r))
                        = Limited.Exceeded Limited.ValueError).
  { intros d.
    assert (W : Json.skip_ws (c :: r) = c :: r).
    { cbn [Json.skip_ws]. unfold Json.is_ws.
      destruct (N.eqb_spec c 32); [lia|]. destruct (N.eqb_spec c 9); [lia|].
      destruct (N.eqb_spec c 10); [lia|]. destruct (N.eqb_spec c 13); [lia|].
      reflexivity. }
    rewrite W.
    destruct d; cbn [Limited.scan_once];
      (destruct (N.eqb_spec c 34); [lia|]);
      (destruct (N.eqb_spec c 123); [lia|]);
      (destruct (N.eqb_spec c 91); [lia|]); exact L. }
  unfold Limited.loads. rewrite S.
  destruct c as [|p]; [reflexivity|].
  repeat (destruct p as [p|p|]; try reflexivity); lia.
Qed.

(** *** The extraction in closed form *)

Lemma limited_extract_categories_run lim w query h :
  Limited.extract_categories_from_query lim w query h
  = (Ok match completion w h (AskCategories query) with
        | ChatContent (Some s) =>
            match Limited.loads lim (strip s) with
            | Limited.Found v => v
            | Limited.Invalid =>
                PyList (map PyStr (comma_separated (strip s)))
            | Limited.Exceeded _ => PyList []
            end
        | ChatContent None | ChatRaises _ => PyList []
        end,
     h ++ [Chat (AskCategories query)]).
Proof.
  unfold Limited.extract_categories_from_query, Limited.attempt,
    Limited.and_then, Limited.lift, create_completion.
  destruct (completion w h (AskCategories query)) as [msg | [s|]];
    try reflexivity.
  unfold content_strip, ret.
  destruct (Limited.loads lim (strip s)); reflexivity.
Qed.

(** Whenever [json.loads] raises nothing but [json.JSONDecodeError], the
    extraction is the one of [Server]. *)
Lemma limited_extract_categories_within lim w query h :
  (forall raw,
     completion w h (AskCategories query) = ChatContent (Some raw) ->
     Limited.exceeded (Limited.loads lim (strip raw)) = false) ->
  Limited.extract_categories_from_query lim w query h
  = Server.extract_categories_from_query w query h.
Proof.
  intros H.
  rewrite limited_extract_categories_run, server_extract_categories_run.
  unfold Outcome.categories_of.
  destruct (completion w h (AskCategories query)) as [msg | [s|]];
    try reflexivity.
  specialize (H s eq_refl).
  rewrite (limited_loads_within lim (strip s) H).
  destruct (Limited.loads lim (strip s)); [reflexivity..|discriminate H].
Qed.

(** *** The claim *)



